(** * fheroes2: secondary-skill progression and spell cost / valuation

  A shallow embedding of [src/fheroes2/heroes/skill.cpp] and
  [src/fheroes2/spell/spell.cpp].

  Conventions.
  - C++ [int], [uint32_t] and [uint8_t] values are integers of [Z]; where
    the code computes in an unsigned 32-bit type the wrap-around is
    written out with [wrap32].
  - [std::vector<Secondary>] is a [list Secondary]; [find_if] is stdpp's
    [list_find], an element written through an iterator is a list insert.
  - [double] is kept behind an interface of operations ([DoubleOps]); the
    module [F64] implements it with round-to-nearest-even binary64
    arithmetic on finite values.
  - What the code obtains from its collaborators (race tables, the hero,
    the random draw, monster strength) is a parameter or a record field. *)

From Stdlib Require Import ZArith Lia Bool String.
From stdpp Require Import base decidable option list numbers.

Local Open Scope Z_scope.

(** Unsigned 32-bit wrap-around, the value of a conversion to [uint32_t]. *)
Definition wrap32 (z : Z) : Z := z mod 2 ^ 32.

(** ** Shared enumerations and the hero, as far as the code reads it *)

(** [fheroes2::ArtifactBonusType], the members used by the two files. *)
Module ArtifactBonusType.
Inductive t : Type :=
| NONE
| BLESS_SPELL_COST_REDUCTION_PERCENT
| SUMMONING_SPELL_COST_REDUCTION_PERCENT
| CURSE_SPELL_COST_REDUCTION_PERCENT
| MIND_INFLUENCE_SPELL_COST_REDUCTION_PERCENT
| NECROMANCY_SKILL.
End ArtifactBonusType.

(** The schools of magic, [Spell::NO_SCHOOL] and the four elements. *)
Inductive SchoolOfMagic : Type :=
| NO_SCHOOL
| FIRE_MAGIC
| AIR_MAGIC
| EARTH_MAGIC
| WATER_MAGIC.

(** [HeroBase], reduced to the observations made of it:
    - [necromancyShrines] is
      [world.GetKingdom( hero.GetColor() ).GetCountNecromancyShrineBuild()];
    - [isArtifactBonusPresent] and [getTotalArtifactMultipliedPercent] are
      those of [hero.GetBagArtifacts()];
    - [GetSecondaryValues] is the hero's value of a secondary skill;
    - [schoolLevel] is the hero's mastery level (0 to 3) in a school. *)
Record HeroBase : Type := mkHeroBase {
  necromancyShrines : Z;
  isArtifactBonusPresent : ArtifactBonusType.t -> bool;
  getTotalArtifactMultipliedPercent : ArtifactBonusType.t -> list Z;
  GetSecondaryValues : Z -> Z;
  schoolLevel : SchoolOfMagic -> Z }.

Module Skill.

(** ** Enumerations of skill.h

  The levels are ordered None, Basic, Advanced, Expert and count 0 to 3 in
  [GetTotalLevel].  The numbering of the skills is the one
  [Secondary::GetName] relies on: it indexes a table of 28 x 3 names with
  [(Level() - 1) + (Skill() - 1) * 3], the names being listed from
  Pathfinding to Water Magic and, per skill, Basic, Advanced, Expert. *)

Module Level.
Definition NONE : Z := 0.
Definition BASIC : Z := 1.
Definition ADVANCED : Z := 2.
Definition EXPERT : Z := 3.
End Level.

Definition UNKNOWN : Z := 0.
Definition PATHFINDING : Z := 1.
Definition ARCHERY : Z := 2.
Definition LOGISTICS : Z := 3.
Definition SCOUTING : Z := 4.
Definition DIPLOMACY : Z := 5.
Definition NAVIGATION : Z := 6.
Definition LEADERSHIP : Z := 7.
Definition WISDOM : Z := 8.
Definition MYSTICISM : Z := 9.
Definition LUCK : Z := 10.
Definition BALLISTICS : Z := 11.
Definition EAGLEEYE : Z := 12.
Definition NECROMANCY : Z := 13.
Definition ESTATES : Z := 14.
Definition OFFENSE : Z := 15.
Definition AIRMAGIC : Z := 16.
Definition ARMORER : Z := 17.
Definition ARTILLERY : Z := 18.
Definition EARTHMAGIC : Z := 19.
Definition FIREMAGIC : Z := 20.
Definition FIRSTAID : Z := 21.
Definition INTELLIGENCE : Z := 22.
Definition LEARNING : Z := 23.
Definition RESISTANCE : Z := 24.
Definition SCHOLAR : Z := 25.
Definition SORCERY : Z := 26.
Definition TACTICS : Z := 27.
Definition WATERMAGIC : Z := 28.

(** The number of secondary skills, as listed in [secskills] and named in
    [GetName], and the number of skill slots of a hero. *)
Definition MAXSECONDARYSKILL : Z := 28.
Definition HEROESMAXSKILL : nat := 8.

(** [const int secskills[]] *)
Definition secskills : list Z :=
[ PATHFINDING; ARCHERY; LOGISTICS; SCOUTING; DIPLOMACY; NAVIGATION; LEADERSHIP;
  WISDOM; MYSTICISM; LUCK; BALLISTICS; EAGLEEYE; NECROMANCY; ESTATES;
  OFFENSE; AIRMAGIC; ARMORER; ARTILLERY; EARTHMAGIC; FIREMAGIC; FIRSTAID;
  INTELLIGENCE; LEARNING; RESISTANCE; SCHOLAR; SORCERY; TACTICS; WATERMAGIC ].

(** ** Skill::Secondary, a [std::pair<int, int>] of (skill, level) *)

Record Secondary : Type := mkSecondary { first : Z; second : Z }.

#[export] Instance Secondary_eq_dec : EqDecision Secondary.
Proof. solve_decision. Defined.

(** [Secondary::Secondary()] *)
Definition Secondary_default : Secondary := mkSecondary UNKNOWN Level.NONE.

(** The accessors [Skill()] and [Level()] and the test [isSkill] of skill.h:
    an entry is the pair (kind, level) and lookup is by kind. *)
Definition Skill (s : Secondary) : Z := first s.
Definition Level (s : Secondary) : Z := second s.
Definition isSkill (s : Secondary) (skill : Z) : bool := bool_decide (skill = first s).

(** [Secondary::Set] *)
Definition Set_ (s skill : Secondary) : Secondary :=
{| first := first skill; second := second skill |}.

(** [Secondary::SetSkill] *)
Definition SetSkill (s : Secondary) (skill : Z) : Secondary :=
{| first := if (UNKNOWN <=? skill) && (skill <=? MAXSECONDARYSKILL) then skill else UNKNOWN;
   second := second s |}.

(** [Secondary::SetLevel] *)
Definition SetLevel (s : Secondary) (level : Z) : Secondary :=
{| first := first s;
   second := if (Level.NONE <=? level) && (level <=? Level.EXPERT) then level else Level.NONE |}.

(** [Secondary::Secondary( int skill, int level )] *)
Definition Secondary_make (skill level : Z) : Secondary :=
SetLevel (SetSkill Secondary_default skill) level.

(** [Secondary::NextLevel] *)
Definition NextLevel (s : Secondary) : Secondary :=
if second s =? Level.NONE then {| first := first s; second := Level.BASIC |}
else if second s =? Level.BASIC then {| first := first s; second := Level.ADVANCED |}
else if second s =? Level.ADVANCED then {| first := first s; second := Level.EXPERT |}
else s.

(** [Secondary::isValid] *)
Definition isValid (s : Secondary) : bool :=
negb (Skill s =? UNKNOWN) && negb (Level s =? Level.NONE).

(** ** Skill::SecSkills, a [std::vector<Secondary>] *)

Abbreviation SecSkills := (list Secondary).

(** [SecSkills::SecSkills()] *)
Definition SecSkills_empty : SecSkills := [].

(** [SecSkills::GetLevel] *)
Definition GetLevel (st : SecSkills) (skill : Z) : Z :=
match list_find (fun v => isSkill v skill) st with
| Some (_, v) => Level v
| None => Level.NONE
end.

(** [SecSkills::Count] *)
Definition Count (st : SecSkills) : nat :=
length (filter (fun v => isValid v) st).

(** [SecSkills::GetTotalLevel] *)
Definition GetTotalLevel (st : SecSkills) : Z :=
fold_left (fun result skill => if isValid skill then result + Level skill else result) st 0.

(** [SecSkills::AddSkill] *)
Definition AddSkill (st : SecSkills) (skill : Secondary) : SecSkills :=
if isValid skill then
  let skillValue := Skill skill in
  match list_find (fun v => isSkill v skillValue) st with
  | Some (i, v) => <[ i := SetLevel v (Level skill) ]> st
  | None =>
      match list_find (fun v => negb (isValid v)) st with
      | Some (i, v) => <[ i := Set_ v skill ]> st
      | None =>
          if decide (length st < HEROESMAXSKILL)%nat then st ++ [skill] else st
      end
  end
else st.

(** [SecSkills::FillMax] *)
Definition FillMax (st : SecSkills) (skill : Secondary) : SecSkills :=
if decide (length st < HEROESMAXSKILL)%nat then resize HEROESMAXSKILL skill st else st.

(** ** Static race data (skill_static.h, game_static.h)

  [secondary_t] holds one unsigned weight per secondary skill; of
  [stats_t] only the field read by the level-up code is kept. *)

Record secondary_t : Type := mk_secondary_t {
pathfinding : N; archery : N; logistics : N; scouting : N; diplomacy : N;
navigation : N; leadership : N; wisdom : N; mysticism : N; luck : N;
ballistics : N; eagleeye : N; necromancy : N; estates : N; offense : N;
air_magic : N; armorer : N; artillery : N; earth_magic : N; fire_magic : N;
first_aid : N; intelligence : N; learning : N; resistance : N; scholar : N;
sorcery : N; tactics : N; water_magic : N }.

Record stats_t : Type := mk_stats_t { mature_secondary : secondary_t }.

(** ** References to [Secondary] objects

  [FindSkillsForLevelUp] receives its two results as [Secondary &].  A
  reference designates either an element of the [SecSkills] vector the
  method runs on, or an object that lives outside of it. *)

Inductive ref : Type :=
| InState (i : nat)
| Outside (n : nat).

#[export] Instance ref_eq_dec : EqDecision ref.
Proof. solve_decision. Defined.

Record Mem : Type := mkMem { skills : SecSkills; outside : list Secondary }.

Definition isInState (r : ref) : bool :=
match r with InState _ => true | Outside _ => false end.

(** Reading through a reference; a reference always designates a live
  object, the default only makes the function total. *)
Definition read (m : Mem) (r : ref) : Secondary :=
match r with
| InState i => default Secondary_default (skills m !! i)
| Outside n => default Secondary_default (outside m !! n)
end.

(** Calling a mutating member function through a reference. *)
Definition update (m : Mem) (r : ref) (f : Secondary -> Secondary) : Mem :=
match r with
| InState i => {| skills := alter f i (skills m); outside := outside m |}
| Outside n => {| skills := skills m; outside := alter f n (outside m) |}
end.

Section Planner.

(** [GameStatic::GetSkillStats], a null pointer being [None]. *)
Variable GetSkillStats : Z -> option stats_t.

(** The draw of [Rand::Queue::GetWithSeed]: the seed mapped to a value
    below the total weight given as second argument. *)
Variable seedToRoll : Z -> Z -> Z.

(** [Skill::SecondaryGetWeightSkillFromRace] *)
Definition SecondaryGetWeightSkillFromRace (race skill : Z) : Z :=
  match GetSkillStats race with
  | Some ptr =>
      let w := mature_secondary ptr in
      if skill =? PATHFINDING then Z.of_N (pathfinding w)
      else if skill =? ARCHERY then Z.of_N (archery w)
      else if skill =? LOGISTICS then Z.of_N (logistics w)
      else if skill =? SCOUTING then Z.of_N (scouting w)
      else if skill =? DIPLOMACY then Z.of_N (diplomacy w)
      else if skill =? NAVIGATION then Z.of_N (navigation w)
      else if skill =? LEADERSHIP then Z.of_N (leadership w)
      else if skill =? WISDOM then Z.of_N (wisdom w)
      else if skill =? MYSTICISM then Z.of_N (mysticism w)
      else if skill =? LUCK then Z.of_N (luck w)
      else if skill =? BALLISTICS then Z.of_N (ballistics w)
      else if skill =? EAGLEEYE then Z.of_N (eagleeye w)
      else if skill =? NECROMANCY then Z.of_N (necromancy w)
      else if skill =? ESTATES then Z.of_N (estates w)
      else if skill =? OFFENSE then Z.of_N (offense w)
      else if skill =? AIRMAGIC then Z.of_N (air_magic w)
      else if skill =? ARMORER then Z.of_N (armorer w)
      else if skill =? ARTILLERY then Z.of_N (artillery w)
      else if skill =? EARTHMAGIC then Z.of_N (earth_magic w)
      else if skill =? FIREMAGIC then Z.of_N (fire_magic w)
      else if skill =? FIRSTAID then Z.of_N (first_aid w)
      else if skill =? INTELLIGENCE then Z.of_N (intelligence w)
      else if skill =? LEARNING then Z.of_N (learning w)
      else if skill =? RESISTANCE then Z.of_N (resistance w)
      else if skill =? SCHOLAR then Z.of_N (scholar w)
      else if skill =? SORCERY then Z.of_N (sorcery w)
      else if skill =? TACTICS then Z.of_N (tactics w)
      else if skill =? WATERMAGIC then Z.of_N (water_magic w)
      else 0
  | None => 0
  end.

(** Modelled from the spec: [Rand::Queue] of rand.h, of which the two
    source files only show the calls; it is the WeightedSelector of the
    specification.
    The queue is the ordered list of (item, weight) entries. *)
Definition Queue : Type := list (Z * Z).

(** Modelled from the spec: the "none" sentinel of a pick, which the
    planner compares with [Secondary::UNKNOWN]. *)
Definition Queue_none : Z := UNKNOWN.

(** Modelled from the spec: [Rand::Queue::Push]; an entry of weight zero
    occupies a slot like any other. *)
Definition Queue_Push (q : Queue) (value percent : Z) : Queue := q ++ [(value, percent)].

(** Modelled from the spec: [Rand::Queue::Size]. *)
Definition Queue_Size (q : Queue) : nat := length q.

(** Modelled from the spec: the total weight of the entries. *)
Definition Queue_total (q : Queue) : Z :=
  fold_right (fun vp sum => snd vp + sum) 0 q.

(** Modelled from the spec: the first item whose cumulative weight exceeds
    the mapped value [roll]; [cumulative] is the running sum so far. *)
Fixpoint Queue_walk (cumulative roll : Z) (q : Queue) : Z :=
  match q with
  | [] => Queue_none
  | (value, percent) :: q' =>
      let cumulative' := cumulative + percent in
      if roll <? cumulative' then value else Queue_walk cumulative' roll q'
  end.

(** Modelled from the spec: [Rand::Queue::GetWithSeed].  A pick sums the
    weights, maps the seed into [0, total) and walks the entries; when
    every weight is zero, or the queue is empty, it is the "none" sentinel. *)
Definition Queue_GetWithSeed (q : Queue) (seed : Z) : Z :=
  let total := Queue_total q in
  if total <=? 0 then Queue_none else Queue_walk 0 (seedToRoll seed total) q.

(** [Skill::SecondaryPriorityFromRace] *)
Definition SecondaryPriorityFromRace (race : Z) (exclude : list Z) (seed : Z) : Z :=
  let parts :=
    fold_left
      (fun parts skill =>
         if decide (skill ∉ exclude)
         then Queue_Push parts skill (SecondaryGetWeightSkillFromRace race skill)
         else parts)
      secskills [] in
  if decide (Queue_Size parts ≠ 0%nat) then Queue_GetWithSeed parts seed else UNKNOWN.

(** The exclusion list [FindSkillsForLevelUp] builds before its first pick. *)
Definition exclude_skills (st : SecSkills) : list Z :=
  let exclude := Skill <$> filter (fun v => Level v = Level.EXPERT) st in
  if decide (HEROESMAXSKILL <= Count st)%nat
  then exclude ++ filter (fun skill => Level.NONE = GetLevel st skill) secskills
  else exclude.

(** [SecSkills::FindSkillsForLevelUp], on the memory holding [*this] and
    the objects [sec1] and [sec2] refer to. *)
Definition FindSkillsForLevelUp_mem
    (race seedSkill1 seedSkill2 : Z) (sec1 sec2 : ref) (m : Mem) : Mem :=
  let exclude := exclude_skills (skills m) in
  let m := update m sec1 (fun s => SetSkill s (SecondaryPriorityFromRace race exclude seedSkill1)) in
  if decide (UNKNOWN ≠ Skill (read m sec1)) then
    let exclude := exclude ++ [Skill (read m sec1)] in
    let m := update m sec2 (fun s => SetSkill s (SecondaryPriorityFromRace race exclude seedSkill2)) in
    let m := update m sec1 (fun s => SetLevel s (GetLevel (skills m) (Skill (read m sec1)))) in
    let m := update m sec2 (fun s => SetLevel s (GetLevel (skills m) (Skill (read m sec2)))) in
    let m := update m sec1 NextLevel in
    update m sec2 NextLevel
  else m.

(** The call as every level-up makes it: [sec1] and [sec2] are two
    distinct objects of the caller; the result is their final contents. *)
Definition FindSkillsForLevelUp
    (race seedSkill1 seedSkill2 : Z) (st : SecSkills) (sec1 sec2 : Secondary)
  : Secondary * Secondary :=
  let m := FindSkillsForLevelUp_mem race seedSkill1 seedSkill2 (Outside 0) (Outside 1)
             {| skills := st; outside := [sec1; sec2] |} in
  (read m (Outside 0), read m (Outside 1)).

End Planner.

(** [Skill::GetNecromancyBonus] *)
Definition GetNecromancyBonus (hero : HeroBase) : Z :=
  let shrineCount := necromancyShrines hero in
  let artifactEffect :=
    if isArtifactBonusPresent hero ArtifactBonusType.NECROMANCY_SKILL then 1 else 0 in
  Z.min 7 (wrap32 (shrineCount + artifactEffect)).

(** [Skill::GetNecromancyPercent] *)
Definition GetNecromancyPercent (hero : HeroBase) : Z :=
  let percent := GetSecondaryValues hero NECROMANCY in
  let percent := wrap32 (percent + wrap32 (10 * GetNecromancyBonus hero)) in
  Z.min percent 100.

(** The skill set holds an entry of kind [K] at Expert level. *)
Definition has_expert (st : SecSkills) (K : Z) : Prop :=
  exists e, e ∈ st /\ Skill e = K /\ Level e = Level.EXPERT.

(** The draw maps every seed below the total weight. *)
Definition draws_below_total (seedToRoll : Z -> Z -> Z) : Prop :=
  forall seed total, 0 < total -> 0 <= seedToRoll seed total < total.

End Skill.

(** ** Histories of a skill set, and the uniqueness of kinds *)

Module SkillHistory.
Import Skill.

(** A mutating call on a [SecSkills]. *)
Inductive call : Type :=
| CallAddSkill (skill : Secondary)
| CallFillMax (skill : Secondary).

Definition apply_call (st : SecSkills) (c : call) : SecSkills :=
  match c with
  | CallAddSkill skill => AddSkill st skill
  | CallFillMax skill => FillMax st skill
  end.

(** The state reached from the empty one by a sequence of calls. *)
Definition run (calls : list call) : SecSkills :=
  fold_left apply_call calls SecSkills_empty.

(** Whether a call pads with an entry that is itself a learned skill. *)
Definition pads_with_valid (c : call) : bool :=
  match c with
  | CallAddSkill _ => false
  | CallFillMax skill => isValid skill
  end.

(** No two valid entries share a kind. *)
Definition unique_kinds (st : SecSkills) : Prop :=
  forall (i j : nat) (a b : Secondary),
    st !! i = Some a -> st !! j = Some b ->
    isValid a = true -> isValid b = true -> Skill a = Skill b -> i = j.

(** Every valid entry is the first entry of its kind. *)
Definition valid_is_first (st : SecSkills) : Prop :=
  forall (i j : nat) (a b : Secondary),
    st !! i = Some a -> st !! j = Some b ->
    (i < j)%nat -> isValid b = true -> Skill a <> Skill b.

End SkillHistory.

(** ** Sample data: race tables, a draw, skill sets, a call history, a hero *)

Module SkillSamples.
Import Skill SkillHistory.

Definition sample_calls : list call :=
  [ CallAddSkill (Secondary_make ARCHERY Level.BASIC);
    CallFillMax Secondary_default;
    CallAddSkill (Secondary_make LUCK Level.EXPERT);
    CallAddSkill (Secondary_make ARCHERY Level.ADVANCED) ].

(** Every skill has weight 10. *)
Definition even_weights : secondary_t :=
  mk_secondary_t 10 10 10 10 10 10 10 10 10 10 10 10 10 10
                 10 10 10 10 10 10 10 10 10 10 10 10 10 10.

(** Only Luck has a weight. *)
Definition luck_only : secondary_t :=
  mk_secondary_t 0 0 0 0 0 0 0 0 0 40 0 0 0 0
                 0 0 0 0 0 0 0 0 0 0 0 0 0 0.

Definition even_stats (race : Z) : option stats_t := Some (mk_stats_t even_weights).
Definition luck_stats (race : Z) : option stats_t := Some (mk_stats_t luck_only).
Definition no_stats (race : Z) : option stats_t := None.

(** A draw into [0, total). *)
Definition modulo_draw (seed total : Z) : Z := seed mod total.

(** Leadership is mastered. *)
Definition leadership_expert : SecSkills :=
  [ Secondary_make LEADERSHIP Level.EXPERT; Secondary_make ARCHERY Level.BASIC ].

(** Eight slots, seven learned skills and one empty slot. *)
Definition seven_and_empty : SecSkills :=
  [ Secondary_make PATHFINDING Level.BASIC; Secondary_make ARCHERY Level.BASIC;
    Secondary_make LOGISTICS Level.ADVANCED; Secondary_make SCOUTING Level.BASIC;
    Secondary_default;
    Secondary_make DIPLOMACY Level.EXPERT; Secondary_make NAVIGATION Level.BASIC;
    Secondary_make WISDOM Level.BASIC ].

(** Eight learned skills, none of them Luck. *)
Definition eight_learned : SecSkills :=
  [ Secondary_make PATHFINDING Level.BASIC; Secondary_make ARCHERY Level.BASIC;
    Secondary_make LOGISTICS Level.ADVANCED; Secondary_make SCOUTING Level.BASIC;
    Secondary_make LEADERSHIP Level.BASIC;
    Secondary_make DIPLOMACY Level.EXPERT; Secondary_make NAVIGATION Level.BASIC;
    Secondary_make WISDOM Level.BASIC ].

(** The caller's two result objects next to an unrelated third one. *)
Definition sample_mem : Mem :=
  {| skills := leadership_expert;
     outside := [ Secondary_default; Secondary_default; Secondary_make LUCK Level.BASIC ] |}.

(** A necromancer with Expert Necromancy (value 30), three shrines and the
    artifact. *)
Definition sample_necromancer : HeroBase :=
  {| necromancyShrines := 3;
     isArtifactBonusPresent := fun _ => true;
     getTotalArtifactMultipliedPercent := fun _ => [];
     GetSecondaryValues := fun skill => if skill =? NECROMANCY then 30 else 0;
     schoolLevel := fun _ => 0 |}.

End SkillSamples.

(** * Spells *)

Module Spell.

(** The spell ids, in the order of the table [spells], which the code
    indexes by id. *)
Inductive SpellId : Type :=
| NONE | FIREBALL | FIREBLAST | LIGHTNINGBOLT | CHAINLIGHTNING | TELEPORT
| CURE | MASSCURE | RESURRECT | RESURRECTTRUE | HASTE | MASSHASTE | SLOW
| MASSSLOW | BLIND | BLESS | MASSBLESS | STONESKIN | STEELSKIN | CURSE
| MASSCURSE | HOLYWORD | HOLYSHOUT | ANTIMAGIC | DISPEL | MASSDISPEL | ARROW
| BERSERKER | ARMAGEDDON | ELEMENTALSTORM | METEORSHOWER | PARALYZE
| HYPNOTIZE | COLDRAY | COLDRING | DISRUPTINGRAY | DEATHRIPPLE | DEATHWAVE
| DRAGONSLAYER | BLOODLUST | ANIMATEDEAD | MIRRORIMAGE | SHIELD | MASSSHIELD
| SUMMONEELEMENT | SUMMONAELEMENT | SUMMONFELEMENT | SUMMONWELEMENT
| EARTHQUAKE | VIEWMINES | VIEWRESOURCES | VIEWARTIFACTS | VIEWTOWNS
| VIEWHEROES | VIEWALL | IDENTIFYHERO | SUMMONBOAT | DIMENSIONDOOR
| TOWNGATE | TOWNPORTAL | VISIONS | HAUNT | SETEGUARDIAN | SETAGUARDIAN
| SETFGUARDIAN | SETWGUARDIAN | RANDOM | RANDOM1 | RANDOM2 | RANDOM3
| RANDOM4 | RANDOM5 | PETRIFY.

#[export] Instance SpellId_eq_dec : EqDecision SpellId.
Proof. solve_decision. Defined.

(** [struct spellstats_t]; the description text is left out. *)
Record spellstats_t : Type := mk_spellstats {
  name : string;
  schoolOfMagic : SchoolOfMagic;
  stats_spellPoints : Z;
  spellPointsDiscounts : list Z;
  schoolLevelMod : list Z;
  stats_movePoints : Z;
  stats_minMovePoints : Z;
  imageId : Z;
  extraValue : Z }.

(** [spellstats_t spells[]] *)
Definition spells (id : SpellId) : spellstats_t :=
  match id with
  | NONE => mk_spellstats "Unknown" NO_SCHOOL 0 [0; 0; 0; 0] [0; 0; 0; 0] 0 0 0 0
  | FIREBALL => mk_spellstats "Fireball" FIRE_MAGIC 9 [0; 2; 2; 2] [0; 10; 20; 50] 0 0 8 10
  | FIREBLAST => mk_spellstats "Fireblast" FIRE_MAGIC 15 [0; 3; 3; 3] [0; 15; 30; 60] 0 0 9 10
  | LIGHTNINGBOLT => mk_spellstats "Lightning Bolt" AIR_MAGIC 10 [0; 3; 3; 3] [0; 10; 20; 50] 0 0 4 25
  | CHAINLIGHTNING => mk_spellstats "Chain Lightning" AIR_MAGIC 24 [0; 4; 4; 4] [0; 25; 50; 100] 0 0 5 40
  | TELEPORT => mk_spellstats "Teleport" WATER_MAGIC 15 [0; 3; 9; 12] [0; 0; 0; 0] 0 0 10 0
  | CURE => mk_spellstats "Cure" WATER_MAGIC 6 [0; 1; 1; 1] [0; 10; 20; 30] 0 0 6 5
  | MASSCURE => mk_spellstats "Mass Cure" WATER_MAGIC 15 [0; 5; 5; 5] [0; 6; 14; 24] 0 0 60 5
  | RESURRECT => mk_spellstats "Resurrect" EARTH_MAGIC 12 [0; 4; 4; 4] [0; 10; 20; 30] 0 0 13 50
  | RESURRECTTRUE => mk_spellstats "Resurrect True" EARTH_MAGIC 20 [0; 4; 4; 4] [0; 20; 40; 50] 0 0 12 50
  | HASTE => mk_spellstats "Haste" AIR_MAGIC 6 [0; 1; 1; 1] [0; 1; 1; 2] 0 0 14 2
  | MASSHASTE => mk_spellstats "Mass Haste" AIR_MAGIC 10 [0; 2; 2; 2] [0; 0; 1; 1] 0 0 61 2
  | SLOW => mk_spellstats "spell|Slow" EARTH_MAGIC 6 [0; 1; 1; 1] [0; 0; 1; 2] 0 0 1 0
  | MASSSLOW => mk_spellstats "Mass Slow" EARTH_MAGIC 15 [0; 3; 3; 3] [0; 0; 1; 1] 0 0 62 0
  | BLIND => mk_spellstats "spell|Blind" FIRE_MAGIC 10 [0; 2; 2; 2] [0; 0; 0; 0] 0 0 21 0
  | BLESS => mk_spellstats "Bless" WATER_MAGIC 5 [0; 1; 1; 1] [0; 0; 1; 2] 0 0 7 0
  | MASSBLESS => mk_spellstats "Mass Bless" WATER_MAGIC 12 [0; 3; 3; 3] [0; 0; 1; 1] 0 0 63 0
  | STONESKIN => mk_spellstats "Stoneskin" EARTH_MAGIC 3 [0; 1; 1; 1] [0; 0; 1; 2] 0 0 31 3
  | STEELSKIN => mk_spellstats "Steelskin" EARTH_MAGIC 6 [0; 2; 2; 2] [0; 0; 2; 3] 0 0 30 5
  | CURSE => mk_spellstats "Curse" FIRE_MAGIC 6 [0; 1; 1; 1] [0; 0; 1; 2] 0 0 3 0
  | MASSCURSE => mk_spellstats "Mass Curse" FIRE_MAGIC 12 [0; 2; 2; 2] [0; 0; 1; 1] 0 0 64 0
  | HOLYWORD => mk_spellstats "Holy Word" AIR_MAGIC 12 [0; 3; 3; 3] [0; 3; 3; 3] 0 0 22 10
  | HOLYSHOUT => mk_spellstats "Holy Shout" AIR_MAGIC 15 [0; 3; 3; 3] [0; 3; 3; 3] 0 0 23 20
  | ANTIMAGIC => mk_spellstats "Anti-Magic" EARTH_MAGIC 15 [0; 3; 3; 3] [0; 0; 1; 2] 0 0 17 0
  | DISPEL => mk_spellstats "Dispel Magic" WATER_MAGIC 5 [0; 1; 1; 1] [0; 0; 0; 0] 0 0 18 0
  | MASSDISPEL => mk_spellstats "Mass Dispel" WATER_MAGIC 12 [0; 3; 3; 3] [0; 0; 0; 0] 0 0 18 0
  | ARROW => mk_spellstats "Magic Arrow" AIR_MAGIC 3 [0; 1; 1; 1] [0; 10; 20; 30] 0 0 38 10
  | BERSERKER => mk_spellstats "Berserker" FIRE_MAGIC 12 [0; 4; 4; 4] [0; 0; 0; 0] 0 0 19 0
  | ARMAGEDDON => mk_spellstats "Armageddon" FIRE_MAGIC 24 [0; 4; 4; 4] [0; 10; 40; 80] 0 0 16 50
  | ELEMENTALSTORM => mk_spellstats "Elemental Storm" FIRE_MAGIC 20 [0; 5; 5; 5] [0; 20; 50; 60] 0 0 11 25
  | METEORSHOWER => mk_spellstats "Meteor Shower" EARTH_MAGIC 16 [0; 4; 4; 4] [0; 20; 40; 70] 0 0 24 25
  | PARALYZE => mk_spellstats "Paralyze" FIRE_MAGIC 9 [0; 3; 3; 3] [0; 0; 0; 0] 0 0 20 0
  | HYPNOTIZE => mk_spellstats "Hypnotize" AIR_MAGIC 18 [0; 3; 3; 3] [0; 10; 20; 50] 0 0 37 25
  | COLDRAY => mk_spellstats "Cold Ray" WATER_MAGIC 8 [0; 2; 2; 2] [0; 10; 20; 50] 0 0 36 20
  | COLDRING => mk_spellstats "Cold Ring" WATER_MAGIC 9 [0; 3; 3; 3] [0; 15; 30; 60] 0 0 35 10
  | DISRUPTINGRAY => mk_spellstats "Disrupting Ray" EARTH_MAGIC 7 [0; 2; 2; 2] [0; 0; 1; 2] 0 0 34 3
  | DEATHRIPPLE => mk_spellstats "Death Ripple" EARTH_MAGIC 6 [0; 1; 1; 1] [0; 0; 5; 10] 0 0 29 5
  | DEATHWAVE => mk_spellstats "Death Wave" EARTH_MAGIC 10 [0; 2; 2; 2] [0; 10; 20; 30] 0 0 28 10
  | DRAGONSLAYER => mk_spellstats "Dragon Slayer" FIRE_MAGIC 6 [0; 1; 1; 1] [0; 10; 20; 30] 0 0 32 5
  | BLOODLUST => mk_spellstats "Blood Lust" FIRE_MAGIC 5 [0; 1; 1; 1] [0; 0; 1; 2] 0 0 27 3
  | ANIMATEDEAD => mk_spellstats "Animate Dead" EARTH_MAGIC 15 [0; 3; 3; 3] [0; 10; 40; 70] 0 0 25 50
  | MIRRORIMAGE => mk_spellstats "Mirror Image" WATER_MAGIC 25 [0; 5; 5; 5] [0; 4; 5; 6] 0 0 26 0
  | SHIELD => mk_spellstats "Shield" EARTH_MAGIC 5 [0; 2; 2; 2] [0; 1; 2; 2] 0 0 15 2
  | MASSSHIELD => mk_spellstats "Mass Shield" EARTH_MAGIC 7 [0; 2; 2; 2] [0; 0; 1; 1] 0 0 65 0
  | SUMMONEELEMENT => mk_spellstats "Summon Earth Elemental" EARTH_MAGIC 30 [0; 10; 10; 10] [0; 20; 50; 80] 0 0 56 3
  | SUMMONAELEMENT => mk_spellstats "Summon Air Elemental" AIR_MAGIC 30 [0; 10; 10; 10] [0; 20; 50; 80] 0 0 57 3
  | SUMMONFELEMENT => mk_spellstats "Summon Fire Elemental" FIRE_MAGIC 30 [0; 10; 10; 10] [0; 20; 50; 80] 0 0 58 3
  | SUMMONWELEMENT => mk_spellstats "Summon Water Elemental" WATER_MAGIC 30 [0; 10; 10; 10] [0; 20; 50; 80] 0 0 59 3
  | EARTHQUAKE => mk_spellstats "Earthquake" EARTH_MAGIC 15 [0; 5; 5; 5] [0; 0; 1; 2] 0 0 33 0
  | VIEWMINES => mk_spellstats "View Mines" EARTH_MAGIC 1 [0; 1; 1; 1] [0; 0; 0; 0] 0 0 39 0
  | VIEWRESOURCES => mk_spellstats "View Resources" EARTH_MAGIC 1 [0; 1; 1; 1] [0; 0; 0; 0] 0 0 40 0
  | VIEWARTIFACTS => mk_spellstats "View Artifacts" AIR_MAGIC 2 [0; 1; 1; 1] [0; 0; 0; 0] 0 0 41 0
  | VIEWTOWNS => mk_spellstats "View Towns" AIR_MAGIC 2 [0; 1; 1; 1] [0; 0; 0; 0] 0 0 42 0
  | VIEWHEROES => mk_spellstats "View Heroes" AIR_MAGIC 2 [0; 1; 1; 1] [0; 0; 0; 0] 0 0 43 0
  | VIEWALL => mk_spellstats "View All" AIR_MAGIC 3 [0; 1; 1; 1] [0; 0; 0; 0] 0 0 44 0
  | IDENTIFYHERO => mk_spellstats "Identify Hero" WATER_MAGIC 3 [0; 2; 2; 2] [0; 0; 0; 0] 0 0 45 0
  | SUMMONBOAT => mk_spellstats "Summon Boat" WATER_MAGIC 5 [0; 3; 3; 3] [0; 0; 0; 0] 0 0 46 0
  | DIMENSIONDOOR => mk_spellstats "Dimension Door" AIR_MAGIC 10 [0; 0; 0; 0] [0; 0; 0; 0] 225 69 47 0
  | TOWNGATE => mk_spellstats "Town Gate" EARTH_MAGIC 10 [0; 0; 0; 0] [0; 0; 0; 0] 225 69 48 0
  | TOWNPORTAL => mk_spellstats "Town Portal" EARTH_MAGIC 20 [0; 0; 0; 0] [0; 0; 0; 0] 225 69 49 0
  | VISIONS => mk_spellstats "Visions" AIR_MAGIC 6 [0; 0; 0; 0] [0; 0; 0; 0] 0 0 50 3
  | HAUNT => mk_spellstats "Haunt" NO_SCHOOL 8 [0; 0; 0; 0] [0; 0; 0; 0] 0 0 51 4
  | SETEGUARDIAN => mk_spellstats "Set Earth Guardian" EARTH_MAGIC 15 [0; 5; 5; 5] [0; 40; 60; 90] 0 0 52 4
  | SETAGUARDIAN => mk_spellstats "Set Air Guardian" AIR_MAGIC 15 [0; 5; 5; 5] [0; 40; 60; 90] 0 0 53 4
  | SETFGUARDIAN => mk_spellstats "Set Fire Guardian" FIRE_MAGIC 15 [0; 5; 5; 5] [0; 40; 60; 90] 0 0 54 4
  | SETWGUARDIAN => mk_spellstats "Set Water Guardian" WATER_MAGIC 15 [0; 5; 5; 5] [0; 40; 60; 90] 0 0 55 4
  | RANDOM => mk_spellstats "Random" NO_SCHOOL 1 [0; 0; 0; 0] [0; 0; 0; 0] 0 0 0 0
  | RANDOM1 => mk_spellstats "Random 1" NO_SCHOOL 1 [0; 0; 0; 0] [0; 0; 0; 0] 0 0 0 0
  | RANDOM2 => mk_spellstats "Random 2" NO_SCHOOL 1 [0; 0; 0; 0] [0; 0; 0; 0] 0 0 0 0
  | RANDOM3 => mk_spellstats "Random 3" NO_SCHOOL 1 [0; 0; 0; 0] [0; 0; 0; 0] 0 0 0 0
  | RANDOM4 => mk_spellstats "Random 4" NO_SCHOOL 1 [0; 0; 0; 0] [0; 0; 0; 0] 0 0 0 0
  | RANDOM5 => mk_spellstats "Random 5" NO_SCHOOL 1 [0; 0; 0; 0] [0; 0; 0; 0] 0 0 0 0
  | PETRIFY => mk_spellstats "Petrification" NO_SCHOOL 1 [0; 0; 0; 0] [0; 0; 0; 0] 0 0 66 0
  end.

Definition GetSchoolOfMagic (id : SpellId) : SchoolOfMagic := schoolOfMagic (spells id).
Definition GetSpellModifiers (id : SpellId) : list Z := schoolLevelMod (spells id).
Definition GetSpellDiscounts (id : SpellId) : list Z := spellPointsDiscounts (spells id).
Definition movePoints (id : SpellId) : Z := stats_movePoints (spells id).
Definition minMovePoints (id : SpellId) : Z := stats_minMovePoints (spells id).
Definition ExtraValue (id : SpellId) : Z := extraValue (spells id).

(** [Spell::isCombat] *)
Definition isCombat (id : SpellId) : bool :=
  match id with
  | NONE | VIEWMINES | VIEWRESOURCES | VIEWARTIFACTS | VIEWTOWNS
  | VIEWHEROES | VIEWALL | IDENTIFYHERO | SUMMONBOAT | DIMENSIONDOOR
  | TOWNGATE | TOWNPORTAL | VISIONS | HAUNT | SETEGUARDIAN | SETAGUARDIAN
  | SETFGUARDIAN | SETWGUARDIAN =>
      false
  | _ => true
  end.

(** [Spell::isGuardianType] *)
Definition isGuardianType (id : SpellId) : bool :=
  match id with
  | HAUNT | SETEGUARDIAN | SETAGUARDIAN | SETFGUARDIAN | SETWGUARDIAN => true
  | _ => false
  end.

(** [Spell::Damage] *)
Definition Damage (id : SpellId) : Z :=
  match id with
  | ARROW | FIREBALL | FIREBLAST | LIGHTNINGBOLT | COLDRING | DEATHWAVE
  | HOLYWORD | CHAINLIGHTNING | ARMAGEDDON | ELEMENTALSTORM | METEORSHOWER
  | COLDRAY | HOLYSHOUT | DEATHRIPPLE =>
      extraValue (spells id)
  | _ => 0
  end.

(** [Spell::isMindInfluence] *)
Definition isMindInfluence (id : SpellId) : bool :=
  match id with
  | BLIND | PARALYZE | BERSERKER | HYPNOTIZE => true
  | _ => false
  end.

(** [Spell::Restore] *)
Definition Restore (id : SpellId) : Z :=
  match id with
  | CURE | MASSCURE => extraValue (spells id)
  | _ => 0
  end.

(** [Spell::Resurrect] *)
Definition Resurrect (id : SpellId) : Z :=
  match id with
  | ANIMATEDEAD | RESURRECT | RESURRECTTRUE => extraValue (spells id)
  | _ => 0
  end.

(** [Spell::isSummon] *)
Definition isSummon (id : SpellId) : bool :=
  match id with
  | SUMMONEELEMENT | SUMMONAELEMENT | SUMMONFELEMENT | SUMMONWELEMENT => true
  | _ => false
  end.

(** [Spell::isMassActions] *)
Definition isMassActions (id : SpellId) : bool :=
  match id with
  | MASSCURE | MASSHASTE | MASSSLOW | MASSBLESS | MASSCURSE | MASSDISPEL
  | MASSSHIELD =>
      true
  | _ => false
  end.

(** Modelled from the spec: [Spell::isAdventure], which spell.cpp calls and
    does not define: the travel, detection, boat-summon and vision spells. *)
Definition isAdventure (id : SpellId) : bool :=
  match id with
  | VIEWMINES | VIEWRESOURCES | VIEWARTIFACTS | VIEWTOWNS | VIEWHEROES
  | VIEWALL | IDENTIFYHERO | SUMMONBOAT | DIMENSIONDOOR | TOWNGATE
  | TOWNPORTAL | VISIONS =>
      true
  | _ => false
  end.

(** Modelled from the spec: [Spell::isDamage], which spell.cpp calls and
    does not define: the spells classified as damage are those to which
    [Damage] gives their damage amount. *)
Definition isDamage (id : SpellId) : bool := negb (Damage id =? 0).

(** Modelled from the spec: [Spell::isResurrect], which spell.cpp calls and
    does not define: the spells to which [Resurrect] gives a resurrect
    count. *)
Definition isResurrect (id : SpellId) : bool := negb (Resurrect id =? 0).

(** Modelled from the spec: [HeroBase::GetSpellCostReduction], the flat
    discount of the caster: the entry of the spell's 4-entry discount
    schedule at the caster's mastery level in the spell's school. *)
Definition GetSpellCostReduction (hero : HeroBase) (id : SpellId) : Z :=
  nth (Z.to_nat (schoolLevel hero (GetSchoolOfMagic id))) (GetSpellDiscounts id) 0.

(** The artifact bonus category [Spell::spellPoints] selects with its switch. *)
Definition costReductionType (id : SpellId) : ArtifactBonusType.t :=
  match id with
  | BLESS | MASSBLESS => ArtifactBonusType.BLESS_SPELL_COST_REDUCTION_PERCENT
  | SUMMONEELEMENT | SUMMONAELEMENT | SUMMONFELEMENT | SUMMONWELEMENT =>
      ArtifactBonusType.SUMMONING_SPELL_COST_REDUCTION_PERCENT
  | CURSE | MASSCURSE => ArtifactBonusType.CURSE_SPELL_COST_REDUCTION_PERCENT
  | _ =>
      if isMindInfluence id
      then ArtifactBonusType.MIND_INFLUENCE_SPELL_COST_REDUCTION_PERCENT
      else ArtifactBonusType.NONE
  end.

(** [Spell::spellPoints]; [hero == nullptr] is [None].  The cost is an
    [int32_t], its division truncates, and the result is a [uint32_t]. *)
Definition spellPoints (id : SpellId) (hero : option HeroBase) : Z :=
  match hero with
  | None => stats_spellPoints (spells id)
  | Some hero =>
      let type := costReductionType id in
      let spellCost := stats_spellPoints (spells id) in
      let spellCost := spellCost - GetSpellCostReduction hero id in
      match type with
      | ArtifactBonusType.NONE => wrap32 spellCost
      | _ =>
          let spellReductionPercentage := getTotalArtifactMultipliedPercent hero type in
          let spellCost :=
            fold_left (fun spellCost value => Z.quot (spellCost * (100 - value)) 100)
                      spellReductionPercentage spellCost in
          if spellCost <? 1 then 1 else wrap32 spellCost
      end
  end.

(** ** The arithmetic of [double]

    The operations [getStrategicValue] performs on [double] values: the
    conversion of an integer, three literals, product and difference. *)
Class DoubleOps (D : Type) : Type := {
  of_int : Z -> D;
  lit_0_05 : D;
  lit_0_1 : D;
  lit_0_04 : D;
  dmul : D -> D -> D;
  dsub : D -> D -> D }.

Section StrategicValue.

Context {D : Type} {ops : DoubleOps D}.

(** [Monster( id ).GetMonsterStrength()], as a function of the spell id. *)
Variable monsterStrength : SpellId -> D.

(** The number of casts the spell points pay for, at most 10. *)
Definition casts (id : SpellId) (currentSpellPoints : Z) : Z :=
  let spellCost := spellPoints id None in
  if spellCost =? 0 then 0 else Z.min 10 (currentSpellPoints / spellCost).

(** The quadratic formula that diminishes the returns of further casts. *)
Definition amountModifier (casts : Z) : D :=
  if casts =? 1 then of_int 1
  else dsub (of_int casts) (dmul (dmul lit_0_05 (of_int casts)) (of_int casts)).

(** The integer operand of the damage formula,
    [Damage() * spellPower + schoolSpellModifier]: [Damage()] is a
    [uint32_t], which makes the two [int]s and the result unsigned. *)
Definition damageTerm (id : SpellId) (spellPower schoolSpellModifier : Z) : Z :=
  wrap32 (wrap32 (Damage id * wrap32 spellPower) + wrap32 schoolSpellModifier).

(** [Spell::getStrategicValue] *)
Definition getStrategicValue (id : SpellId) (armyStrength : D)
    (currentSpellPoints spellPower schoolSpellModifier : Z) : D :=
  let amountModifier := amountModifier (casts id currentSpellPoints) in
  if isAdventure id then
    match id with
    | DIMENSIONDOOR => dmul (of_int 500) amountModifier
    | TOWNGATE | TOWNPORTAL => dmul (of_int 250) amountModifier
    | VIEWALL => of_int 500
    | _ => of_int 0
    end
  else if isDamage id then
    dmul amountModifier (of_int (damageTerm id spellPower schoolSpellModifier))
  else if isResurrect id || isMassActions id
          || bool_decide (id = BLIND) || bool_decide (id = PARALYZE) then
    dmul (dmul armyStrength lit_0_1) amountModifier
  else if isSummon id then
    dmul (dmul (monsterStrength id) (of_int (ExtraValue id))) (of_int spellPower)
  else
    dmul (dmul armyStrength lit_0_04) amountModifier.

End StrategicValue.

End Spell.

(** * Binary64 arithmetic on finite values

    A finite [double] is [Fnum * 2 ^ Fexp] with a significand of at most 53
    bits.  Products, differences and conversions are computed exactly and
    then rounded to 53 bits, to nearest with ties to even.  The exponent is
    unbounded: overflow, subnormal numbers, infinities and NaN are outside
    of this model, none of which the integers and literals of
    [getStrategicValue] can reach. *)

Module F64.

Record t : Type := mk { Fnum : Z; Fexp : Z }.

Definition prec : Z := 53.

(** The bit length of a non-zero significand. *)
Definition digits (m : Z) : Z := Z.log2 (Z.abs m) + 1.

(** [a / 2 ^ k] rounded to the nearest integer, ties to even, for [0 <= a]
    and [0 < k]. *)
Definition rne (a k : Z) : Z :=
  let q := a / 2 ^ k in
  let r := a mod 2 ^ k in
  let half := 2 ^ (k - 1) in
  if r <? half then q
  else if half <? r then q + 1
  else if Z.even q then q else q + 1.

(** Rounding of [m * 2 ^ e] to 53 bits. *)
Definition round (m e : Z) : t :=
  let k := digits m - prec in
  if k <=? 0 then mk m e else mk (Z.sgn m * rne (Z.abs m) k) (e + k).

Definition of_Z (z : Z) : t := round z 0.

Definition mul (x y : t) : t := round (Fnum x * Fnum y) (Fexp x + Fexp y).

(** The significand of [x] at the exponent [e], for [e <= Fexp x]. *)
Definition align (x : t) (e : Z) : Z := Fnum x * 2 ^ (Fexp x - e).

Definition sub (x y : t) : t :=
  let e := Z.min (Fexp x) (Fexp y) in
  round (align x e - align y e) e.

Definition ltb (x y : t) : bool :=
  let e := Z.min (Fexp x) (Fexp y) in align x e <? align y e.

Definition leb (x y : t) : bool :=
  let e := Z.min (Fexp x) (Fexp y) in align x e <=? align y e.

Definition eqb (x y : t) : bool :=
  let e := Z.min (Fexp x) (Fexp y) in align x e =? align y e.

(** The exact [n]-fold of a value, not rounded. *)
Definition scale (n : Z) (x : t) : t := mk (n * Fnum x) (Fexp x).

(** The literals [0.05], [0.1] and [0.04]. *)
Definition literal_0_05 : t := mk 7205759403792794 (-57).
Definition literal_0_1 : t := mk 7205759403792794 (-56).
Definition literal_0_04 : t := mk 5764607523034235 (-57).

#[export] Instance ops : Spell.DoubleOps t :=
  {| Spell.of_int := of_Z;
     Spell.lit_0_05 := literal_0_05;
     Spell.lit_0_1 := literal_0_1;
     Spell.lit_0_04 := literal_0_04;
     Spell.dmul := mul;
     Spell.dsub := sub |}.

End F64.

(** ** Sample data: heroes and a monster strength *)

Module SpellSamples.
Import Spell.

(** A hero with Basic Earth Magic and no artifact. *)
Definition basic_earth_mage : HeroBase :=
  {| necromancyShrines := 0;
     isArtifactBonusPresent := fun _ => false;
     getTotalArtifactMultipliedPercent := fun _ => [];
     GetSecondaryValues := fun _ => 0;
     schoolLevel := fun school => match school with EARTH_MAGIC => 1 | _ => 0 end |}.

(** A hero with no school of magic and two artifacts that halve the cost
    of Bless. *)
Definition bless_collector : HeroBase :=
  {| necromancyShrines := 0;
     isArtifactBonusPresent := fun _ => false;
     getTotalArtifactMultipliedPercent :=
       fun type =>
         match type with
         | ArtifactBonusType.BLESS_SPELL_COST_REDUCTION_PERCENT => [50; 50; 100]
         | _ => []
         end;
     GetSecondaryValues := fun _ => 0;
     schoolLevel := fun _ => 0 |}.

(** Every monster has strength 100. *)
Definition flat_strength (id : SpellId) : F64.t := F64.of_Z 100.

End SpellSamples.

(** * Further functions of skill.cpp *)

Module SkillNames.
Import Skill.
Local Open Scope string_scope.

(** The translation [_( ... )] of a name is kept as the name itself. *)

(** [Skill::Level::String]; the [assert] branch returns "None". *)
Definition Level_String (level : Z) : string :=
  if (level =? Level.BASIC)%Z then "skill|Basic"
  else if (level =? Level.ADVANCED)%Z then "skill|Advanced"
  else if (level =? Level.EXPERT)%Z then "skill|Expert"
  else "None".

(** [Skill::Secondary::String]; the [assert] branch returns "Unknown". *)
Definition Secondary_String (skill : Z) : string :=
  if (skill =? PATHFINDING)%Z then "Pathfinding"
  else if (skill =? ARCHERY)%Z then "Archery"
  else if (skill =? LOGISTICS)%Z then "Logistics"
  else if (skill =? SCOUTING)%Z then "Scouting"
  else if (skill =? DIPLOMACY)%Z then "Diplomacy"
  else if (skill =? NAVIGATION)%Z then "Navigation"
  else if (skill =? LEADERSHIP)%Z then "Leadership"
  else if (skill =? WISDOM)%Z then "Wisdom"
  else if (skill =? MYSTICISM)%Z then "Mysticism"
  else if (skill =? LUCK)%Z then "Luck"
  else if (skill =? BALLISTICS)%Z then "Ballistics"
  else if (skill =? EAGLEEYE)%Z then "Eagle Eye"
  else if (skill =? NECROMANCY)%Z then "Necromancy"
  else if (skill =? ESTATES)%Z then "Estates"
  else if (skill =? OFFENSE)%Z then "Offense"
  else if (skill =? AIRMAGIC)%Z then "Air Magic"
  else if (skill =? ARMORER)%Z then "Armorer"
  else if (skill =? ARTILLERY)%Z then "Artillery"
  else if (skill =? EARTHMAGIC)%Z then "Earth Magic"
  else if (skill =? FIREMAGIC)%Z then "Fire Magic"
  else if (skill =? FIRSTAID)%Z then "First Aid"
  else if (skill =? INTELLIGENCE)%Z then "Intelligence"
  else if (skill =? LEARNING)%Z then "Learning"
  else if (skill =? RESISTANCE)%Z then "Resistance"
  else if (skill =? SCHOLAR)%Z then "Scholar"
  else if (skill =? SORCERY)%Z then "Sorcery"
  else if (skill =? TACTICS)%Z then "Tactics"
  else if (skill =? WATERMAGIC)%Z then "Water Magic"
  else "Unknown".

(** The table [name_skill] of [Secondary::GetName]. *)
Definition name_skill : list string :=
  [
    "Basic Pathfinding"; "Advanced Pathfinding"; "Expert Pathfinding";
    "Basic Archery"; "Advanced Archery"; "Expert Archery"; "Basic Logistics";
    "Advanced Logistics"; "Expert Logistics"; "Basic Scouting";
    "Advanced Scouting"; "Expert Scouting"; "Basic Diplomacy";
    "Advanced Diplomacy"; "Expert Diplomacy"; "Basic Navigation";
    "Advanced Navigation"; "Expert Navigation"; "Basic Leadership";
    "Advanced Leadership"; "Expert Leadership"; "Basic Wisdom";
    "Advanced Wisdom"; "Expert Wisdom"; "Basic Mysticism";
    "Advanced Mysticism"; "Expert Mysticism"; "Basic Luck"; "Advanced Luck";
    "Expert Luck"; "Basic Ballistics"; "Advanced Ballistics";
    "Expert Ballistics"; "Basic Eagle Eye"; "Advanced Eagle Eye";
    "Expert Eagle Eye"; "Basic Necromancy"; "Advanced Necromancy";
    "Expert Necromancy"; "Basic Estates"; "Advanced Estates";
    "Expert Estates"; "Basic Offense"; "Advanced Offense"; "Expert Offense";
    "Basic Air Magic"; "Advanced Air Magic"; "Expert Air Magic";
    "Basic Armorer"; "Advanced Armorer"; "Expert Armorer"; "Basic Artillery";
    "Advanced Artillery"; "Expert Artillery"; "Basic Earth Magic";
    "Advanced Earth Magic"; "Expert Earth Magic"; "Basic Fire Magic";
    "Advanced Fire Magic"; "Expert Fire Magic"; "Basic First Aid";
    "Advanced First Aid"; "Expert First Aid"; "Basic Intelligence";
    "Advanced Intelligence"; "Expert Intelligence"; "Basic Learning";
    "Advanced Learning"; "Expert Learning"; "Basic Resistance";
    "Advanced Resistance"; "Expert Resistance"; "Basic Scholar";
    "Advanced Scholar"; "Expert Scholar"; "Basic Sorcery";
    "Advanced Sorcery"; "Expert Sorcery"; "Basic Tactics";
    "Advanced Tactics"; "Expert Tactics"; "Basic Water Magic";
    "Advanced Water Magic"; "Expert Water Magic" ].

(** [Skill::Secondary::GetName]; an index outside of the table, which the
    source does not guard against, reads the empty string. *)
Definition GetName (s : Secondary) : string :=
  if isValid s then
    let index := ((Level s - 1) + (Skill s - 1) * 3)%Z in
    if ((0 <=? index) && (index <? 84))%Z then nth (Z.to_nat index) name_skill "" else ""
  else "unknown".

End SkillNames.

Module SkillMore.
Import Skill.

(** [SecSkills::FindSkill]; the pointer to an element is its index and
    [nullptr] is [None]. *)
Definition FindSkill (st : SecSkills) (skill : Z) : option nat :=
  fst <$> list_find (fun v => isSkill v skill) st.

(** [operator>>( StreamBase &, SecSkills & )], from the vector read off the
    stream on. *)
Definition SecSkills_loaded (v : SecSkills) : SecSkills :=
  if decide (HEROESMAXSKILL < length v)%nat
  then resize HEROESMAXSKILL Secondary_default v else v.

(** [primary_t] of skill_static.h: one unsigned value per primary skill. *)
Record primary_t : Type := mk_primary_t {
  pt_attack : N; pt_defense : N; pt_power : N; pt_knowledge : N }.

(** [stats_t], the fields read by [Skill::Primary] and by the constructor
    [SecSkills( int race )]. *)
Record race_stats_t : Type := mk_race_stats_t {
  captain_primary : primary_t;
  initial_primary : primary_t;
  initial_spell : Z;
  initial_secondary : secondary_t;
  over_level : Z;
  mature_primary_under : primary_t;
  mature_primary_over : primary_t }.

(** [Skill::Primary] *)
Record Primary : Type := mkPrimary { attack : Z; defense : Z; power : Z; knowledge : Z }.

(** [Primary::Primary()] *)
Definition Primary_default : Primary := mkPrimary 0 0 0 0.

(** ** Streams

    [StreamBase] of serialize.h is not among the sources.  The operators
    of skill.cpp use two of its operations, writing one integer and
    reading one integer; they are the interface below, the stream being
    passed along. *)
Class StreamBase (S : Type) : Type := {
  stream_write : S -> Z -> S;
  stream_read : S -> Z * S }.

(** A stream that gives the values back in the order in which they were
    written: [pending] is the sequence of the values written and not yet
    read.  Nothing is said of a read from a stream with no value left. *)
Class StreamInOrder (S : Type) `{StreamBase S} : Type := {
  pending : S -> list Z;
  pending_write :
    forall (msg : S) (x : Z), pending (stream_write msg x) = pending msg ++ [x];
  pending_read :
    forall (msg : S) (x : Z) (rest : list Z),
      pending msg = x :: rest ->
      (stream_read msg).1 = x /\ pending (stream_read msg).2 = rest }.

(** [operator<<( StreamBase &, const Primary & )] *)
Definition Primary_write {S : Type} `{StreamBase S} (msg : S) (skill : Primary) : S :=
  stream_write
    (stream_write (stream_write (stream_write msg (attack skill)) (defense skill))
                  (knowledge skill))
    (power skill).

(** [operator>>( StreamBase &, Primary & )]: the four fields are
    overwritten with the values read. *)
Definition Primary_read {S : Type} `{StreamBase S} (msg : S) : Primary * S :=
  let (a, msg) := stream_read msg in
  let (d, msg) := stream_read msg in
  let (k, msg) := stream_read msg in
  let (p, msg) := stream_read msg in
  ({| attack := a; defense := d; knowledge := k; power := p |}, msg).

Section RaceData.

(** [GameStatic::GetSkillStats], a null pointer being [None]. *)
Variable GetSkillStats : Z -> option race_stats_t.

(** The draw of [Rand::Queue::GetWithSeed]. *)
Variable seedToRoll : Z -> Z -> Z.

(** The enumerators of [Skill::Primary] in skill.h. *)
Variables ATTACK DEFENSE POWER KNOWLEDGE Primary_UNKNOWN : Z.

(** [Race::ALL], the mask of the playable races. *)
Variable Race_ALL : Z.

(** [Primary::GetInitialSpell] *)
Definition GetInitialSpell (race : Z) : Z :=
  match GetSkillStats race with
  | Some ptr => initial_spell ptr
  | None => 0
  end.

(** The queue [Primary::LevelUp] fills. *)
Definition LevelUp_percents (race level : Z) : Queue :=
  match GetSkillStats race with
  | Some ptr =>
      let t := if level <? over_level ptr
               then mature_primary_under ptr else mature_primary_over ptr in
      Queue_Push
        (Queue_Push
           (Queue_Push
              (Queue_Push [] ATTACK (Z.of_N (pt_attack t)))
              DEFENSE (Z.of_N (pt_defense t)))
           POWER (Z.of_N (pt_power t)))
        KNOWLEDGE (Z.of_N (pt_knowledge t))
  | None => []
  end.

(** [Primary::LevelUp]: the raised skill and the new values.  The case
    labels of the [switch] are pairwise distinct; they are tested in the
    order of the source. *)
Definition LevelUp (race level seed : Z) (p : Primary) : Z * Primary :=
  let percents := LevelUp_percents race level in
  let result :=
    if decide (Queue_Size percents <> 0%nat)
    then Queue_GetWithSeed seedToRoll percents seed else Primary_UNKNOWN in
  if result =? ATTACK then
    (result, {| attack := attack p + 1; defense := defense p;
                power := power p; knowledge := knowledge p |})
  else if result =? DEFENSE then
    (result, {| attack := attack p; defense := defense p + 1;
                power := power p; knowledge := knowledge p |})
  else if result =? POWER then
    (result, {| attack := attack p; defense := defense p;
                power := power p + 1; knowledge := knowledge p |})
  else if result =? KNOWLEDGE then
    (result, {| attack := attack p; defense := defense p;
                power := power p; knowledge := knowledge p + 1 |})
  else (result, p).

(** The initial skills in the order in which [SecSkills( int race )] adds
    them. *)
Definition initial_skills (s : secondary_t) : list (Z * Z) :=
    [ (ARCHERY, Z.of_N (archery s));
      (DIPLOMACY, Z.of_N (diplomacy s));
      (EAGLEEYE, Z.of_N (eagleeye s));
      (ESTATES, Z.of_N (estates s));
      (LOGISTICS, Z.of_N (logistics s));
      (LUCK, Z.of_N (luck s));
      (MYSTICISM, Z.of_N (mysticism s));
      (PATHFINDING, Z.of_N (pathfinding s));
      (LEADERSHIP, Z.of_N (leadership s));
      (BALLISTICS, Z.of_N (ballistics s));
      (NAVIGATION, Z.of_N (navigation s));
      (SCOUTING, Z.of_N (scouting s));
      (NECROMANCY, Z.of_N (necromancy s));
      (WISDOM, Z.of_N (wisdom s));
      (OFFENSE, Z.of_N (offense s));
      (AIRMAGIC, Z.of_N (air_magic s));
      (ARMORER, Z.of_N (armorer s));
      (ARTILLERY, Z.of_N (artillery s));
      (EARTHMAGIC, Z.of_N (earth_magic s));
      (FIREMAGIC, Z.of_N (fire_magic s));
      (FIRSTAID, Z.of_N (first_aid s));
      (INTELLIGENCE, Z.of_N (intelligence s));
      (LEARNING, Z.of_N (learning s));
      (RESISTANCE, Z.of_N (resistance s));
      (SCHOLAR, Z.of_N (scholar s));
      (SORCERY, Z.of_N (sorcery s));
      (TACTICS, Z.of_N (tactics s));
      (WATERMAGIC, Z.of_N (water_magic s)) ].

(** [SecSkills::SecSkills( int race )] *)
Definition SecSkills_of_race (race : Z) : SecSkills :=
  if Z.land race Race_ALL =? 0 then SecSkills_empty
  else
    match GetSkillStats race with
    | Some ptr =>
        fold_left
          (fun st kl =>
             if snd kl =? 0 then st else AddSkill st (Secondary_make (fst kl) (snd kl)))
          (initial_skills (initial_secondary ptr)) SecSkills_empty
    | None => SecSkills_empty
    end.

End RaceData.

(** The weights [Primary::LevelUp] draws from: those of the table for
    heroes under [over_level], or of the table for the others. *)
Definition LevelUp_table (ptr : race_stats_t) (level : Z) : primary_t :=
  if level <? over_level ptr then mature_primary_under ptr else mature_primary_over ptr.

(** The sum of the four primary skills. *)
Definition Primary_total (p : Primary) : Z := attack p + defense p + power p + knowledge p.

(** What an entry adds to [Count()]. *)
Definition valid_count (e : Secondary) : nat := if isValid e then 1%nat else 0%nat.

(** Whether every entry has a level from None to Expert. *)
Definition levels_in_range (st : SecSkills) : Prop :=
  Forall (fun e => Level.NONE <= Level e <= Level.EXPERT) st.

(** Whether the skill set has no room for a kind it does not hold: eight
    entries or more, none of them empty. *)
Definition no_room (st : SecSkills) : Prop :=
  (HEROESMAXSKILL <= length st)%nat /\ Forall (fun e => isValid e = true) st.

(** The skills [RandForWitchsHut] goes through, in its order, each with
    its field of the table. *)
Definition witchs_hut_skills (sec : secondary_t) : list (Z * N) :=
  [ (ARCHERY, archery sec);
    (BALLISTICS, ballistics sec);
    (DIPLOMACY, diplomacy sec);
    (EAGLEEYE, eagleeye sec);
    (ESTATES, estates sec);
    (LEADERSHIP, leadership sec);
    (LOGISTICS, logistics sec);
    (LUCK, luck sec);
    (MYSTICISM, mysticism sec);
    (NAVIGATION, navigation sec);
    (NECROMANCY, necromancy sec);
    (PATHFINDING, pathfinding sec);
    (SCOUTING, scouting sec);
    (WISDOM, wisdom sec);
    (OFFENSE, offense sec);
    (AIRMAGIC, air_magic sec);
    (ARMORER, armorer sec);
    (ARTILLERY, artillery sec);
    (EARTHMAGIC, earth_magic sec);
    (FIREMAGIC, fire_magic sec);
    (FIRSTAID, first_aid sec);
    (INTELLIGENCE, intelligence sec);
    (LEARNING, learning sec);
    (RESISTANCE, resistance sec);
    (SCHOLAR, scholar sec);
    (SORCERY, sorcery sec);
    (TACTICS, tactics sec);
    (WATERMAGIC, water_magic sec) ].

(** The vector [RandForWitchsHut] fills: the skills whose field is not
    zero; it stays empty for a null table. *)
Definition witchs_hut_vector (GetSkillForWitchsHut : option secondary_t) : list Z :=
  match GetSkillForWitchsHut with
  | Some sec => (filter (fun kw => kw.2 <> 0%N) (witchs_hut_skills sec)).*1
  | None => []
  end.

(** [Skill::Secondary::RandForWitchsHut]; [GetSkillForWitchsHut] is the
    pointer [GameStatic::GetSkillForWitchsHut] returns and [Rand_Get] is
    [Rand::Get] on a vector that is not empty. *)
Definition RandForWitchsHut (GetSkillForWitchsHut : option secondary_t)
    (Rand_Get : list Z -> Z) : Z :=
  match witchs_hut_vector GetSkillForWitchsHut with
  | [] => UNKNOWN
  | v => Rand_Get v
  end.

(** The choice made by [Rand::Get] is an element of the vector. *)
Definition picks_element (Rand_Get : list Z -> Z) : Prop :=
  forall v : list Z, v <> [] -> Rand_Get v ∈ v.

(** The last element of a vector, a choice like any other. *)
Definition last_choice (v : list Z) : Z := List.last v UNKNOWN.

(** The field of the table [sec] for a skill, as
    [SecondaryGetWeightSkillFromRace] reads it from the table of a race. *)
Definition table_weight (sec : secondary_t) (skill : Z) : Z :=
  SecondaryGetWeightSkillFromRace (fun _ => Some (mk_stats_t sec)) 0 skill.

End SkillMore.

(** ** Sample data: a race with two initial skills and primary weights *)

Module SkillMoreSamples.
Import Skill SkillMore.

(** Basic Leadership and Advanced Ballistics to start with. *)
Definition knight_initial : secondary_t :=
  mk_secondary_t 0 0 0 0 0 0 1 0 0 0 2 0 0 0
                 0 0 0 0 0 0 0 0 0 0 0 0 0 0.

Definition knight_stats (race : Z) : option race_stats_t :=
  Some {| captain_primary := mk_primary_t 1 1 1 1;
          initial_primary := mk_primary_t 2 2 1 1;
          initial_spell := 0;
          initial_secondary := knight_initial;
          over_level := 10;
          mature_primary_under := mk_primary_t 35 45 10 10;
          mature_primary_over := mk_primary_t 25 25 25 25 |}.

(** A stream kept as the list of its pending values; a read from the
    empty list, of which the interface says nothing, gives 0 here. *)
#[export] Instance list_stream : StreamBase (list Z) :=
  {| stream_write := fun msg x => msg ++ [x];
     stream_read := fun msg => (hd 0 msg, tl msg) |}.

#[export] Instance list_stream_in_order : StreamInOrder (list Z).
Proof.
refine {| pending := fun msg => msg |}.
- intros msg x. reflexivity.
- intros msg x rest ->. split; reflexivity.
Defined.

End SkillMoreSamples.

(** * Further functions of spell.cpp *)

Module SpellMore.
Import Spell.

(** The value of a spell id: its position in the table [spells]. *)
Definition index (id : SpellId) : Z :=
  match id with
  | NONE => 0
  | FIREBALL => 1
  | FIREBLAST => 2
  | LIGHTNINGBOLT => 3
  | CHAINLIGHTNING => 4
  | TELEPORT => 5
  | CURE => 6
  | MASSCURE => 7
  | RESURRECT => 8
  | RESURRECTTRUE => 9
  | HASTE => 10
  | MASSHASTE => 11
  | SLOW => 12
  | MASSSLOW => 13
  | BLIND => 14
  | BLESS => 15
  | MASSBLESS => 16
  | STONESKIN => 17
  | STEELSKIN => 18
  | CURSE => 19
  | MASSCURSE => 20
  | HOLYWORD => 21
  | HOLYSHOUT => 22
  | ANTIMAGIC => 23
  | DISPEL => 24
  | MASSDISPEL => 25
  | ARROW => 26
  | BERSERKER => 27
  | ARMAGEDDON => 28
  | ELEMENTALSTORM => 29
  | METEORSHOWER => 30
  | PARALYZE => 31
  | HYPNOTIZE => 32
  | COLDRAY => 33
  | COLDRING => 34
  | DISRUPTINGRAY => 35
  | DEATHRIPPLE => 36
  | DEATHWAVE => 37
  | DRAGONSLAYER => 38
  | BLOODLUST => 39
  | ANIMATEDEAD => 40
  | MIRRORIMAGE => 41
  | SHIELD => 42
  | MASSSHIELD => 43
  | SUMMONEELEMENT => 44
  | SUMMONAELEMENT => 45
  | SUMMONFELEMENT => 46
  | SUMMONWELEMENT => 47
  | EARTHQUAKE => 48
  | VIEWMINES => 49
  | VIEWRESOURCES => 50
  | VIEWARTIFACTS => 51
  | VIEWTOWNS => 52
  | VIEWHEROES => 53
  | VIEWALL => 54
  | IDENTIFYHERO => 55
  | SUMMONBOAT => 56
  | DIMENSIONDOOR => 57
  | TOWNGATE => 58
  | TOWNPORTAL => 59
  | VISIONS => 60
  | HAUNT => 61
  | SETEGUARDIAN => 62
  | SETAGUARDIAN => 63
  | SETFGUARDIAN => 64
  | SETWGUARDIAN => 65
  | RANDOM => 66
  | RANDOM1 => 67
  | RANDOM2 => 68
  | RANDOM3 => 69
  | RANDOM4 => 70
  | RANDOM5 => 71
  | PETRIFY => 72
  end.

(** The spell ids in increasing order, the range of the loops over ids. *)
Definition allSpells : list SpellId :=
  [ NONE; FIREBALL; FIREBLAST; LIGHTNINGBOLT; CHAINLIGHTNING; TELEPORT; CURE;
    MASSCURE; RESURRECT; RESURRECTTRUE; HASTE; MASSHASTE; SLOW; MASSSLOW;
    BLIND; BLESS; MASSBLESS; STONESKIN; STEELSKIN; CURSE; MASSCURSE;
    HOLYWORD; HOLYSHOUT; ANTIMAGIC; DISPEL; MASSDISPEL; ARROW; BERSERKER;
    ARMAGEDDON; ELEMENTALSTORM; METEORSHOWER; PARALYZE; HYPNOTIZE; COLDRAY;
    COLDRING; DISRUPTINGRAY; DEATHRIPPLE; DEATHWAVE; DRAGONSLAYER;
    BLOODLUST; ANIMATEDEAD; MIRRORIMAGE; SHIELD; MASSSHIELD;
    SUMMONEELEMENT; SUMMONAELEMENT; SUMMONFELEMENT; SUMMONWELEMENT;
    EARTHQUAKE; VIEWMINES; VIEWRESOURCES; VIEWARTIFACTS; VIEWTOWNS;
    VIEWHEROES; VIEWALL; IDENTIFYHERO; SUMMONBOAT; DIMENSIONDOOR; TOWNGATE;
    TOWNPORTAL; VISIONS; HAUNT; SETEGUARDIAN; SETAGUARDIAN; SETFGUARDIAN;
    SETWGUARDIAN; RANDOM; RANDOM1; RANDOM2; RANDOM3; RANDOM4; RANDOM5;
    PETRIFY ].

(** [Spell::Level] *)
Definition Level (id : SpellId) : Z :=
  match id with
  | BLESS | BLOODLUST | CURE | CURSE | DISPEL | HASTE | ARROW | SHIELD
  | SLOW | STONESKIN | VIEWMINES | VIEWRESOURCES =>
      1
  | BLIND | COLDRAY | DEATHRIPPLE | DISRUPTINGRAY | DRAGONSLAYER
  | LIGHTNINGBOLT | STEELSKIN | HAUNT | SUMMONBOAT | VIEWARTIFACTS | VISIONS =>
      2
  | ANIMATEDEAD | ANTIMAGIC | COLDRING | DEATHWAVE | EARTHQUAKE | FIREBALL
  | HOLYWORD | MASSBLESS | MASSCURSE | MASSDISPEL | MASSHASTE | PARALYZE
  | TELEPORT | IDENTIFYHERO | VIEWHEROES | VIEWTOWNS =>
      3
  | BERSERKER | CHAINLIGHTNING | ELEMENTALSTORM | FIREBLAST | HOLYSHOUT
  | MASSCURE | MASSSHIELD | MASSSLOW | METEORSHOWER | RESURRECT
  | SETEGUARDIAN | SETAGUARDIAN | SETFGUARDIAN | SETWGUARDIAN | TOWNGATE
  | VIEWALL =>
      4
  | ARMAGEDDON | HYPNOTIZE | MIRRORIMAGE | RESURRECTTRUE | SUMMONEELEMENT
  | SUMMONAELEMENT | SUMMONFELEMENT | SUMMONWELEMENT | DIMENSIONDOOR
  | TOWNPORTAL =>
      5
  | _ => 0
  end.

(** [Spell::isUndeadOnly] *)
Definition isUndeadOnly (id : SpellId) : bool :=
  match id with
  | ANIMATEDEAD | HOLYWORD | HOLYSHOUT =>
      true
  | _ => false
  end.

(** [Spell::isAliveOnly] *)
Definition isAliveOnly (id : SpellId) : bool :=
  match id with
  | BLESS | MASSBLESS | CURSE | MASSCURSE | DEATHRIPPLE | DEATHWAVE
  | RESURRECT | RESURRECTTRUE =>
      true
  | _ => false
  end.

(** [Spell::isSingleTarget] *)
Definition isSingleTarget (id : SpellId) : bool :=
  match id with
  | LIGHTNINGBOLT | TELEPORT | CURE | RESURRECT | RESURRECTTRUE | HASTE
  | SLOW | BLIND | BLESS | STONESKIN | STEELSKIN | CURSE | ANTIMAGIC
  | DISPEL | ARROW | BERSERKER | PARALYZE | HYPNOTIZE | COLDRAY
  | DISRUPTINGRAY | DRAGONSLAYER | BLOODLUST | ANIMATEDEAD | MIRRORIMAGE
  | SHIELD =>
      true
  | _ => false
  end.

(** [Spell::isEffectDispel] *)
Definition isEffectDispel (id : SpellId) : bool :=
  match id with
  | CURE | MASSCURE | DISPEL | MASSDISPEL =>
      true
  | _ => false
  end.

(** [Spell::isApplyToAnyTroops] *)
Definition isApplyToAnyTroops (id : SpellId) : bool :=
  match id with
  | DISPEL | MASSDISPEL =>
      true
  | _ => false
  end.

(** [Spell::isApplyToFriends] *)
Definition isApplyToFriends (id : SpellId) : bool :=
  match id with
  | BLESS | BLOODLUST | CURE | HASTE | SHIELD | STONESKIN | DRAGONSLAYER
  | STEELSKIN | ANIMATEDEAD | ANTIMAGIC | TELEPORT | RESURRECT
  | MIRRORIMAGE | RESURRECTTRUE | MASSBLESS | MASSCURE | MASSHASTE
  | MASSSHIELD =>
      true
  | _ => false
  end.

(** [Spell::isApplyToEnemies] *)
Definition isApplyToEnemies (id : SpellId) : bool :=
  match id with
  | MASSSLOW | MASSCURSE | CURSE | ARROW | SLOW | BLIND | COLDRAY
  | DISRUPTINGRAY | LIGHTNINGBOLT | CHAINLIGHTNING | PARALYZE | BERSERKER
  | HYPNOTIZE =>
      true
  | _ => false
  end.

(** [Spell::isApplyWithoutFocusObject] *)
Definition isApplyWithoutFocusObject (id : SpellId) : bool :=
  if isMassActions id || isSummon id then true
  else
    match id with
    | DEATHRIPPLE | DEATHWAVE | EARTHQUAKE | HOLYWORD | HOLYSHOUT
    | ARMAGEDDON | ELEMENTALSTORM =>
        true
    | _ => false
    end.

Section Collaborators.

(** [Race::NECR] of race.h. *)
Variable Race_NECR : Z.

(** [Rand::Get], the choice of an element of a vector that is not empty. *)
Variable Rand_Get : list SpellId -> SpellId.

(** [Spell::weightForRace] *)
Definition weightForRace (id : SpellId) (race : Z) : Z :=
  match id with
  | HOLYWORD | HOLYSHOUT => if race =? Race_NECR then 0 else 10
  | DEATHRIPPLE | DEATHWAVE => if negb (race =? Race_NECR) then 0 else 10
  | SUMMONEELEMENT | SUMMONAELEMENT | SUMMONFELEMENT | SUMMONWELEMENT
  | TOWNPORTAL | VISIONS | HAUNT | SETEGUARDIAN | SETAGUARDIAN
  | SETFGUARDIAN | SETWGUARDIAN =>
      0
  | _ => 10
  end.

(** The vector [Spell::Rand] fills: the ids below [PETRIFY], in order,
    that have the level and are adventure spells, or combat spells. *)
Definition Rand_candidates (level : Z) (isAdventure : bool) : list SpellId :=
  filter
    (fun spell =>
       index spell < index PETRIFY /\
       level = Level spell /\
       (if isAdventure then Spell.isAdventure spell else isCombat spell) = true)
    allSpells.

(** [Spell::Rand] *)
Definition Rand (level : Z) (isAdventure : bool) : SpellId :=
  let vec := Rand_candidates level isAdventure in
  match vec with
  | [] => NONE
  | _ => Rand_Get vec
  end.

(** [Spell::RandCombat] *)
Definition RandCombat (level : Z) : SpellId := Rand level false.

End Collaborators.

(** [Spell::getAllSpellIdsSuitableForSpellBook]; [SPELL_COUNT] is the
    number of rows of [spells]. *)
Definition getAllSpellIdsSuitableForSpellBook (spellLevel : Z) : list SpellId :=
  filter
    (fun spellId =>
       ~ (spellId = NONE \/ (index RANDOM <= index spellId /\ index spellId <= index PETRIFY))
       /\ ~ (0 < spellLevel /\ Level spellId <> spellLevel))
    allSpells.

(** The choice made by [Rand::Get] is an element of the vector. *)
Definition chooses_element (Rand_Get : list SpellId -> SpellId) : Prop :=
  forall vec : list SpellId, vec <> [] -> Rand_Get vec ∈ vec.

(** A hero like [hero] whose mastery of every school is [level]. *)
Definition with_school_level (hero : HeroBase) (level : SchoolOfMagic -> Z) : HeroBase :=
  {| necromancyShrines := necromancyShrines hero;
     isArtifactBonusPresent := isArtifactBonusPresent hero;
     getTotalArtifactMultipliedPercent := getTotalArtifactMultipliedPercent hero;
     GetSecondaryValues := GetSecondaryValues hero;
     schoolLevel := level |}.

(** A hero like [hero] with the percentages [percents] in every category. *)
Definition with_percents (hero : HeroBase) (percents : list Z) : HeroBase :=
  {| necromancyShrines := necromancyShrines hero;
     isArtifactBonusPresent := isArtifactBonusPresent hero;
     getTotalArtifactMultipliedPercent := fun _ => percents;
     GetSecondaryValues := GetSecondaryValues hero;
     schoolLevel := schoolLevel hero |}.

(** The number of target sides a spell is classified under. *)
Definition target_sides (id : SpellId) : nat :=
  ((if isApplyToFriends id then 1 else 0)
   + (if isApplyToEnemies id then 1 else 0)
   + (if isApplyToAnyTroops id then 1 else 0))%nat.

(** The first element of a vector, a choice like any other. *)
Definition first_choice (vec : list SpellId) : SpellId := hd NONE vec.

End SpellMore.

(** * Binary64 arithmetic with infinities and NaN

    The values of a [double] argument such as [armyStrength]: a finite
    value of [F64], an infinity or NaN.  Products and differences follow
    IEEE 754 on the special values: NaN propagates, an infinity times zero
    and the difference of two equal infinities are NaN.  On finite
    operands the result is that of [F64], with its unbounded exponent:
    the overflow of a finite product to an infinity and underflow are
    outside of this model, and zero has no sign. *)

Module F64X.

Inductive t : Type :=
| Finite (x : F64.t)
| Infinite (negative : bool)
| NaN.

Definition is_finite (x : t) : bool :=
  match x with Finite _ => true | _ => false end.

(** Whether the value is zero, of either sign. *)
Definition is_zero (x : t) : bool :=
  match x with Finite y => F64.Fnum y =? 0 | _ => false end.

Definition is_negative (y : F64.t) : bool := F64.Fnum y <? 0.

Definition mul (x y : t) : t :=
  match x, y with
  | NaN, _ | _, NaN => NaN
  | Finite a, Finite b => Finite (F64.mul a b)
  | Infinite s, Infinite s' => Infinite (xorb s s')
  | Infinite s, Finite b =>
      if F64.Fnum b =? 0 then NaN else Infinite (xorb s (is_negative b))
  | Finite a, Infinite s =>
      if F64.Fnum a =? 0 then NaN else Infinite (xorb (is_negative a) s)
  end.

Definition sub (x y : t) : t :=
  match x, y with
  | NaN, _ | _, NaN => NaN
  | Finite a, Finite b => Finite (F64.sub a b)
  | Infinite s, Infinite s' => if eqb s s' then NaN else Infinite s
  | Infinite s, Finite _ => Infinite s
  | Finite _, Infinite s => Infinite (negb s)
  end.

#[export] Instance ops : Spell.DoubleOps t :=
  {| Spell.of_int := fun z => Finite (F64.of_Z z);
     Spell.lit_0_05 := Finite F64.literal_0_05;
     Spell.lit_0_1 := Finite F64.literal_0_1;
     Spell.lit_0_04 := Finite F64.literal_0_04;
     Spell.dmul := mul;
     Spell.dsub := sub |}.

End F64X.

Module SpellMoreSamples.
Import Spell.

(** Every monster has strength 100. *)
Definition flat_strength_x (id : SpellId) : F64X.t := F64X.Finite (F64.of_Z 100).

End SpellMoreSamples.

(** * Properties of the skill set *)

Module SkillFacts.
Import Skill SkillHistory SkillSamples.

Lemma Count_le_length (st : SecSkills) : (Count st <= length st)%nat.
Proof. unfold Count. apply length_filter. Qed.

Lemma Set_eq (v skill : Secondary) : Set_ v skill = skill.
Proof. destruct skill; reflexivity. Qed.

Lemma Skill_SetLevel (s : Secondary) (l : Z) : Skill (SetLevel s l) = Skill s.
Proof. reflexivity. Qed.

Lemma isSkill_true (s : Secondary) (k : Z) : isSkill s k = true <-> Skill s = k.
Proof.
  unfold isSkill, Skill. rewrite bool_decide_eq_true. split; intros H; symmetry; exact H.
Qed.

Lemma length_AddSkill (st : SecSkills) (skill : Secondary) :
  (length st <= HEROESMAXSKILL)%nat -> (length (AddSkill st skill) <= HEROESMAXSKILL)%nat.
Proof.
  intros Hlen. unfold AddSkill.
  destruct (isValid skill); [|exact Hlen].
  cbv zeta.
  destruct (list_find _ st) as [[i v]|].
  - rewrite length_insert. exact Hlen.
  - destruct (list_find _ st) as [[i v]|].
    + rewrite length_insert. exact Hlen.
    + destruct (decide _) as [Hlt|_]; [|exact Hlen].
      rewrite length_app. simpl. lia.
Qed.

Lemma length_FillMax (st : SecSkills) (skill : Secondary) :
  (length st <= HEROESMAXSKILL)%nat -> (length (FillMax st skill) <= HEROESMAXSKILL)%nat.
Proof.
  intros Hlen. unfold FillMax. destruct (decide _); [|exact Hlen].
  rewrite length_resize. lia.
Qed.

Lemma length_run (calls : list call) : (length (run calls) <= HEROESMAXSKILL)%nat.
Proof.
  unfold run.
  assert (H : (length SecSkills_empty <= HEROESMAXSKILL)%nat) by (simpl; unfold HEROESMAXSKILL; lia).
  revert H. generalize SecSkills_empty.
  induction calls as [|c calls IH]; intros st Hst; simpl; [exact Hst|].
  apply IH. destruct c; simpl; [apply length_AddSkill|apply length_FillMax]; exact Hst.
Qed.

Lemma valid_is_first_unique (st : SecSkills) : valid_is_first st -> unique_kinds st.
Proof.
intros Hfirst i j a b Hi Hj Ha Hb Hk.
destruct (Nat.lt_total i j) as [Hlt|[Heq|Hgt]]; [|exact Heq|].
- exfalso. exact (Hfirst i j a b Hi Hj Hlt Hb Hk).
- exfalso. symmetry in Hk. exact (Hfirst j i b a Hj Hi Hgt Ha Hk).
Qed.

Lemma not_found_kind (st : SecSkills) (k : Z) (i : nat) (a : Secondary) :
  list_find (fun v => isSkill v k) st = None -> st !! i = Some a -> Skill a <> k.
Proof.
intros Hnone Hi Hk.
apply list_find_None in Hnone.
rewrite list.Forall_forall in Hnone.
apply (Hnone a).
- apply list_elem_of_lookup. exists i. exact Hi.
- apply Is_true_true. apply isSkill_true. exact Hk.
Qed.

Lemma valid_is_first_AddSkill (st : SecSkills) (skill : Secondary) :
  valid_is_first st -> valid_is_first (AddSkill st skill).
Proof.
intros Hfirst. unfold AddSkill.
destruct (isValid skill) eqn:Hvalid; [|exact Hfirst].
cbv zeta.
destruct (list_find (fun v => isSkill v (Skill skill)) st) as [[i v]|] eqn:Hfind.
- (* the kind is present: its first entry gets the new level *)
  apply list_find_Some in Hfind. destruct Hfind as (Hiv & HPv & Hmin).
  intros i' j a b Ha Hb Hlt Hvb.
  assert (Hka : exists a0, st !! i' = Some a0 /\ Skill a0 = Skill a).
  { destruct (decide (i = i')) as [->|Hne].
    - rewrite list_lookup_insert_eq in Ha by (eapply lookup_lt_Some; exact Hiv).
      injection Ha as <-. exists v. split; [exact Hiv|reflexivity].
    - rewrite list_lookup_insert_ne in Ha by exact Hne. exists a. split; [exact Ha|reflexivity]. }
  destruct Hka as (a0 & Ha0 & <-).
  destruct (decide (i = j)) as [->|Hne].
  + rewrite list_lookup_insert_eq in Hb by (eapply lookup_lt_Some; exact Hiv).
    injection Hb as <-. rewrite Skill_SetLevel.
    intros Hk. apply (Hmin i' a0 Ha0 Hlt).
    apply Is_true_true. apply isSkill_true.
    apply Is_true_true in HPv. apply isSkill_true in HPv. congruence.
  + rewrite list_lookup_insert_ne in Hb by exact Hne.
    exact (Hfirst i' j a0 b Ha0 Hb Hlt Hvb).
- destruct (list_find (fun v => negb (isValid v)) st) as [[i v]|] eqn:Hfree.
  + (* the kind is absent: the first empty slot takes the entry *)
    apply list_find_Some in Hfree. destruct Hfree as (Hiv & _ & _).
    rewrite Set_eq.
    intros i' j a b Ha Hb Hlt Hvb.
    destruct (decide (i = j)) as [->|Hnej].
    * rewrite list_lookup_insert_eq in Hb by (eapply lookup_lt_Some; exact Hiv).
      injection Hb as <-.
      rewrite list_lookup_insert_ne in Ha by lia.
      exact (not_found_kind st (Skill skill) i' a Hfind Ha).
    * rewrite list_lookup_insert_ne in Hb by exact Hnej.
      destruct (decide (i = i')) as [->|Hnei].
      -- rewrite list_lookup_insert_eq in Ha by (eapply lookup_lt_Some; exact Hiv).
         injection Ha as <-.
         intros Hk. exact (not_found_kind st (Skill skill) j b Hfind Hb (eq_sym Hk)).
      -- rewrite list_lookup_insert_ne in Ha by exact Hnei.
         exact (Hfirst i' j a b Ha Hb Hlt Hvb).
  + destruct (decide _) as [_|_]; [|exact Hfirst].
    (* the kind is absent and no slot is empty: push_back *)
    intros i' j a b Ha Hb Hlt Hvb.
    assert (Hj : (j < length (st ++ [skill]))%nat) by (eapply lookup_lt_Some; exact Hb).
    rewrite length_app in Hj. simpl in Hj.
    rewrite lookup_app_l in Ha by lia.
    destruct (decide (j = length st)) as [->|Hne].
    * rewrite list_lookup_middle in Hb by reflexivity. injection Hb as <-.
      exact (not_found_kind st (Skill skill) i' a Hfind Ha).
    * rewrite lookup_app_l in Hb by lia.
      exact (Hfirst i' j a b Ha Hb Hlt Hvb).
Qed.

Lemma valid_is_first_FillMax (st : SecSkills) (skill : Secondary) :
  isValid skill = false -> valid_is_first st -> valid_is_first (FillMax st skill).
Proof.
intros Hinv Hfirst. unfold FillMax.
destruct (decide _) as [Hlt|_]; [|exact Hfirst].
rewrite resize_ge by lia.
intros i j a b Ha Hb Hij Hvb.
destruct (decide (j < length st)%nat) as [Hj|Hj].
- rewrite lookup_app_l in Ha by lia. rewrite lookup_app_l in Hb by lia.
  exact (Hfirst i j a b Ha Hb Hij Hvb).
- rewrite lookup_app_r in Hb by lia.
  apply lookup_replicate in Hb. destruct Hb as [-> _]. congruence.
Qed.

Lemma valid_is_first_run (calls : list call) :
  forallb (fun c => negb (pads_with_valid c)) calls = true -> valid_is_first (run calls).
Proof.
unfold run.
assert (H : valid_is_first SecSkills_empty).
{ intros i j a b Ha. unfold SecSkills_empty in Ha. rewrite lookup_nil in Ha. discriminate Ha. }
revert H. generalize SecSkills_empty.
induction calls as [|c calls IH]; intros st Hst Hpads; simpl; [exact Hst|].
simpl in Hpads. apply andb_prop in Hpads. destruct Hpads as [Hc Hpads].
apply IH; [|exact Hpads].
destruct c as [skill|skill]; simpl.
- apply valid_is_first_AddSkill. exact Hst.
- apply valid_is_first_FillMax; [|exact Hst].
  simpl in Hc. apply negb_true_iff in Hc. exact Hc.
Qed.

(** C2, as amended.  Whatever sequence of [AddSkill] and [FillMax] calls is
    applied to the empty skill set, [Count()] never exceeds 8; and no two
    valid entries share a kind, provided no [FillMax] call pads with an
    entry that is itself valid. *)
Theorem capacity_and_unique_kinds (calls : list call) :
  (Count (run calls) <= HEROESMAXSKILL)%nat /\
  (forallb (fun c => negb (pads_with_valid c)) calls = true -> unique_kinds (run calls)).
Proof.
split.
- etransitivity; [apply Count_le_length|apply length_run].
- intros Hpads. apply valid_is_first_unique. apply valid_is_first_run. exact Hpads.
Qed.

Lemma capacity_and_unique_kinds_witness :
  (Count (run sample_calls) <= HEROESMAXSKILL)%nat /\ unique_kinds (run sample_calls).
Proof.
destruct (capacity_and_unique_kinds sample_calls) as [Hcount Hunique].
split; [exact Hcount|apply Hunique; reflexivity].
Defined.

(** C2, as stated, fails: [FillMax] on the empty skill set with a valid
    entry leaves eight valid entries of one kind. *)
Lemma FillMax_repeats_valid_entry :
  ~ (forall calls : list call,
       (Count (run calls) <= HEROESMAXSKILL)%nat /\ unique_kinds (run calls)).
Proof.
intros H.
destruct (H [CallFillMax (Secondary_make ARCHERY Level.BASIC)]) as [_ Hunique].
specialize (Hunique 0%nat 1%nat (Secondary_make ARCHERY Level.BASIC)
                    (Secondary_make ARCHERY Level.BASIC)
                    eq_refl eq_refl eq_refl eq_refl eq_refl).
discriminate Hunique.
Qed.

Lemma wrap32_small (z : Z) : 0 <= z < 2 ^ 32 -> wrap32 z = z.
Proof. intros H. unfold wrap32. apply Z.mod_small. exact H. Qed.

(** C9.  The necromancy bonus is [min(7, shrineCount + artifactEffect)],
    the artifact counting for 1 when present, and the necromancy percent is
    [min(100, value + 10 * bonus)], [value] being the hero's Necromancy
    skill value; shrine count and skill value are unsigned 32-bit numbers
    whose sums below do not leave that range. *)
Theorem necromancy_bonus_and_percent (hero : HeroBase) :
  0 <= necromancyShrines hero -> necromancyShrines hero + 1 < 2 ^ 32 ->
  0 <= GetSecondaryValues hero NECROMANCY ->
  GetSecondaryValues hero NECROMANCY + 70 < 2 ^ 32 ->
  GetNecromancyBonus hero
  = Z.min 7 (necromancyShrines hero
             + (if isArtifactBonusPresent hero ArtifactBonusType.NECROMANCY_SKILL then 1 else 0)) /\
  GetNecromancyPercent hero
  = Z.min 100 (GetSecondaryValues hero NECROMANCY + 10 * GetNecromancyBonus hero).
Proof.
intros Hs0 Hs1 Hv0 Hv1.
assert (Hbonus : GetNecromancyBonus hero
  = Z.min 7 (necromancyShrines hero
             + (if isArtifactBonusPresent hero ArtifactBonusType.NECROMANCY_SKILL then 1 else 0))).
{ unfold GetNecromancyBonus. cbv zeta. rewrite wrap32_small; [reflexivity|].
  destruct (isArtifactBonusPresent hero _); lia. }
split; [exact Hbonus|].
assert (Hb : 0 <= GetNecromancyBonus hero <= 7).
{ rewrite Hbonus. destruct (isArtifactBonusPresent hero _); lia. }
unfold GetNecromancyPercent. cbv zeta.
rewrite (wrap32_small (10 * _)) by lia.
rewrite wrap32_small by lia.
apply Z.min_comm.
Qed.

Lemma necromancy_bonus_and_percent_witness :
  GetNecromancyBonus sample_necromancer = 4 /\ GetNecromancyPercent sample_necromancer = 70.
Proof.
destruct (necromancy_bonus_and_percent sample_necromancer) as [Hbonus Hpercent];
  [vm_compute; discriminate|reflexivity|vm_compute; discriminate|reflexivity|].
split; [rewrite Hbonus|rewrite Hpercent]; reflexivity.
Defined.

End SkillFacts.

(** * Properties of the level-up planner *)

Module PlannerFacts.
Import SkillFacts.
Import Skill SkillSamples.

#[local] Arguments SecondaryPriorityFromRace : simpl never.
#[local] Arguments SecondaryGetWeightSkillFromRace : simpl never.
#[local] Arguments exclude_skills : simpl never.
#[local] Arguments GetLevel : simpl never.
#[local] Arguments secskills : simpl never.

Lemma secskills_range (k : Z) : k ∈ secskills -> UNKNOWN < k <= MAXSECONDARYSKILL.
Proof.
intros Hk.
assert (H : Forall (fun k => UNKNOWN < k <= MAXSECONDARYSKILL) secskills).
{ unfold secskills. repeat constructor; vm_compute; congruence. }
rewrite list.Forall_forall in H. exact (H k Hk).
Qed.

Lemma Skill_NextLevel (s : Secondary) : Skill (NextLevel s) = Skill s.
Proof.
unfold NextLevel.
destruct (second s =? Level.NONE); [reflexivity|].
destruct (second s =? Level.BASIC); [reflexivity|].
destruct (second s =? Level.ADVANCED); reflexivity.
Qed.

Section WithRaceData.

Variable GetSkillStats : Z -> option stats_t.
Variable seedToRoll : Z -> Z -> Z.

Local Abbreviation weight := (SecondaryGetWeightSkillFromRace GetSkillStats).
Local Abbreviation priority := (SecondaryPriorityFromRace GetSkillStats seedToRoll).
Local Abbreviation plan := (FindSkillsForLevelUp GetSkillStats seedToRoll).
Local Abbreviation plan_mem := (FindSkillsForLevelUp_mem GetSkillStats seedToRoll).

Lemma Queue_walk_elem (q : Queue) (cumulative roll : Z) :
  Queue_walk cumulative roll q = UNKNOWN \/ Queue_walk cumulative roll q ∈ q.*1.
Proof.
revert cumulative.
induction q as [|[value percent] q IH]; intros cumulative; simpl; [left; reflexivity|].
destruct (roll <? cumulative + percent).
- right. apply list_elem_of_here.
- destruct (IH (cumulative + percent)) as [H|H]; [left; exact H|right].
  apply list_elem_of_further. exact H.
Qed.

Lemma parts_entries (race : Z) (exclude l : list Z) (acc : Queue) :
  fold_left
    (fun parts skill =>
       if decide (skill ∉ exclude)
       then Queue_Push parts skill (weight race skill)
       else parts) l acc
  = acc ++ ((fun skill => (skill, weight race skill)) <$> filter (fun skill => skill ∉ exclude) l).
Proof.
revert acc.
induction l as [|k l IH]; intros acc; simpl.
- rewrite app_nil_r. reflexivity.
- rewrite IH. rewrite filter_cons.
  destruct (decide (k ∉ exclude)) as [Hk|Hk].
  + unfold Queue_Push. rewrite fmap_cons. rewrite <- app_assoc. reflexivity.
  + reflexivity.
Qed.

Lemma parts_items (race : Z) (exclude l : list Z) :
  (fold_left
     (fun parts skill =>
        if decide (skill ∉ exclude)
        then Queue_Push parts skill (weight race skill)
        else parts) l []).*1
  = filter (fun skill => skill ∉ exclude) l.
Proof.
rewrite parts_entries. simpl. rewrite <- list_fmap_compose.
induction (filter _ l) as [|k ks IH]; [reflexivity|].
rewrite fmap_cons. simpl. f_equal. exact IH.
Qed.

(** A pick is the "none" sentinel or a listed skill outside the exclusion list. *)
Lemma priority_cases (race : Z) (exclude : list Z) (seed : Z) :
  priority race exclude seed = UNKNOWN \/
  (priority race exclude seed ∈ secskills /\ priority race exclude seed ∉ exclude).
Proof.
unfold SecondaryPriorityFromRace. cbv zeta.
destruct (decide _) as [_|_]; [|left; reflexivity].
unfold Queue_GetWithSeed. cbv zeta.
destruct (_ <=? 0); [left; reflexivity|].
match goal with
| |- context [Queue_walk ?c ?r ?q] => destruct (Queue_walk_elem q c r) as [H|H]
end; [left; exact H|right].
rewrite parts_items in H.
apply list_elem_of_filter in H. destruct H as [Hne Hin]. split; assumption.
Qed.

Lemma Skill_SetSkill_priority (s : Secondary) (race : Z) (exclude : list Z) (seed : Z) :
  Skill (SetSkill s (priority race exclude seed)) = priority race exclude seed.
Proof.
unfold SetSkill, Skill. cbn [first].
destruct (priority_cases race exclude seed) as [->|[Hin _]]; [reflexivity|].
apply secskills_range in Hin. unfold UNKNOWN, MAXSECONDARYSKILL in *.
destruct (Z.leb_spec 0 (priority race exclude seed)); [|lia].
destruct (Z.leb_spec (priority race exclude seed) 28); [|lia].
reflexivity.
Qed.

(** With two distinct caller objects the call reads as follows. *)
Lemma FindSkillsForLevelUp_eq (race seed1 seed2 : Z) (st : SecSkills) (sec1 sec2 : Secondary) :
  plan race seed1 seed2 st sec1 sec2 =
  let exclude := exclude_skills st in
  let a := SetSkill sec1 (priority race exclude seed1) in
  if decide (UNKNOWN <> Skill a) then
    let b := SetSkill sec2 (priority race (exclude ++ [Skill a]) seed2) in
    (NextLevel (SetLevel a (GetLevel st (Skill a))),
     NextLevel (SetLevel b (GetLevel st (Skill b))))
  else (a, sec2).
Proof.
unfold FindSkillsForLevelUp, FindSkillsForLevelUp_mem. cbv zeta.
cbn [update read skills outside alter list_alter lookup list_lookup default from_option].
destruct (decide _) as [Hne|Hne]; reflexivity.
Qed.

Lemma elem_of_exclude_skills (st : SecSkills) (K : Z) :
  K ∈ exclude_skills st <->
  has_expert st K \/
  ((HEROESMAXSKILL <= Count st)%nat /\ K ∈ secskills /\ GetLevel st K = Level.NONE).
Proof.
assert (Hexp : K ∈ Skill <$> filter (fun v => Level v = Level.EXPERT) st <-> has_expert st K).
{ rewrite list_elem_of_fmap. unfold has_expert. split.
  - intros (e & -> & He). apply list_elem_of_filter in He. destruct He as [Hl Hin].
    exists e. repeat split; assumption.
  - intros (e & Hin & Hk & Hl). exists e. split; [symmetry; exact Hk|].
    apply list_elem_of_filter. split; assumption. }
unfold exclude_skills. cbv zeta.
destruct (decide _) as [Hfull|Hfree].
- rewrite elem_of_app, Hexp, list_elem_of_filter. split.
  + intros [H|[Hl Hin]]; [left; exact H|right]. repeat split; [exact Hfull|exact Hin|symmetry; exact Hl].
  + intros [H|(_ & Hin & Hl)]; [left; exact H|right]. split; [symmetry; exact Hl|exact Hin].
- rewrite Hexp. split; [intros H; left; exact H|].
  intros [H|(Hfull & _)]; [exact H|contradiction].
Qed.

(** Neither proposal is a kind of the exclusion list, the second output
    counting as a proposal only when it is written or was passed in clean. *)
Lemma excluded_never_proposed (race seed1 seed2 : Z) (st : SecSkills) (sec1 sec2 : Secondary) (K : Z) :
  K <> UNKNOWN -> K ∈ exclude_skills st -> Skill sec2 <> K ->
  Skill (plan race seed1 seed2 st sec1 sec2).1 <> K /\
  Skill (plan race seed1 seed2 st sec1 sec2).2 <> K.
Proof.
intros HK Hex Hsec2. rewrite FindSkillsForLevelUp_eq. cbv zeta.
rewrite Skill_SetSkill_priority.
destruct (decide (UNKNOWN <> priority race (exclude_skills st) seed1)) as [Hne|Hnone];
  cbn [fst snd].
- rewrite !Skill_NextLevel, !Skill_SetLevel, !Skill_SetSkill_priority. split.
  + destruct (priority_cases race (exclude_skills st) seed1) as [H|[_ H]]; [congruence|].
    intros Heq. apply H. rewrite Heq. exact Hex.
  + match goal with
    | |- priority ?r ?ex ?sd <> K => destruct (priority_cases r ex sd) as [H|[_ H]]
    end; [congruence|].
    intros Heq. apply H. rewrite Heq. apply elem_of_app. left. exact Hex.
- split; [|exact Hsec2].
  rewrite Skill_SetSkill_priority.
  destruct (decide (UNKNOWN = priority race (exclude_skills st) seed1)) as [<-|Hne]; [congruence|].
  contradiction.
Qed.

(** C3.  When the skill set holds kind [K] at Expert level, neither
    proposal of [FindSkillsForLevelUp] has kind [K]; and, for every skill
    set, when both proposals name a skill, the second names another kind
    than the first.  [K] is a skill kind, not the "none" sentinel; the
    second output counts as a proposal when the first pick names a skill,
    and otherwise, the call leaving it alone, when it was not passed in
    already holding [K] (a default-constructed one never is). *)
Theorem expert_kind_never_proposed
    (race seed1 seed2 : Z) (st : SecSkills) (sec1 sec2 : Secondary) :
  (forall K : Z,
     K <> UNKNOWN -> has_expert st K ->
     Skill (plan race seed1 seed2 st sec1 sec2).1 <> K /\
     (Skill sec2 <> K \/ Skill (plan race seed1 seed2 st sec1 sec2).1 <> UNKNOWN ->
      Skill (plan race seed1 seed2 st sec1 sec2).2 <> K)) /\
  (Skill (plan race seed1 seed2 st sec1 sec2).1 <> UNKNOWN ->
   Skill (plan race seed1 seed2 st sec1 sec2).2 <> UNKNOWN ->
   Skill (plan race seed1 seed2 st sec1 sec2).2 <> Skill (plan race seed1 seed2 st sec1 sec2).1).
Proof.
split.
- intros K HK Hexpert.
  assert (Hex : K ∈ exclude_skills st).
  { apply elem_of_exclude_skills. left. exact Hexpert. }
  rewrite FindSkillsForLevelUp_eq. cbv zeta.
  rewrite Skill_SetSkill_priority.
  destruct (decide (UNKNOWN <> priority race (exclude_skills st) seed1)) as [Hne|Hnone];
    cbn [fst snd].
  + rewrite !Skill_NextLevel, !Skill_SetLevel, !Skill_SetSkill_priority. split.
    * destruct (priority_cases race (exclude_skills st) seed1) as [H|[_ H]]; [congruence|].
      intros Heq. apply H. rewrite Heq. exact Hex.
    * intros _.
      match goal with
      | |- priority ?r ?ex ?sd <> K => destruct (priority_cases r ex sd) as [H|[_ H]]
      end; [congruence|].
      intros Heq. apply H. rewrite Heq. apply elem_of_app. left. exact Hex.
  + rewrite Skill_SetSkill_priority.
    assert (Hfirst : priority race (exclude_skills st) seed1 = UNKNOWN).
    { destruct (decide (UNKNOWN = priority race (exclude_skills st) seed1)) as [Heq|Hne];
        [symmetry; exact Heq|contradiction]. }
    rewrite Hfirst. split; [congruence|].
    intros [Hsec2|Hnamed]; [exact Hsec2|contradiction Hnamed; reflexivity].
- rewrite FindSkillsForLevelUp_eq. cbv zeta.
  rewrite Skill_SetSkill_priority.
  destruct (decide (UNKNOWN <> priority race (exclude_skills st) seed1)) as [Hne|Hnone];
    cbn [fst snd].
  + rewrite !Skill_NextLevel, !Skill_SetLevel, !Skill_SetSkill_priority.
    intros _ H2.
    match goal with
    | |- priority ?r ?ex ?sd <> _ => destruct (priority_cases r ex sd) as [H|[_ H]]
    end; [congruence|].
    intros Heq. apply H. rewrite Heq. apply elem_of_app. right. apply list_elem_of_here.
  + rewrite Skill_SetSkill_priority. intros H1 _.
    destruct (decide (UNKNOWN = priority race (exclude_skills st) seed1)) as [Heq|Hne];
      [congruence|contradiction].
Qed.

(** C5, as amended.  When the first pick is the "none" sentinel, the first
    output has kind "none" and keeps the level it came with, and the second
    output is exactly the object that was passed in; so both outputs are
    "none" whenever the second was passed in as "none". *)
Theorem nothing_picked_outputs
    (race seed1 seed2 : Z) (st : SecSkills) (sec1 sec2 : Secondary) :
  priority race (exclude_skills st) seed1 = UNKNOWN ->
  Skill (plan race seed1 seed2 st sec1 sec2).1 = UNKNOWN /\
  Level (plan race seed1 seed2 st sec1 sec2).1 = Level sec1 /\
  (plan race seed1 seed2 st sec1 sec2).2 = sec2 /\
  (Skill sec2 = UNKNOWN -> Skill (plan race seed1 seed2 st sec1 sec2).2 = UNKNOWN).
Proof.
intros Hnone. rewrite FindSkillsForLevelUp_eq. cbv zeta.
rewrite Skill_SetSkill_priority, Hnone.
destruct (decide (UNKNOWN <> UNKNOWN)) as [Hne|_]; [contradiction|]. cbn [fst snd].
split; [reflexivity|].
split; [reflexivity|]. split; [reflexivity|]. intros H. exact H.
Qed.

Lemma skills_update (m : Mem) (r : ref) (f : Secondary -> Secondary) :
  isInState r = false -> skills (update m r f) = skills m.
Proof. destruct r; [discriminate|reflexivity]. Qed.

Lemma outside_update (m : Mem) (r : ref) (f : Secondary -> Secondary) (n : nat) :
  Outside n <> r -> outside (update m r f) !! n = outside m !! n.
Proof.
destruct r as [i|k]; intros Hne; simpl; [reflexivity|].
apply list_lookup_alter_ne. congruence.
Qed.

(** C10.  [FindSkillsForLevelUp] leaves the skill set it is called on as it
    was: with output references that designate objects outside of the skill
    set, the entry sequence after the call is the one before it, and of the
    outside objects only the two outputs can have changed. *)
Theorem FindSkillsForLevelUp_frame
    (race seed1 seed2 : Z) (sec1 sec2 : ref) (m : Mem) :
  isInState sec1 = false -> isInState sec2 = false ->
  skills (plan_mem race seed1 seed2 sec1 sec2 m) = skills m /\
  (forall n : nat, Outside n <> sec1 -> Outside n <> sec2 ->
     outside (plan_mem race seed1 seed2 sec1 sec2 m) !! n = outside m !! n).
Proof.
intros H1 H2. unfold FindSkillsForLevelUp_mem. cbv zeta.
destruct (decide _) as [_|_]; split.
- rewrite !skills_update by assumption. reflexivity.
- intros n Hn1 Hn2. rewrite !outside_update by assumption. reflexivity.
- rewrite !skills_update by assumption. reflexivity.
- intros n Hn1 Hn2. rewrite !outside_update by assumption. reflexivity.
Qed.

Lemma weight_nonneg (race skill : Z) : 0 <= weight race skill.
Proof.
unfold SecondaryGetWeightSkillFromRace.
destruct (GetSkillStats race) as [ptr|]; [|lia].
cbv zeta.
repeat (match goal with |- context [if ?c then _ else _] => destruct c end;
        [apply N2Z.is_nonneg|]).
lia.
Qed.

Lemma Queue_total_pos (q : Queue) (K w : Z) :
  (K, w) ∈ q -> 0 < w -> Forall (fun vp => 0 <= vp.2) q -> 0 < Queue_total q.
Proof.
intros Hin Hw Hall.
assert (Hnn : forall q', Forall (fun vp : Z * Z => 0 <= vp.2) q' -> 0 <= Queue_total q').
{ induction 1 as [|[v p] q' Hp _ IH]; simpl in *; lia. }
induction Hall as [|[v p] q' Hp Hq' IH]; [inversion Hin|].
simpl in *. apply elem_of_cons in Hin. destruct Hin as [Heq|Hin].
- injection Heq as <- <-. specialize (Hnn q' Hq'). lia.
- specialize (IH Hin). lia.
Qed.

Lemma Queue_walk_single (q : Queue) (K cumulative roll : Z) :
  Forall (fun vp => 0 <= vp.2 /\ (0 < vp.2 -> vp.1 = K)) q ->
  cumulative <= roll < cumulative + Queue_total q ->
  Queue_walk cumulative roll q = K.
Proof.
intros Hall. revert cumulative.
induction Hall as [|[v p] q' [Hp HK] _ IH]; intros cumulative Hroll; simpl in *; [lia|].
destruct (Z.ltb_spec roll (cumulative + p)) as [Hlt|Hge].
- apply HK. lia.
- apply IH. lia.
Qed.

(** When a single candidate carries weight, it is the pick, whatever the seed. *)
Lemma priority_single (race : Z) (exclude : list Z) (seed K : Z) :
  draws_below_total seedToRoll ->
  K ∈ secskills -> K ∉ exclude -> 0 < weight race K ->
  Forall (fun k => k = K \/ weight race k = 0) secskills ->
  priority race exclude seed = K.
Proof.
intros Hdraw HK Hex Hw Hothers.
unfold SecondaryPriorityFromRace. cbv zeta. rewrite parts_entries. simpl.
set (q := (fun skill => (skill, weight race skill)) <$> filter (fun skill => skill ∉ exclude) secskills).
assert (HKq : (K, weight race K) ∈ q).
{ apply (list_elem_of_fmap_2 (fun skill => (skill, weight race skill))). apply list_elem_of_filter. split; assumption. }
assert (Hq : Forall (fun vp : Z * Z => 0 <= vp.2 /\ (0 < vp.2 -> vp.1 = K)) q).
{ apply list.Forall_forall. intros [v p] Hvp.
  apply list_elem_of_fmap in Hvp. destruct Hvp as (k & Heq & Hk). injection Heq as -> ->.
  apply list_elem_of_filter in Hk. destruct Hk as [_ Hk].
  rewrite list.Forall_forall in Hothers. simpl.
  split; [apply weight_nonneg|].
  destruct (Hothers k Hk) as [->|H0]; [reflexivity|lia]. }
assert (Htotal : 0 < Queue_total q).
{ apply (Queue_total_pos q K (weight race K) HKq Hw).
  eapply Forall_impl; [|exact Hq]. intros vp [H _]. exact H. }
destruct (decide _) as [_|Hsize].
- unfold Queue_GetWithSeed. cbv zeta.
  destruct (Z.leb_spec (Queue_total q) 0) as [Hle|_]; [lia|].
  apply Queue_walk_single; [exact Hq|].
  specialize (Hdraw seed (Queue_total q) Htotal). lia.
- exfalso. apply Hsize. unfold Queue_Size. intros Hlen.
  apply length_zero_iff_nil in Hlen. rewrite Hlen in HKq. inversion HKq.
Qed.

Lemma Count_lt_length (st : SecSkills) (i : nat) (e : Secondary) :
  st !! i = Some e -> isValid e = false -> (Count st < length st)%nat.
Proof.
unfold Count. revert i.
induction st as [|a st IH]; intros i Hi Hinv; [discriminate Hi|].
rewrite filter_cons. destruct i as [|i]; simpl in Hi.
- injection Hi as ->. rewrite Hinv. simpl.
  pose proof (length_filter (fun v => isValid v) st). simpl. lia.
- specialize (IH i Hi Hinv).
  destruct (decide (isValid a)); simpl; lia.
Qed.

Lemma GetLevel_absent (st : SecSkills) (K : Z) :
  Forall (fun e => Skill e <> K) st -> GetLevel st K = Level.NONE.
Proof.
intros Habs. unfold GetLevel.
destruct (list_find _ st) as [[i v]|] eqn:Hfind; [|reflexivity].
apply list_find_Some in Hfind. destruct Hfind as (Hiv & HPv & _).
rewrite list.Forall_forall in Habs.
exfalso. apply (Habs v).
- apply list_elem_of_lookup. exists i. exact Hiv.
- apply Is_true_true in HPv. apply isSkill_true in HPv. exact HPv.
Qed.

(** C4.  The exclusion list built by [FindSkillsForLevelUp] holds, besides
    the kinds at Expert level, the kinds at level None exactly when
    [Count()] is at least 8, and no kind of the list is proposed.  A skill
    set of 8 slots one of which is at level None has [Count()] below 8, and
    with [Count()] below 8 a kind absent from the skill set is proposed, at
    Basic level, whenever it is the only one to carry weight. *)
Theorem full_roster_exclusion :
  (forall (st : SecSkills) (K : Z),
     K ∈ exclude_skills st <->
     has_expert st K \/
     ((HEROESMAXSKILL <= Count st)%nat /\ K ∈ secskills /\ GetLevel st K = Level.NONE)) /\
  (forall (race seed1 seed2 : Z) (st : SecSkills) (sec1 sec2 : Secondary) (K : Z),
     (HEROESMAXSKILL <= Count st)%nat -> K ∈ secskills -> GetLevel st K = Level.NONE ->
     Skill sec2 <> K ->
     Skill (plan race seed1 seed2 st sec1 sec2).1 <> K /\
     Skill (plan race seed1 seed2 st sec1 sec2).2 <> K) /\
  (forall (st : SecSkills) (i : nat) (e : Secondary),
     length st = HEROESMAXSKILL -> st !! i = Some e -> Level e = Level.NONE ->
     (Count st < HEROESMAXSKILL)%nat) /\
  (forall (race seed1 seed2 : Z) (st : SecSkills) (sec1 sec2 : Secondary) (K : Z),
     draws_below_total seedToRoll ->
     (Count st < HEROESMAXSKILL)%nat ->
     K ∈ secskills -> Forall (fun e => Skill e <> K) st ->
     0 < weight race K -> Forall (fun k => k = K \/ weight race k = 0) secskills ->
     (plan race seed1 seed2 st sec1 sec2).1 = mkSecondary K Level.BASIC).
Proof.
split; [exact elem_of_exclude_skills|]. split; [|split].
- intros race seed1 seed2 st sec1 sec2 K Hfull HK Hnone Hsec2.
  apply excluded_never_proposed; [|apply elem_of_exclude_skills; right; repeat split; assumption|exact Hsec2].
  apply secskills_range in HK. unfold UNKNOWN in *. lia.
- intros st i e Hlen Hi He. rewrite <- Hlen.
  apply (Count_lt_length st i e Hi).
  unfold isValid. rewrite He. rewrite andb_comm. reflexivity.
- intros race seed1 seed2 st sec1 sec2 K Hdraw Hfree HK Habs Hw Hothers.
  assert (Hex : K ∉ exclude_skills st).
  { rewrite elem_of_exclude_skills. intros [(e & Hin & Hk & _)|(Hfull & _)]; [|lia].
    rewrite list.Forall_forall in Habs. exact (Habs e Hin Hk). }
  rewrite FindSkillsForLevelUp_eq. cbv zeta.
  rewrite Skill_SetSkill_priority.
  rewrite (priority_single race (exclude_skills st) seed1 K Hdraw HK Hex Hw Hothers).
  pose proof (secskills_range K HK) as Hrange.
  destruct (decide (UNKNOWN <> K)) as [_|Hnone]; [|exfalso; apply Hnone; unfold UNKNOWN in *; lia].
  cbn [fst].
  assert (HsK : SetSkill sec1 K = mkSecondary K (second sec1)).
  { unfold SetSkill, UNKNOWN, MAXSECONDARYSKILL in *.
    destruct (Z.leb_spec 0 K); [|lia]. destruct (Z.leb_spec K 28); [|lia]. reflexivity. }
  rewrite HsK. unfold Skill. cbn [first].
  rewrite (GetLevel_absent st K Habs). reflexivity.
Qed.

End WithRaceData.

Ltac by_decision := apply (bool_decide_unpack _); vm_compute; exact I.

Lemma modulo_draw_below_total : draws_below_total modulo_draw.
Proof. intros seed total Htotal. unfold modulo_draw. apply Z.mod_pos_bound. exact Htotal. Qed.

Lemma leadership_expert_has_expert : has_expert leadership_expert LEADERSHIP.
Proof.
exists (Secondary_make LEADERSHIP Level.EXPERT).
split; [apply list_elem_of_here|split; reflexivity].
Qed.

Lemma expert_kind_never_proposed_witness :
  has_expert leadership_expert LEADERSHIP /\
  Skill (FindSkillsForLevelUp even_stats modulo_draw 0 12345 777
           leadership_expert Secondary_default Secondary_default).1 <> LEADERSHIP /\
  Skill (FindSkillsForLevelUp even_stats modulo_draw 0 12345 777
           leadership_expert Secondary_default Secondary_default).2 <> LEADERSHIP /\
  Skill (FindSkillsForLevelUp even_stats modulo_draw 0 12345 777
           SecSkills_empty Secondary_default Secondary_default).2
  <> Skill (FindSkillsForLevelUp even_stats modulo_draw 0 12345 777
              SecSkills_empty Secondary_default Secondary_default).1.
Proof.
destruct (expert_kind_never_proposed even_stats modulo_draw 0 12345 777
            leadership_expert Secondary_default Secondary_default) as [Hexpert _].
destruct (expert_kind_never_proposed even_stats modulo_draw 0 12345 777
            SecSkills_empty Secondary_default Secondary_default) as [_ Hself].
destruct (Hexpert LEADERSHIP ltac:(by_decision) leadership_expert_has_expert)
  as [Hfirst Hsecond].
split; [exact leadership_expert_has_expert|].
split; [exact Hfirst|]. split.
- apply Hsecond. left. by_decision.
- apply Hself; by_decision.
Defined.

Lemma full_roster_exclusion_witness :
  (Count seven_and_empty < HEROESMAXSKILL)%nat /\
  (FindSkillsForLevelUp luck_stats modulo_draw 0 12345 777
     seven_and_empty Secondary_default Secondary_default).1 = mkSecondary LUCK Level.BASIC /\
  Skill (FindSkillsForLevelUp luck_stats modulo_draw 0 12345 777
           eight_learned Secondary_default Secondary_default).1 <> LUCK.
Proof.
destruct (full_roster_exclusion luck_stats modulo_draw) as (_ & Hfull & Hslot & Hnew).
assert (Hcount : (Count seven_and_empty < HEROESMAXSKILL)%nat).
{ apply (Hslot seven_and_empty 4%nat Secondary_default); reflexivity. }
split; [exact Hcount|]. split.
- apply Hnew.
  + exact modulo_draw_below_total.
  + exact Hcount.
  + by_decision.
  + by_decision.
  + reflexivity.
  + by_decision.
- apply (Hfull 0 12345 777 eight_learned Secondary_default Secondary_default LUCK).
  + vm_compute. lia.
  + by_decision.
  + reflexivity.
  + by_decision.
Defined.

Lemma nothing_picked_outputs_witness :
  (FindSkillsForLevelUp no_stats modulo_draw 0 12345 777
     [] Secondary_default (Secondary_make ARCHERY Level.BASIC)).2
  = Secondary_make ARCHERY Level.BASIC.
Proof.
apply (nothing_picked_outputs no_stats modulo_draw 0 12345 777
         [] Secondary_default (Secondary_make ARCHERY Level.BASIC)).
reflexivity.
Defined.

(** C5, as stated, fails: with no race data the first pick is "none", and
    a second output passed in as Basic Archery is still Basic Archery after
    the call. *)
Lemma nothing_picked_keeps_second_output :
  ~ (forall (GetSkillStats : Z -> option stats_t) (seedToRoll : Z -> Z -> Z)
            (race seed1 seed2 : Z) (st : SecSkills) (sec1 sec2 : Secondary),
       SecondaryPriorityFromRace GetSkillStats seedToRoll race (exclude_skills st) seed1 = UNKNOWN ->
       Skill (FindSkillsForLevelUp GetSkillStats seedToRoll race seed1 seed2 st sec1 sec2).1 = UNKNOWN /\
       Skill (FindSkillsForLevelUp GetSkillStats seedToRoll race seed1 seed2 st sec1 sec2).2 = UNKNOWN).
Proof.
intros H.
destruct (H no_stats modulo_draw 0 12345 777 [] Secondary_default
            (Secondary_make ARCHERY Level.BASIC) eq_refl) as [_ H2].
vm_compute in H2. discriminate H2.
Qed.

Lemma FindSkillsForLevelUp_frame_witness :
  skills (FindSkillsForLevelUp_mem even_stats modulo_draw 0 12345 777
            (Outside 0) (Outside 1) sample_mem) = skills sample_mem /\
  outside (FindSkillsForLevelUp_mem even_stats modulo_draw 0 12345 777
             (Outside 0) (Outside 1) sample_mem) !! 2%nat = outside sample_mem !! 2%nat.
Proof.
destruct (FindSkillsForLevelUp_frame even_stats modulo_draw 0 12345 777
            (Outside 0) (Outside 1) sample_mem eq_refl eq_refl) as [Hskills Hout].
split; [exact Hskills|].
apply Hout; discriminate.
Defined.

(** An output reference into the skill set itself is written like any
    other: the frame property is one of calls with outputs of the caller. *)
Example FindSkillsForLevelUp_aliased :
  skills (FindSkillsForLevelUp_mem even_stats modulo_draw 0 12345 777
            (InState 0) (Outside 1) sample_mem) <> skills sample_mem.
Proof. vm_compute. discriminate. Qed.

End PlannerFacts.

(** * Properties of the binary64 model *)

Module F64Facts.
Import F64.

(** The literals are the doubles nearest to 1/20, 1/10 and 1/25: 53-bit
    significands within half a unit in the last place. *)
Lemma literals_nearest :
  (2 ^ 52 <= Fnum literal_0_05 < 2 ^ 53 /\ Z.abs (20 * Fnum literal_0_05 - 2 ^ 57) <= 10) /\
  (2 ^ 52 <= Fnum literal_0_1 < 2 ^ 53 /\ Z.abs (10 * Fnum literal_0_1 - 2 ^ 56) <= 5) /\
  (2 ^ 52 <= Fnum literal_0_04 < 2 ^ 53 /\ 2 * Z.abs (25 * Fnum literal_0_04 - 2 ^ 57) <= 25).
Proof. vm_compute. intuition discriminate. Qed.

Lemma round_small (m e : Z) : Z.abs m < 2 ^ 53 -> round m e = mk m e.
Proof.
intros Hm. unfold round, digits, prec. cbv zeta.
destruct (Z.eq_dec (Z.abs m) 0) as [H0|H0].
- rewrite H0. reflexivity.
- assert (Hlog : Z.log2 (Z.abs m) < 53) by (apply Z.log2_lt_pow2; lia).
  destruct (Z.leb_spec (Z.log2 (Z.abs m) + 1 - 53) 0); [reflexivity|lia].
Qed.

Lemma rne_error (a k : Z) :
  0 <= a -> 0 < k -> 2 * Z.abs (rne a k * 2 ^ k - a) <= 2 ^ k.
Proof.
intros Ha Hk. unfold rne. cbv zeta.
assert (Hpow : 2 ^ k = 2 * 2 ^ (k - 1)).
{ replace k with (Z.succ (k - 1)) at 1 by lia. apply Z.pow_succ_r. lia. }
assert (Hhalf : 0 < 2 ^ (k - 1)) by (apply Z.pow_pos_nonneg; lia).
pose proof (Z.div_mod a (2 ^ k) ltac:(lia)) as Hdm.
pose proof (Z.mod_pos_bound a (2 ^ k) ltac:(lia)) as Hr.
set (q := a / 2 ^ k) in *. set (r := a mod 2 ^ k) in *.
set (P := 2 ^ k) in *. set (h := 2 ^ (k - 1)) in *.
destruct (Z.ltb_spec r h); [lia|].
destruct (Z.ltb_spec h r); [lia|].
destruct (Z.even q); lia.
Qed.

(** Rounding a positive significand: the exponent grows by the number [k] of
    dropped bits, the result is within half a unit of the last kept bit,
    and when bits are dropped a unit of the last kept bit is at most
    [2 ^ -52] of the value. *)
Lemma round_pos_error (m e : Z) :
  0 < m ->
  exists k, 0 <= k /\ Fexp (round m e) = e + k /\
            2 * Z.abs (Fnum (round m e) * 2 ^ k - m) <= 2 ^ k /\
            (0 < k -> 2 ^ k * 2 ^ 52 <= m).
Proof.
intros Hm. unfold round, digits, prec. cbv zeta.
rewrite (Z.abs_eq m) by lia. rewrite (Z.sgn_pos m) by lia.
destruct (Z.leb_spec (Z.log2 m + 1 - 53) 0) as [Hk|Hk].
- exists 0. cbn [Fnum Fexp]. change (2 ^ 0) with 1. lia.
- exists (Z.log2 m + 1 - 53). cbn [Fnum Fexp].
  split; [lia|]. split; [reflexivity|]. split.
  + rewrite Z.mul_1_l. apply rne_error; lia.
  + intros _. rewrite <- Z.pow_add_r by lia.
    replace (Z.log2 m + 1 - 53 + 52) with (Z.log2 m) by lia.
    pose proof (Z.log2_spec m Hm). lia.
Qed.

Lemma align_shift (x : t) (e0 e : Z) :
  e0 <= e -> e <= Fexp x -> align x e0 = align x e * 2 ^ (e - e0).
Proof.
intros H0 H1. unfold align.
rewrite <- Z.mul_assoc. rewrite <- Z.pow_add_r by lia.
f_equal. f_equal. lia.
Qed.

(** Comparing at any common exponent gives the same answer. *)
Lemma ltb_aligned (x y : t) (e0 : Z) :
  e0 <= Fexp x -> e0 <= Fexp y -> ltb x y = (align x e0 <? align y e0).
Proof.
intros Hx Hy. unfold ltb. cbv zeta.
set (e := Z.min (Fexp x) (Fexp y)).
rewrite (align_shift x e0 e), (align_shift y e0 e) by lia.
assert (Hp : 0 < 2 ^ (e - e0)) by (apply Z.pow_pos_nonneg; lia).
destruct (Z.ltb_spec (align x e) (align y e));
  destruct (Z.ltb_spec (align x e * 2 ^ (e - e0)) (align y e * 2 ^ (e - e0)));
  try reflexivity; nia.
Qed.

End F64Facts.

(** * Properties of spell cost and strategic value *)

Module SpellFacts.
Import Spell SpellSamples.

(** ** Cost *)

(** A spell outside of the four artifact categories costs its base cost
    less the school discount, as it is: the floor at 1 is not applied. *)
Lemma spellPoints_no_category (id : SpellId) (hero : HeroBase) :
  costReductionType id = ArtifactBonusType.NONE ->
  spellPoints id (Some hero)
  = wrap32 (stats_spellPoints (spells id) - GetSpellCostReduction hero id).
Proof. intros Htype. unfold spellPoints. cbv zeta. rewrite Htype. reflexivity. Qed.

Lemma reduction_step_le (bound spellCost value : Z) :
  0 <= bound -> spellCost <= bound -> 0 <= value <= 100 ->
  Z.quot (spellCost * (100 - value)) 100 <= bound.
Proof.
intros Hb Hc Hv.
destruct (Z.le_gt_cases 0 spellCost) as [Hpos|Hneg].
- transitivity spellCost; [|exact Hc].
  apply Z.quot_le_upper_bound; [lia|nia].
- transitivity 0; [|exact Hb].
  apply Z.quot_le_upper_bound; [lia|nia].
Qed.

Lemma reductions_le (bound : Z) (percents : list Z) (spellCost : Z) :
  0 <= bound -> spellCost <= bound -> Forall (fun value => 0 <= value <= 100) percents ->
  fold_left (fun spellCost value => Z.quot (spellCost * (100 - value)) 100) percents spellCost
  <= bound.
Proof.
intros Hb Hc Hall. revert spellCost Hc.
induction Hall as [|value percents Hv _ IH]; intros spellCost Hc; simpl; [exact Hc|].
apply IH. apply reduction_step_le; assumption.
Qed.

Lemma GetSpellCostReduction_nonneg (hero : HeroBase) (id : SpellId) :
  0 <= GetSpellCostReduction hero id.
Proof.
unfold GetSpellCostReduction.
assert (Hall : Forall (fun d => 0 <= d) (GetSpellDiscounts id)).
{ destruct id; vm_compute; repeat constructor; discriminate. }
generalize (Z.to_nat (schoolLevel hero (GetSchoolOfMagic id))). intros n.
revert n. induction Hall as [|d l Hd _ IH]; intros [|n]; simpl; try lia; apply IH.
Qed.

(** With an artifact category the cost is floored at 1. *)
Lemma spellPoints_category_floor (id : SpellId) (hero : HeroBase) :
  costReductionType id <> ArtifactBonusType.NONE ->
  Forall (fun value => 0 <= value <= 100)
         (getTotalArtifactMultipliedPercent hero (costReductionType id)) ->
  1 <= spellPoints id (Some hero).
Proof.
intros Htype Hall. unfold spellPoints. cbv zeta.
set (cost := fold_left _ _ _).
assert (Hcost : cost <= 255).
{ apply reductions_le; [lia| |exact Hall].
  pose proof (GetSpellCostReduction_nonneg hero id).
  assert (stats_spellPoints (spells id) <= 255) by (destruct id; vm_compute; discriminate).
  lia. }
assert (Hfloor : 1 <= (if cost <? 1 then 1 else wrap32 cost)).
{ destruct (Z.ltb_spec cost 1); [lia|]. unfold wrap32. rewrite Z.mod_small; lia. }
destruct (costReductionType id); [contradiction|exact Hfloor..].
Qed.

(** C1 fails on the code.  View Mines has base cost 1 and school discount
    1 from Basic Earth Magic on, and belongs to none of the artifact
    categories: for a hero with Basic Earth Magic [spellPoints] returns
    before the floor and the spell costs 0 spell points. *)
Theorem spellPoints_view_mines_zero :
  costReductionType VIEWMINES = ArtifactBonusType.NONE /\
  Forall (fun value => 0 <= value <= 100)
         (getTotalArtifactMultipliedPercent basic_earth_mage (costReductionType VIEWMINES)) /\
  spellPoints VIEWMINES (Some basic_earth_mage) = 0.
Proof. split; [reflexivity|]. split; [constructor|reflexivity]. Qed.

Example spellPoints_bless_floor : spellPoints BLESS (Some bless_collector) = 1.
Proof. reflexivity. Qed.

(** ** Strategic value *)

Section AnyDouble.

Context {D : Type} {ops : DoubleOps D}.
Variable monsterStrength : SpellId -> D.

Lemma damageTerm_eq (id : SpellId) (spellPower schoolSpellModifier : Z) :
  damageTerm id spellPower schoolSpellModifier
  = wrap32 (Damage id * spellPower + schoolSpellModifier).
Proof.
unfold damageTerm, wrap32.
rewrite Z.mul_mod_idemp_r by lia.
rewrite Z.add_mod_idemp_l, Z.add_mod_idemp_r by lia. reflexivity.
Qed.

Lemma getStrategicValue_damage (id : SpellId) (armyStrength : D)
    (currentSpellPoints spellPower schoolSpellModifier : Z) :
  isDamage id = true ->
  getStrategicValue monsterStrength id armyStrength currentSpellPoints spellPower schoolSpellModifier
  = dmul (amountModifier (casts id currentSpellPoints))
         (of_int (wrap32 (Damage id * spellPower + schoolSpellModifier))).
Proof.
intros Hdamage. rewrite <- damageTerm_eq.
destruct id; try discriminate Hdamage; reflexivity.
Qed.

(** C6.  For a summon spell [getStrategicValue] is
    [monsterStrength * ExtraValue * spellPower], whatever the army strength,
    the current spell points and the school modifier: the value is the same
    for any other army strength and spell points. *)
Theorem getStrategicValue_summon (id : SpellId) (armyStrength : D)
    (currentSpellPoints spellPower schoolSpellModifier : Z) :
  isSummon id = true ->
  getStrategicValue monsterStrength id armyStrength currentSpellPoints spellPower schoolSpellModifier
  = dmul (dmul (monsterStrength id) (of_int (ExtraValue id))) (of_int spellPower) /\
  (forall (armyStrength' : D) (currentSpellPoints' : Z),
     getStrategicValue monsterStrength id armyStrength' currentSpellPoints' spellPower schoolSpellModifier
     = getStrategicValue monsterStrength id armyStrength currentSpellPoints spellPower schoolSpellModifier).
Proof.
intros Hsummon.
destruct id; try discriminate Hsummon; split; reflexivity.
Qed.

(** C7, as amended.  For a damage spell [getStrategicValue] is
    [amountModifier * term], where [casts] is
    [min(10, currentSpellPoints / baseCost)] if [baseCost > 0] and 0
    otherwise, [amountModifier] is 1 if [casts == 1] and
    [casts - 0.05 * casts * casts] otherwise, and [term] is
    [damageAmount * spellPower + schoolSpellModifier] computed in unsigned
    32-bit arithmetic: it is that sum whenever the sum lies in
    [0, 2^32). *)
Theorem getStrategicValue_damage_formula (id : SpellId) (armyStrength : D)
    (currentSpellPoints spellPower schoolSpellModifier : Z) :
  isDamage id = true ->
  (getStrategicValue monsterStrength id armyStrength currentSpellPoints spellPower schoolSpellModifier
   = dmul (amountModifier (casts id currentSpellPoints))
          (of_int (wrap32 (Damage id * spellPower + schoolSpellModifier)))) /\
  (0 <= Damage id * spellPower + schoolSpellModifier < 2 ^ 32 ->
   getStrategicValue monsterStrength id armyStrength currentSpellPoints spellPower schoolSpellModifier
   = dmul (amountModifier (casts id currentSpellPoints))
          (of_int (Damage id * spellPower + schoolSpellModifier))) /\
  casts id currentSpellPoints
  = (if 0 <? spellPoints id None
     then Z.min 10 (currentSpellPoints / spellPoints id None) else 0) /\
  amountModifier (casts id currentSpellPoints)
  = (if casts id currentSpellPoints =? 1 then of_int 1
     else dsub (of_int (casts id currentSpellPoints))
               (dmul (dmul lit_0_05 (of_int (casts id currentSpellPoints)))
                     (of_int (casts id currentSpellPoints)))).
Proof.
intros Hdamage. split; [apply getStrategicValue_damage; exact Hdamage|].
split; [|split; [|reflexivity]].
- intros Hrange. rewrite getStrategicValue_damage by exact Hdamage.
  unfold wrap32. rewrite Z.mod_small by exact Hrange. reflexivity.
- destruct id; try discriminate Hdamage; reflexivity.
Qed.

End AnyDouble.

(** ** Diminishing returns, in binary64 *)

Import F64 F64Facts.

Lemma getStrategicValue_summon_witness :
  getStrategicValue flat_strength SUMMONEELEMENT (F64.of_Z 5000) 90 7 10
  = F64.mul (F64.mul (flat_strength SUMMONEELEMENT) (F64.of_Z 3)) (F64.of_Z 7) /\
  getStrategicValue flat_strength SUMMONEELEMENT (F64.of_Z 1) 0 7 10
  = getStrategicValue flat_strength SUMMONEELEMENT (F64.of_Z 5000) 90 7 10.
Proof.
destruct (getStrategicValue_summon flat_strength SUMMONEELEMENT (F64.of_Z 5000) 90 7 10 eq_refl)
  as [Hvalue Hsame].
split; [exact Hvalue|apply Hsame].
Defined.

Lemma getStrategicValue_damage_formula_witness :
  getStrategicValue flat_strength FIREBALL (F64.of_Z 5000) 18 7 10
  = F64.mul (amountModifier 2) (F64.of_Z (10 * 7 + 10)).
Proof.
destruct (getStrategicValue_damage_formula flat_strength FIREBALL (F64.of_Z 5000) 18 7 10 eq_refl)
  as (_ & Hsum & _).
apply Hsum. change (0 <= 80 < 2 ^ 32). lia.
Defined.

(** C7, as stated, fails: for Fireball (damage 10, cost 9) with 9 spell
    points, spell power -1 and school modifier 0 the code returns
    4294967286, where [amountModifier * (10 * -1 + 0)] is -10. *)
Lemma damage_term_is_unsigned :
  isDamage FIREBALL = true /\
  getStrategicValue flat_strength FIREBALL (F64.of_Z 0) 9 (-1) 0 = F64.mk 4294967286 0 /\
  F64.mul (amountModifier (casts FIREBALL 9)) (F64.of_Z (Damage FIREBALL * (-1) + 0))
  = F64.mk (-10) 0 /\
  F64.eqb (getStrategicValue flat_strength FIREBALL (F64.of_Z 0) 9 (-1) 0)
          (F64.mul (amountModifier (casts FIREBALL 9))
                   (F64.of_Z (Damage FIREBALL * (-1) + 0))) = false.
Proof. repeat split. Qed.

(** The product [0.05 * casts * casts] is evaluated from the left; at 6
    casts this is one unit in the last place away from [0.05 * 36]. *)
Example amountModifier_6_from_the_left :
  amountModifier (D := F64.t) 6 = F64.mk 4728779608739020 (-50) /\
  F64.sub (F64.of_Z 6) (F64.mul literal_0_05 (F64.of_Z 36)) = F64.mk 4728779608739021 (-50).
Proof. split; reflexivity. Qed.

Lemma amountModifier_2 : amountModifier (D := F64.t) 2 = F64.mk 8106479329266893 (-52).
Proof. reflexivity. Qed.

Lemma amountModifier_10 : amountModifier (D := F64.t) 10 = F64.mk 5629499534213120 (-50).
Proof. reflexivity. Qed.

Lemma mul_of_Z_bounds (a e x : Z) :
  0 < a -> 0 < x < 2 ^ 53 ->
  exists n k, F64.mul (F64.mk a e) (F64.of_Z x) = F64.mk n (e + k) /\ 0 <= k /\
              2 * Z.abs (n * 2 ^ k - a * x) <= 2 ^ k /\
              (0 < k -> 2 ^ k * 2 ^ 52 <= a * x).
Proof.
intros Ha Hx.
unfold F64.of_Z. rewrite round_small by lia.
unfold F64.mul. cbn [Fnum Fexp]. rewrite Z.add_0_r.
destruct (round_pos_error (a * x) e ltac:(nia)) as (k & Hk & Hexp & Herr & Hulp).
exists (Fnum (round (a * x) e)), k.
split; [|repeat split; assumption].
rewrite <- Hexp. destruct (round (a * x) e); reflexivity.
Qed.

(** C8, as amended.  The modifier [amountModifier(casts)] is non-decreasing
    for [casts] from 1 to 4; and for a damage spell, a spell power and a
    school modifier whose damage term is positive, the strategic value at
    10 casts is less than 5 times the strategic value at 2 casts. *)
Theorem diminishing_returns :
  (forall c1 c2 : Z,
     1 <= c1 -> c1 <= c2 -> c2 <= 4 ->
     F64.leb (amountModifier c1) (amountModifier c2) = true) /\
  (forall (monsterStrength : SpellId -> F64.t) (id : SpellId) (armyStrength : F64.t)
          (points10 points2 spellPower schoolSpellModifier : Z),
     isDamage id = true ->
     casts id points10 = 10 -> casts id points2 = 2 ->
     0 < wrap32 (Damage id * spellPower + schoolSpellModifier) ->
     F64.ltb
       (getStrategicValue monsterStrength id armyStrength points10 spellPower schoolSpellModifier)
       (F64.scale 5
          (getStrategicValue monsterStrength id armyStrength points2 spellPower schoolSpellModifier))
     = true).
Proof.
split.
- intros c1 c2 H1 H12 H4.
  assert (Hc1 : c1 = 1 \/ c1 = 2 \/ c1 = 3 \/ c1 = 4) by lia.
  assert (Hc2 : c2 = 1 \/ c2 = 2 \/ c2 = 3 \/ c2 = 4) by lia.
  destruct Hc1 as [-> | [-> | [-> | ->]]]; destruct Hc2 as [-> | [-> | [-> | ->]]];
    try lia; reflexivity.
- intros monsterStrength id armyStrength points10 points2 spellPower schoolSpellModifier
         Hdamage H10 H2 Hterm.
  rewrite !(getStrategicValue_damage monsterStrength) by exact Hdamage.
  rewrite H10, H2, amountModifier_10, amountModifier_2.
  set (x := wrap32 (Damage id * spellPower + schoolSpellModifier)) in *.
  assert (Hx : 0 < x < 2 ^ 53).
  { pose proof (Z.mod_pos_bound (Damage id * spellPower + schoolSpellModifier) (2 ^ 32) ltac:(lia)).
    unfold x, wrap32 in *. lia. }
  change (@dmul F64.t F64.ops) with F64.mul. change (@of_int F64.t F64.ops) with F64.of_Z.
  destruct (mul_of_Z_bounds 5629499534213120 (-50) x ltac:(lia) Hx)
    as (n10 & k10 & -> & Hk10 & Herr10 & Hulp10).
  destruct (mul_of_Z_bounds 8106479329266893 (-52) x ltac:(lia) Hx)
    as (n2 & k2 & -> & Hk2 & Herr2 & Hulp2).
  rewrite (ltb_aligned _ _ (-52)) by (cbn [Fexp scale]; lia).
  unfold align, scale. cbn [Fnum Fexp].
  replace (-50 + k10 - -52) with (k10 + 2) by lia.
  replace (-52 + k2 - -52) with k2 by lia.
  rewrite Z.pow_add_r by lia. change (2 ^ 2) with 4.
  apply Z.ltb_lt.
  assert (Hp10 : 0 < 2 ^ k10) by (apply Z.pow_pos_nonneg; lia).
  assert (Hp2 : 0 < 2 ^ k2) by (apply Z.pow_pos_nonneg; lia).
  change (2 ^ 52) with 4503599627370496 in *.
  destruct (Z.eq_dec k10 0) as [->|H10']; destruct (Z.eq_dec k2 0) as [->|H2'];
    change (2 ^ 0) with 1 in *; lia.
Qed.

Lemma diminishing_returns_witness :
  F64.leb (amountModifier 2) (amountModifier 3) = true /\
  F64.ltb (getStrategicValue flat_strength FIREBALL (F64.of_Z 5000) 90 7 10)
          (F64.scale 5 (getStrategicValue flat_strength FIREBALL (F64.of_Z 5000) 18 7 10))
  = true.
Proof.
destruct diminishing_returns as [Hmono Hconcave].
split.
- apply Hmono; lia.
- apply Hconcave; reflexivity.
Defined.

(** C8, as stated, fails: for Fireball with spell power 0 and school
    modifier 0 the strategic value is 0 at 10 casts (90 spell points) and
    at 2 casts (18 spell points), and 0 is not less than 5 times 0. *)
Lemma zero_damage_term_not_less :
  isDamage FIREBALL = true /\ casts FIREBALL 90 = 10 /\ casts FIREBALL 18 = 2 /\
  F64.ltb (getStrategicValue flat_strength FIREBALL (F64.of_Z 5000) 90 0 0)
          (F64.scale 5 (getStrategicValue flat_strength FIREBALL (F64.of_Z 5000) 18 0 0))
  = false.
Proof. repeat split. Qed.

End SpellFacts.

(** * Further properties of the skill set *)

Module SkillMoreFacts.
Import Skill SkillHistory SkillSamples SkillMore SkillMoreSamples.

#[local] Arguments secskills : simpl never.

Lemma kind_test (v : Secondary) (K : Z) : Is_true (isSkill v K) <-> Skill v = K.
Proof.
rewrite Is_true_true. unfold isSkill, Skill. rewrite bool_decide_eq_true.
split; intros H; symmetry; exact H.
Qed.

Lemma find_kind_Some (st : SecSkills) (K : Z) (i : nat) (x : Secondary) :
  list_find (fun v => isSkill v K) st = Some (i, x) <->
  st !! i = Some x /\ Skill x = K /\
  forall (j : nat) (y : Secondary), st !! j = Some y -> (j < i)%nat -> Skill y <> K.
Proof.
rewrite list_find_Some. rewrite kind_test. split.
- intros (Hi & Hk & Hmin). repeat split; [exact Hi|exact Hk|].
  intros j y Hj Hlt Hy. apply (Hmin j y Hj Hlt). apply kind_test. exact Hy.
- intros (Hi & Hk & Hmin). repeat split; [exact Hi|exact Hk|].
  intros j y Hj Hlt Hy. apply (Hmin j y Hj Hlt). apply kind_test. exact Hy.
Qed.

Lemma find_kind_None (st : SecSkills) (K : Z) :
  list_find (fun v => isSkill v K) st = None <->
  forall (j : nat) (y : Secondary), st !! j = Some y -> Skill y <> K.
Proof.
rewrite list_find_None, list.Forall_forall. split.
- intros H j y Hj Hy. apply (H y).
  + apply list_elem_of_lookup. exists j. exact Hj.
  + apply kind_test. exact Hy.
- intros H y Hin Hy. apply list_elem_of_lookup in Hin. destruct Hin as [j Hj].
  apply (H j y Hj). apply kind_test. exact Hy.
Qed.

Lemma GetLevel_found (st : SecSkills) (K : Z) (i : nat) (x : Secondary) :
  list_find (fun v => isSkill v K) st = Some (i, x) -> GetLevel st K = Level x.
Proof. intros H. unfold GetLevel. rewrite H. reflexivity. Qed.

Lemma GetLevel_not_found (st : SecSkills) (K : Z) :
  list_find (fun v => isSkill v K) st = None -> GetLevel st K = Level.NONE.
Proof. intros H. unfold GetLevel. rewrite H. reflexivity. Qed.

Lemma Level_SetLevel_in_range (v : Secondary) (l : Z) :
  Level.NONE <= l <= Level.EXPERT -> Level (SetLevel v l) = l.
Proof.
intros Hl. unfold SetLevel, Level, Level.NONE, Level.EXPERT in *. cbn [second].
destruct (Z.leb_spec 0 l); [|lia]. destruct (Z.leb_spec l 3); [|lia]. reflexivity.
Qed.

Lemma isValid_true (s : Secondary) :
  isValid s = true <-> Skill s <> UNKNOWN /\ Level s <> Level.NONE.
Proof.
unfold isValid. rewrite andb_true_iff, !negb_true_iff, !Z.eqb_neq. reflexivity.
Qed.

(** X1.  [NextLevel] keeps the kind and, from a level between None and
    Expert, moves one level up without passing Expert: three steps from any
    such level reach Expert, and an Expert entry is left as it is. *)
Theorem NextLevel_saturates (s : Secondary) :
  Level.NONE <= Level s <= Level.EXPERT ->
  Skill (NextLevel s) = Skill s /\
  Level (NextLevel s) = Z.min (Level s + 1) Level.EXPERT /\
  Level (NextLevel (NextLevel (NextLevel s))) = Level.EXPERT /\
  (Level s = Level.EXPERT -> NextLevel s = s).
Proof.
destruct s as [k l]. unfold Level, Skill, Level.NONE, Level.EXPERT. cbn [first second].
intros Hl.
assert (Hcases : l = 0 \/ l = 1 \/ l = 2 \/ l = 3) by lia.
destruct Hcases as [-> | [-> | [-> | ->]]]; repeat split; intros; try discriminate; reflexivity.
Qed.

Lemma NextLevel_saturates_witness :
  Level (NextLevel (Secondary_make LUCK Level.ADVANCED)) = Level.EXPERT /\
  NextLevel (Secondary_make LUCK Level.EXPERT) = Secondary_make LUCK Level.EXPERT.
Proof.
split.
- destruct (NextLevel_saturates (Secondary_make LUCK Level.ADVANCED)) as (_ & H & _);
    [vm_compute; split; discriminate|exact H].
- destruct (NextLevel_saturates (Secondary_make LUCK Level.EXPERT)) as (_ & _ & _ & H);
    [vm_compute; split; discriminate|apply H; reflexivity].
Defined.

Lemma Secondary_make_fields (skill level : Z) :
  (UNKNOWN <= Skill (Secondary_make skill level) <= MAXSECONDARYSKILL) /\
  (Level.NONE <= Level (Secondary_make skill level) <= Level.EXPERT) /\
  Skill (Secondary_make skill level)
  = (if decide (UNKNOWN <= skill <= MAXSECONDARYSKILL) then skill else UNKNOWN) /\
  Level (Secondary_make skill level)
  = (if decide (Level.NONE <= level <= Level.EXPERT) then level else Level.NONE) /\
  (isValid (Secondary_make skill level) = true <->
   (UNKNOWN < skill <= MAXSECONDARYSKILL /\ Level.NONE < level <= Level.EXPERT)).
Proof.
assert (Hs : Skill (Secondary_make skill level)
  = (if decide (UNKNOWN <= skill <= MAXSECONDARYSKILL) then skill else UNKNOWN)).
{ unfold Secondary_make, SetLevel, SetSkill, Skill, UNKNOWN, MAXSECONDARYSKILL. cbn [first].
  destruct (Z.leb_spec 0 skill); destruct (Z.leb_spec skill 28);
    destruct (decide (0 <= skill <= 28)); cbn [andb]; try reflexivity; lia. }
assert (Hl : Level (Secondary_make skill level)
  = (if decide (Level.NONE <= level <= Level.EXPERT) then level else Level.NONE)).
{ unfold Secondary_make, SetLevel, Level, Level.NONE, Level.EXPERT. cbn [second].
  destruct (Z.leb_spec 0 level); destruct (Z.leb_spec level 3);
    destruct (decide (0 <= level <= 3)); cbn [andb]; try reflexivity; lia. }
rewrite isValid_true, Hs, Hl.
unfold UNKNOWN, MAXSECONDARYSKILL, Level.NONE, Level.EXPERT.
destruct (decide (0 <= skill <= 28)); destruct (decide (0 <= level <= 3));
  repeat split; try reflexivity; try lia.
Qed.

(** X2.  The constructor [Secondary( skill, level )] never yields an entry
    out of range: a skill outside of [UNKNOWN .. MAXSECONDARYSKILL] becomes
    [UNKNOWN] and a level outside of [NONE .. EXPERT] becomes [NONE], other
    values are kept; the entry is valid exactly when the skill is one of
    the 28 and the level is Basic, Advanced or Expert. *)
Theorem Secondary_make_in_range (skill level : Z) :
  (UNKNOWN <= Skill (Secondary_make skill level) <= MAXSECONDARYSKILL) /\
  (Level.NONE <= Level (Secondary_make skill level) <= Level.EXPERT) /\
  Skill (Secondary_make skill level)
  = (if decide (UNKNOWN <= skill <= MAXSECONDARYSKILL) then skill else UNKNOWN) /\
  Level (Secondary_make skill level)
  = (if decide (Level.NONE <= level <= Level.EXPERT) then level else Level.NONE) /\
  (isValid (Secondary_make skill level) = true <->
   (UNKNOWN < skill <= MAXSECONDARYSKILL /\ Level.NONE < level <= Level.EXPERT)).
Proof. apply Secondary_make_fields. Qed.

Lemma find_free_None (st : SecSkills) :
  list_find (fun v => negb (isValid v)) st = None <-> Forall (fun e => isValid e = true) st.
Proof.
rewrite list_find_None. split; intros H; eapply Forall_impl; try exact H.
- intros e He. simpl in He. destruct (isValid e); [reflexivity|exfalso; apply He; exact I].
- intros e He. simpl. rewrite He. intros Hf. exact Hf.
Qed.

Lemma AddSkill_cases (st : SecSkills) (skill : Secondary) :
  (isValid skill = false -> AddSkill st skill = st) /\
  (isValid skill = true -> Level.NONE < Level skill <= Level.EXPERT ->
   (GetLevel (AddSkill st skill) (Skill skill) = Level skill /\
    is_Some (FindSkill (AddSkill st skill) (Skill skill))) \/
   (FindSkill st (Skill skill) = None /\ no_room st /\ AddSkill st skill = st)).
Proof.
split.
- intros Hinv. unfold AddSkill. rewrite Hinv. reflexivity.
- intros Hvalid Hlevel. unfold AddSkill, FindSkill. rewrite Hvalid. cbv zeta.
  destruct (list_find (fun v => isSkill v (Skill skill)) st) as [[i v]|] eqn:Hfind.
  + left. apply find_kind_Some in Hfind. destruct Hfind as (Hi & Hk & Hmin).
    assert (Hnew : list_find (fun v0 => isSkill v0 (Skill skill))
                     (<[i:=SetLevel v (Level skill)]> st)
                   = Some (i, SetLevel v (Level skill))).
    { apply find_kind_Some. split; [|split].
      - apply list_lookup_insert_eq. eapply lookup_lt_Some. exact Hi.
      - exact Hk.
      - intros j y Hj Hlt. rewrite list_lookup_insert_ne in Hj by lia.
        exact (Hmin j y Hj Hlt). }
    split.
    * rewrite (GetLevel_found _ _ _ _ Hnew). apply Level_SetLevel_in_range.
      unfold Level.NONE in *. lia.
    * rewrite Hnew. eexists. reflexivity.
  + pose proof (proj1 (find_kind_None st (Skill skill)) Hfind) as Habsent.
    destruct (list_find (fun v => negb (isValid v)) st) as [[i v]|] eqn:Hfree.
    * left. apply list_find_Some in Hfree. destruct Hfree as (Hi & _ & _).
      rewrite SkillFacts.Set_eq.
      assert (Hnew : list_find (fun v0 => isSkill v0 (Skill skill)) (<[i:=skill]> st)
                     = Some (i, skill)).
      { apply find_kind_Some. split; [|split].
        - apply list_lookup_insert_eq. eapply lookup_lt_Some. exact Hi.
        - reflexivity.
        - intros j y Hj Hlt. rewrite list_lookup_insert_ne in Hj by lia.
          exact (Habsent j y Hj). }
      split; [exact (GetLevel_found _ _ _ _ Hnew)|].
      rewrite Hnew. eexists. reflexivity.
    * destruct (decide (length st < HEROESMAXSKILL)%nat) as [Hlt|Hge].
      -- left.
         assert (Hnew : list_find (fun v0 => isSkill v0 (Skill skill)) (st ++ [skill])
                        = Some (length st, skill)).
         { apply find_kind_Some. split; [|split].
           - apply list_lookup_middle. reflexivity.
           - reflexivity.
           - intros j y Hj Hlt'. rewrite lookup_app_l in Hj by lia.
             exact (Habsent j y Hj). }
         split; [exact (GetLevel_found _ _ _ _ Hnew)|].
         rewrite Hnew. eexists. reflexivity.
      -- right. split; [reflexivity|]. split; [|reflexivity].
         split; [lia|]. apply find_free_None. exact Hfree.
Qed.

Lemma AddSkill_no_room (st : SecSkills) (skill : Secondary) :
  FindSkill st (Skill skill) = None -> no_room st -> AddSkill st skill = st.
Proof.
intros Habsent [Hlen Hall]. unfold AddSkill, FindSkill in *.
destruct (isValid skill); [|reflexivity]. cbv zeta.
destruct (list_find (fun v => isSkill v (Skill skill)) st) as [[i v]|]; [discriminate Habsent|].
rewrite (proj2 (find_free_None st) Hall).
destruct (decide (length st < HEROESMAXSKILL)%nat) as [Hlt|_]; [lia|reflexivity].
Qed.

(** X3.  [AddSkill] with an entry that is not valid changes nothing.  With
    a valid entry of level Basic to Expert there are two outcomes.  When
    the kind is absent and the skill set has no room (eight entries or
    more, none empty), the entry is dropped: the skill set is unchanged,
    so the kind stays absent.  In every other case the skill set
    afterwards holds the kind at that level: [GetLevel] returns it and
    [FindSkill] finds it. *)
Theorem AddSkill_learns_or_drops (st : SecSkills) (skill : Secondary) :
  (isValid skill = false -> AddSkill st skill = st) /\
  (isValid skill = true -> Level.NONE < Level skill <= Level.EXPERT ->
   (FindSkill st (Skill skill) = None -> no_room st ->
    AddSkill st skill = st /\ FindSkill (AddSkill st skill) (Skill skill) = None) /\
   (~ (FindSkill st (Skill skill) = None /\ no_room st) ->
    GetLevel (AddSkill st skill) (Skill skill) = Level skill /\
    is_Some (FindSkill (AddSkill st skill) (Skill skill)))).
Proof.
destruct (AddSkill_cases st skill) as [Hinvalid Hcases].
split; [exact Hinvalid|].
intros Hvalid Hlevel. split.
- intros Habsent Hfull.
  rewrite (AddSkill_no_room st skill Habsent Hfull). split; [reflexivity|exact Habsent].
- intros Hroom.
  destruct (Hcases Hvalid Hlevel) as [Hlearned|(Habsent & Hfull & _)]; [exact Hlearned|].
  contradiction Hroom. split; assumption.
Qed.

Lemma AddSkill_learns_or_drops_witness :
  GetLevel (AddSkill seven_and_empty (Secondary_make LUCK Level.ADVANCED)) LUCK = Level.ADVANCED /\
  AddSkill eight_learned (Secondary_make LUCK Level.ADVANCED) = eight_learned.
Proof.
assert (Hlevel : Level.NONE < Level (Secondary_make LUCK Level.ADVANCED) <= Level.EXPERT)
  by (vm_compute; split; [reflexivity|discriminate]).
split.
- destruct (AddSkill_learns_or_drops seven_and_empty (Secondary_make LUCK Level.ADVANCED))
    as [_ H].
  destruct (H eq_refl Hlevel) as [_ Hlearned].
  apply Hlearned. intros (_ & _ & Hall).
  rewrite list.Forall_forall in Hall.
  assert (Hempty : Secondary_default ∈ seven_and_empty).
  { apply list_elem_of_lookup. exists 4%nat. reflexivity. }
  specialize (Hall Secondary_default Hempty). discriminate Hall.
- destruct (AddSkill_learns_or_drops eight_learned (Secondary_make LUCK Level.ADVANCED))
    as [_ H].
  destruct (H eq_refl Hlevel) as [Hdropped _].
  apply Hdropped.
  + reflexivity.
  + split; [vm_compute; lia|]. repeat constructor.
Defined.

Lemma Count_cons (e : Secondary) (st : SecSkills) :
  Count (e :: st) = (valid_count e + Count st)%nat.
Proof.
unfold Count, valid_count. rewrite filter_cons.
destruct (isValid e) eqn:He; destruct (decide (isValid e)) as [H|H];
  rewrite He in H; simpl in *; try reflexivity; try contradiction.
Qed.

Lemma Count_app (st1 st2 : SecSkills) : Count (st1 ++ st2) = (Count st1 + Count st2)%nat.
Proof. unfold Count. rewrite list.filter_app, length_app. reflexivity. Qed.

Lemma Count_insert (st : SecSkills) (i : nat) (v w : Secondary) :
  st !! i = Some v ->
  (Count (<[i:=w]> st) + valid_count v = Count st + valid_count w)%nat.
Proof.
revert i. induction st as [|e st IH]; intros i Hi; [discriminate Hi|].
destruct i as [|i]; simpl in Hi.
- injection Hi as ->. simpl. rewrite !Count_cons. lia.
- simpl. rewrite !Count_cons. specialize (IH i Hi). lia.
Qed.

(** X4.  [AddSkill] with a valid entry of level Basic to Expert never
    lowers [Count()], and raises it by one at most. *)
Theorem AddSkill_Count (st : SecSkills) (skill : Secondary) :
  isValid skill = true -> Level.NONE < Level skill <= Level.EXPERT ->
  (Count st <= Count (AddSkill st skill) <= Count st + 1)%nat.
Proof.
intros Hvalid Hlevel. unfold AddSkill. rewrite Hvalid. cbv zeta.
destruct (list_find (fun v => isSkill v (Skill skill)) st) as [[i v]|] eqn:Hfind.
- apply find_kind_Some in Hfind. destruct Hfind as (Hi & Hk & _).
  pose proof (Count_insert st i v (SetLevel v (Level skill)) Hi) as Hcount.
  assert (Hnew : valid_count (SetLevel v (Level skill)) = 1%nat).
  { unfold valid_count.
    replace (isValid (SetLevel v (Level skill))) with true; [reflexivity|].
    symmetry. apply isValid_true. rewrite SkillFacts.Skill_SetLevel.
    rewrite Level_SetLevel_in_range by (unfold Level.NONE in *; lia).
    apply isValid_true in Hvalid. destruct Hvalid as [Hs _].
    split; [congruence|lia]. }
  unfold valid_count in Hcount at 1. rewrite Hnew in Hcount.
  destruct (isValid v); lia.
- destruct (list_find (fun v => negb (isValid v)) st) as [[i v]|] eqn:Hfree.
  + apply list_find_Some in Hfree. destruct Hfree as (Hi & Hinv & _).
    rewrite SkillFacts.Set_eq.
    pose proof (Count_insert st i v skill Hi) as Hcount.
    unfold valid_count in Hcount. rewrite Hvalid in Hcount.
    destruct (isValid v); [exfalso; exact Hinv|lia].
  + destruct (decide (length st < HEROESMAXSKILL)%nat) as [_|_]; [|lia].
    rewrite Count_app, Count_cons. unfold valid_count. rewrite Hvalid.
    change (Count []) with 0%nat. lia.
Qed.

Lemma AddSkill_Count_witness :
  (Count seven_and_empty <= Count (AddSkill seven_and_empty (Secondary_make LUCK Level.BASIC)))%nat.
Proof.
apply (AddSkill_Count seven_and_empty (Secondary_make LUCK Level.BASIC)).
- reflexivity.
- vm_compute. split; [reflexivity|discriminate].
Defined.

Lemma find_kind_insert_other (st : SecSkills) (K : Z) (i : nat) (v w : Secondary) :
  st !! i = Some v -> Skill v <> K -> Skill w <> K ->
  list_find (fun e => isSkill e K) (<[i:=w]> st) = list_find (fun e => isSkill e K) st.
Proof.
revert i. induction st as [|e st IH]; intros i Hi Hv Hw; [discriminate Hi|].
destruct i as [|i]; csimpl in *.
- injection Hi as ->.
  destruct (decide (isSkill w K)) as [H|_]; [apply kind_test in H; contradiction|].
  destruct (decide (isSkill v K)) as [H|_]; [apply kind_test in H; contradiction|].
  reflexivity.
- destruct (decide (isSkill e K)); [reflexivity|].
  rewrite (IH i Hi Hv Hw). reflexivity.
Qed.

Lemma invalid_named_kind (v : Secondary) :
  isValid v = false -> Skill v <> UNKNOWN -> Level v = Level.NONE.
Proof.
intros Hinv Hk. unfold isValid in Hinv. apply andb_false_iff in Hinv.
destruct Hinv as [E|E]; apply negb_false_iff, Z.eqb_eq in E; [contradiction|exact E].
Qed.

(** X5.  On a skill set in which every valid entry is the first entry of
    its kind (as in every skill set built by [AddSkill]), [AddSkill] leaves
    the level of every other skill as it was: [GetLevel] changes for the
    kind of the added entry only. *)
Theorem AddSkill_other_levels (st : SecSkills) (skill : Secondary) (K : Z) :
  valid_is_first st -> K <> UNKNOWN -> K <> Skill skill ->
  GetLevel (AddSkill st skill) K = GetLevel st K.
Proof.
intros Hfirst HK Hother. unfold AddSkill.
destruct (isValid skill) eqn:Hvalid; [|reflexivity]. cbv zeta.
destruct (list_find (fun v => isSkill v (Skill skill)) st) as [[i v]|] eqn:Hfind.
- apply find_kind_Some in Hfind. destruct Hfind as (Hi & Hk & _).
  unfold GetLevel. rewrite (find_kind_insert_other st K i v); [reflexivity|exact Hi|..].
  + congruence.
  + rewrite SkillFacts.Skill_SetLevel. congruence.
- destruct (list_find (fun v => negb (isValid v)) st) as [[i v]|] eqn:Hfree.
  + apply list_find_Some in Hfree. destruct Hfree as (Hi & Hinv & _).
    rewrite SkillFacts.Set_eq.
    assert (Hvinv : isValid v = false) by (destruct (isValid v); [exfalso; exact Hinv|reflexivity]).
    destruct (decide (Skill v = K)) as [Hv|Hv].
    * (* the slot taken carried the kind [K], at level None *)
      destruct (list_find (fun e => isSkill e K) st) as [[j0 y0]|] eqn:HK0.
      -- pose proof (GetLevel_found _ _ _ _ HK0) as Hbefore.
         apply find_kind_Some in HK0. destruct HK0 as (Hj0 & Hy0 & Hmin).
         destruct (Nat.lt_total j0 i) as [Hlt|[Heq|Hgt]].
         ++ assert (Hnew : list_find (fun e => isSkill e K) (<[i:=skill]> st) = Some (j0, y0)).
            { apply find_kind_Some. split; [|split].
              - rewrite list_lookup_insert_ne by lia. exact Hj0.
              - exact Hy0.
              - intros j y Hj Hjlt. rewrite list_lookup_insert_ne in Hj by lia.
                exact (Hmin j y Hj Hjlt). }
            rewrite Hbefore. exact (GetLevel_found _ _ _ _ Hnew).
         ++ subst j0. assert (y0 = v) by congruence. subst y0.
            rewrite Hbefore. rewrite (invalid_named_kind v Hvinv) by congruence.
            destruct (list_find (fun e => isSkill e K) (<[i:=skill]> st)) as [[j y]|] eqn:Hnew;
              [|exact (GetLevel_not_found _ _ Hnew)].
            rewrite (GetLevel_found _ _ _ _ Hnew).
            apply find_kind_Some in Hnew. destruct Hnew as (Hj & Hy & _).
            destruct (decide (i = j)) as [->|Hne].
            { rewrite list_lookup_insert_eq in Hj by (eapply lookup_lt_Some; exact Hi).
              injection Hj as <-. congruence. }
            rewrite list_lookup_insert_ne in Hj by exact Hne.
            destruct (Nat.lt_total j i) as [Hji|[Hji|Hji]]; [|lia|].
            { exfalso. exact (Hmin j y Hj Hji Hy). }
            apply invalid_named_kind; [|congruence].
            destruct (isValid y) eqn:Ey; [|reflexivity].
            exfalso. apply (Hfirst i j v y Hi Hj Hji Ey). congruence.
         ++ exfalso. exact (Hmin i v Hi Hgt Hv).
      -- exfalso. exact (proj1 (find_kind_None st K) HK0 i v Hi Hv).
    * unfold GetLevel.
      rewrite (find_kind_insert_other st K i v); [reflexivity|exact Hi|exact Hv|congruence].
  + destruct (decide (length st < HEROESMAXSKILL)%nat) as [_|_]; [|reflexivity].
    unfold GetLevel.
    destruct (list_find (fun v => isSkill v K) st) as [[j y]|] eqn:HK'.
    * rewrite (list_find_app_l _ _ _ _ _ HK'). reflexivity.
    * rewrite (list_find_app_r _ _ _ HK'). cbn [list_find].
      destruct (decide (isSkill skill K)) as [H|_]; [apply kind_test in H; congruence|].
      reflexivity.
Qed.

Lemma AddSkill_other_levels_witness :
  GetLevel (AddSkill (run sample_calls) (Secondary_make WISDOM Level.BASIC)) LUCK
  = GetLevel (run sample_calls) LUCK.
Proof.
apply (AddSkill_other_levels (run sample_calls) (Secondary_make WISDOM Level.BASIC) LUCK).
- apply SkillFacts.valid_is_first_run. reflexivity.
- vm_compute. discriminate.
- vm_compute. discriminate.
Defined.

Lemma total_level_fold (st : SecSkills) (acc : Z) :
  levels_in_range st ->
  acc + Z.of_nat (Count st)
  <= fold_left (fun result skill => if isValid skill then result + Level skill else result) st acc
  <= acc + 3 * Z.of_nat (Count st).
Proof.
intros Hall. revert acc.
induction Hall as [|e st He _ IH]; intros acc; [simpl; change (Count []) with 0%nat; lia|].
cbn [fold_left]. rewrite Count_cons. unfold valid_count.
destruct (isValid e) eqn:Hv.
- apply isValid_true in Hv. destruct Hv as [_ Hv].
  specialize (IH (acc + Level e)). unfold Level.NONE, Level.EXPERT in *. lia.
- specialize (IH acc). lia.
Qed.

(** X6.  On a skill set whose levels lie between None and Expert,
    [GetTotalLevel] is at least [Count()] and at most three times
    [Count()]: every learned skill counts for 1 to 3. *)
Theorem GetTotalLevel_bounds (st : SecSkills) :
  levels_in_range st ->
  Z.of_nat (Count st) <= GetTotalLevel st <= 3 * Z.of_nat (Count st).
Proof.
intros Hall. pose proof (total_level_fold st 0 Hall) as H.
unfold GetTotalLevel. lia.
Qed.

Lemma GetTotalLevel_bounds_witness :
  Z.of_nat (Count seven_and_empty) <= GetTotalLevel seven_and_empty
  <= 3 * Z.of_nat (Count seven_and_empty).
Proof.
apply GetTotalLevel_bounds.
unfold levels_in_range. apply (bool_decide_unpack _). vm_compute. exact I.
Defined.

Lemma Count_replicate (n : nat) (e : Secondary) :
  Count (replicate n e) = (n * valid_count e)%nat.
Proof.
induction n as [|n IH]; [reflexivity|].
cbn [replicate]. rewrite Count_cons, IH. lia.
Qed.

Lemma find_kind_replicate (n : nat) (e : Secondary) (K : Z) :
  Skill e <> K -> list_find (fun v => isSkill v K) (replicate n e) = None.
Proof.
intros He. apply find_kind_None. intros j y Hj.
apply lookup_replicate in Hj. destruct Hj as [-> _]. exact He.
Qed.

(** X7.  [FillMax] brings a shorter skill set to 8 entries by appending
    copies of its argument and leaves one of 8 entries or more alone: the
    length becomes [max(length, 8)], [Count()] grows by the number of
    appended entries if the argument is valid and not at all otherwise,
    the level of every skill other than the argument's is unchanged, and a
    second [FillMax] changes nothing. *)
Theorem FillMax_pads (st : SecSkills) (e : Secondary) :
  length (FillMax st e) = Nat.max (length st) HEROESMAXSKILL /\
  Count (FillMax st e) = (Count st + (HEROESMAXSKILL - length st) * valid_count e)%nat /\
  (forall K : Z, K <> Skill e -> GetLevel (FillMax st e) K = GetLevel st K) /\
  (forall e' : Secondary, FillMax (FillMax st e) e' = FillMax st e).
Proof.
unfold FillMax.
destruct (decide (length st < HEROESMAXSKILL)%nat) as [Hlt|Hge].
- rewrite resize_ge by lia. split; [|split; [|split]].
  + rewrite length_app, length_replicate. lia.
  + rewrite Count_app, Count_replicate. reflexivity.
  + intros K HK. unfold GetLevel.
    destruct (list_find (fun v => isSkill v K) st) as [[j y]|] eqn:Hfind.
    * rewrite (list_find_app_l _ _ _ _ _ Hfind). reflexivity.
    * rewrite (list_find_app_r _ _ _ Hfind).
      rewrite find_kind_replicate by congruence. reflexivity.
  + intros e'. destruct (decide _) as [H|_]; [|reflexivity].
    rewrite length_app, length_replicate in H. lia.
- split; [lia|]. split; [|split].
  + replace (HEROESMAXSKILL - length st)%nat with 0%nat by lia. lia.
  + reflexivity.
  + intros e'. destruct (decide (length st < HEROESMAXSKILL)%nat); [contradiction|reflexivity].
Qed.

Lemma FillMax_pads_witness :
  ARCHERY <> Skill (Secondary_make LEADERSHIP 1) /\
  GetLevel (FillMax SecSkills_empty (Secondary_make LEADERSHIP 1)) ARCHERY
  = GetLevel SecSkills_empty ARCHERY.
Proof.
destruct (FillMax_pads SecSkills_empty (Secondary_make LEADERSHIP 1)) as (_ & _ & Hother & _).
split; [vm_compute; discriminate|].
apply Hother. vm_compute. discriminate.
Defined.

Lemma lookup_loaded (v : SecSkills) (i : nat) (a : Secondary) :
  SecSkills_loaded v !! i = Some a -> v !! i = Some a.
Proof.
unfold SecSkills_loaded. destruct (decide _) as [Hlong|_]; [|intros H; exact H].
rewrite resize_le by lia. rewrite lookup_take.
destruct (decide (i < HEROESMAXSKILL)%nat); [intros H; exact H|discriminate].
Qed.

(** X8.  Reading a skill set from a stream keeps the first 8 entries of
    the stored vector: the result is that prefix, so it has at most 8
    entries and [Count()] at most 8, a vector of at most 8 entries is read
    as it was stored, and kinds that were unique stay unique. *)
Theorem SecSkills_loaded_truncates (v : SecSkills) :
  SecSkills_loaded v = take HEROESMAXSKILL v /\
  (length (SecSkills_loaded v) <= HEROESMAXSKILL)%nat /\
  (Count (SecSkills_loaded v) <= HEROESMAXSKILL)%nat /\
  ((length v <= HEROESMAXSKILL)%nat -> SecSkills_loaded v = v) /\
  (unique_kinds v -> unique_kinds (SecSkills_loaded v)).
Proof.
assert (Htake : SecSkills_loaded v = take HEROESMAXSKILL v).
{ unfold SecSkills_loaded. destruct (decide _) as [Hlong|Hshort].
  - apply resize_le. lia.
  - symmetry. apply take_ge. lia. }
assert (Hlen : (length (SecSkills_loaded v) <= HEROESMAXSKILL)%nat).
{ rewrite Htake, length_take. lia. }
split; [exact Htake|]. split; [exact Hlen|]. split; [|split].
- etransitivity; [apply SkillFacts.Count_le_length|exact Hlen].
- intros Hshort. rewrite Htake. apply take_ge. exact Hshort.
- intros Hunique i j a b Hi Hj. apply (Hunique i j a b); apply lookup_loaded; assumption.
Qed.

Lemma SecSkills_loaded_truncates_witness :
  SecSkills_loaded seven_and_empty = seven_and_empty.
Proof.
apply (SecSkills_loaded_truncates seven_and_empty). vm_compute. lia.
Defined.

(** The entries that [AddSkill] is given by the constructor: learned
    skills of level Basic to Expert. *)
Lemma AddSkill_all_learned (st : SecSkills) (skill : Secondary) :
  Forall (fun e => isValid e = true /\ Level.NONE < Level e <= Level.EXPERT) st ->
  isValid skill = true -> Level.NONE < Level skill <= Level.EXPERT ->
  Forall (fun e => isValid e = true /\ Level.NONE < Level e <= Level.EXPERT) (AddSkill st skill).
Proof.
intros Hall Hvalid Hlevel. unfold AddSkill. rewrite Hvalid. cbv zeta.
destruct (list_find (fun v => isSkill v (Skill skill)) st) as [[i v]|] eqn:Hfind.
- apply find_kind_Some in Hfind. destruct Hfind as (Hi & Hk & _).
  apply Forall_insert; [exact Hall|].
  rewrite Level_SetLevel_in_range by (unfold Level.NONE in *; lia).
  split; [|exact Hlevel].
  apply isValid_true. rewrite SkillFacts.Skill_SetLevel.
  rewrite Level_SetLevel_in_range by (unfold Level.NONE in *; lia).
  apply isValid_true in Hvalid. destruct Hvalid as [Hs _].
  split; [congruence|lia].
- destruct (list_find (fun v => negb (isValid v)) st) as [[i v]|] eqn:Hfree.
  + rewrite SkillFacts.Set_eq. apply Forall_insert; [exact Hall|]. split; assumption.
  + destruct (decide (length st < HEROESMAXSKILL)%nat) as [_|_]; [|exact Hall].
    apply Forall_app. split; [exact Hall|].
    apply Forall_singleton. split; assumption.
Qed.

Lemma Count_all_valid (st : SecSkills) :
  Forall (fun e => isValid e = true) st -> Count st = length st.
Proof.
induction 1 as [|e st He _ IH]; [reflexivity|].
rewrite Count_cons. unfold valid_count. rewrite He, IH. reflexivity.
Qed.

Section RaceFacts.

Variable GetSkillStats : Z -> option race_stats_t.
Variable seedToRoll : Z -> Z -> Z.
Variables ATTACK DEFENSE POWER KNOWLEDGE Primary_UNKNOWN : Z.
Variable Race_ALL : Z.

(** X9.  The skill set that [SecSkills( int race )] builds from the initial
    skills of a race has at most 8 entries, all of them valid with a level
    from Basic to Expert and with pairwise distinct kinds, so that
    [Count()] is its length. *)
Theorem SecSkills_of_race_well_formed (race : Z) :
  (length (SecSkills_of_race GetSkillStats Race_ALL race) <= HEROESMAXSKILL)%nat /\
  Forall (fun e => isValid e = true /\ Level.NONE < Level e <= Level.EXPERT)
         (SecSkills_of_race GetSkillStats Race_ALL race) /\
  unique_kinds (SecSkills_of_race GetSkillStats Race_ALL race) /\
  Count (SecSkills_of_race GetSkillStats Race_ALL race)
  = length (SecSkills_of_race GetSkillStats Race_ALL race).
Proof.
assert (Hinv : (length (SecSkills_of_race GetSkillStats Race_ALL race) <= HEROESMAXSKILL)%nat /\
  Forall (fun e => isValid e = true /\ Level.NONE < Level e <= Level.EXPERT)
         (SecSkills_of_race GetSkillStats Race_ALL race) /\
  valid_is_first (SecSkills_of_race GetSkillStats Race_ALL race)).
{ assert (Hempty : (length SecSkills_empty <= HEROESMAXSKILL)%nat /\
    Forall (fun e => isValid e = true /\ Level.NONE < Level e <= Level.EXPERT) SecSkills_empty /\
    valid_is_first SecSkills_empty).
  { split; [unfold HEROESMAXSKILL; simpl; lia|]. split; [constructor|].
    intros i j a b Ha. unfold SecSkills_empty in Ha. rewrite lookup_nil in Ha. discriminate Ha. }
  unfold SecSkills_of_race.
  destruct (Z.land race Race_ALL =? 0); [exact Hempty|].
  destruct (GetSkillStats race) as [ptr|]; [|exact Hempty].
  revert Hempty. generalize SecSkills_empty.
  induction (initial_skills (initial_secondary ptr)) as [|[k l] kls IH];
    intros st Hst; [exact Hst|].
  cbn [fold_left fst snd]. apply IH.
  destruct (l =? 0); [exact Hst|].
  destruct Hst as (Hlen & Hall & Hfirst).
  split; [apply SkillFacts.length_AddSkill; exact Hlen|].
  split; [|apply SkillFacts.valid_is_first_AddSkill; exact Hfirst].
  destruct (isValid (Secondary_make k l)) eqn:Hv.
  - apply AddSkill_all_learned; [exact Hall|exact Hv|].
    pose proof (Secondary_make_fields k l) as (_ & Hrange & _).
    apply isValid_true in Hv. destruct Hv as [_ Hv]. lia.
  - unfold AddSkill. rewrite Hv. exact Hall. }
destruct Hinv as (Hlen & Hall & Hfirst).
split; [exact Hlen|]. split; [exact Hall|].
split; [apply SkillFacts.valid_is_first_unique; exact Hfirst|].
apply Count_all_valid. eapply Forall_impl; [|exact Hall]. intros e [He _]. exact He.
Qed.

(** A draw below a positive total stops at an entry of positive weight. *)
Lemma Queue_walk_positive (q : Queue) (cumulative roll : Z) :
  Forall (fun vp => 0 <= vp.2) q ->
  cumulative <= roll < cumulative + Queue_total q ->
  exists w, (Queue_walk cumulative roll q, w) ∈ q /\ 0 < w.
Proof.
intros Hall. revert cumulative.
induction Hall as [|[v p] q' Hp _ IH]; intros cumulative Hroll; simpl in *; [lia|].
destruct (Z.ltb_spec roll (cumulative + p)) as [Hlt|Hge].
- exists p. split; [apply list_elem_of_here|lia].
- destruct (IH (cumulative + p)) as (w & Hin & Hw); [lia|].
  exists w. split; [apply list_elem_of_further; exact Hin|exact Hw].
Qed.

Lemma Queue_GetWithSeed_positive (q : Queue) (seed : Z) :
  draws_below_total seedToRoll ->
  Forall (fun vp => 0 <= vp.2) q -> 0 < Queue_total q ->
  exists w, (Queue_GetWithSeed seedToRoll q seed, w) ∈ q /\ 0 < w.
Proof.
intros Hdraw Hall Htotal. unfold Queue_GetWithSeed. cbv zeta.
destruct (Z.leb_spec (Queue_total q) 0) as [Hle|_]; [lia|].
apply Queue_walk_positive; [exact Hall|].
specialize (Hdraw seed (Queue_total q) Htotal). lia.
Qed.

(** X10.  [Primary::LevelUp] never lowers a primary skill and raises the
    sum of the four by one exactly when it returns one of [ATTACK],
    [DEFENSE], [POWER], [KNOWLEDGE]; and it does return one of them when
    the race table in force has a weight that is not zero, the draw
    falling below the total weight. *)
Theorem LevelUp_raises_one :
  (forall (race level seed : Z) (p : Primary),
     attack p <= attack (LevelUp GetSkillStats seedToRoll ATTACK DEFENSE POWER KNOWLEDGE
                           Primary_UNKNOWN race level seed p).2 /\
     defense p <= defense (LevelUp GetSkillStats seedToRoll ATTACK DEFENSE POWER KNOWLEDGE
                             Primary_UNKNOWN race level seed p).2 /\
     power p <= power (LevelUp GetSkillStats seedToRoll ATTACK DEFENSE POWER KNOWLEDGE
                         Primary_UNKNOWN race level seed p).2 /\
     knowledge p <= knowledge (LevelUp GetSkillStats seedToRoll ATTACK DEFENSE POWER KNOWLEDGE
                                 Primary_UNKNOWN race level seed p).2 /\
     Primary_total (LevelUp GetSkillStats seedToRoll ATTACK DEFENSE POWER KNOWLEDGE
                      Primary_UNKNOWN race level seed p).2
     = Primary_total p
       + (if decide ((LevelUp GetSkillStats seedToRoll ATTACK DEFENSE POWER KNOWLEDGE
                        Primary_UNKNOWN race level seed p).1
                     ∈ [ATTACK; DEFENSE; POWER; KNOWLEDGE]) then 1 else 0)) /\
  (forall (race level seed : Z) (p : Primary) (ptr : race_stats_t),
     draws_below_total seedToRoll ->
     GetSkillStats race = Some ptr ->
     (0 < pt_attack (LevelUp_table ptr level) + pt_defense (LevelUp_table ptr level)
          + pt_power (LevelUp_table ptr level) + pt_knowledge (LevelUp_table ptr level))%N ->
     (LevelUp GetSkillStats seedToRoll ATTACK DEFENSE POWER KNOWLEDGE
        Primary_UNKNOWN race level seed p).1 ∈ [ATTACK; DEFENSE; POWER; KNOWLEDGE]).
Proof.
split.
- intros race level seed p. unfold LevelUp. cbv zeta.
  set (result := if decide (Queue_Size _ <> 0%nat) then _ else _).
  destruct p as [a d pw k]. unfold Primary_total.
  destruct (Z.eqb_spec result ATTACK) as [HA|HA];
    [|destruct (Z.eqb_spec result DEFENSE) as [HD|HD];
      [|destruct (Z.eqb_spec result POWER) as [HP|HP];
        [|destruct (Z.eqb_spec result KNOWLEDGE) as [HK|HK]]]];
    cbn [fst snd attack defense power knowledge];
    match goal with
    | |- context [@decide (result ∈ ?l) ?dec] =>
        destruct (@decide (result ∈ l) dec) as [Hin|Hnin]
    end; try lia.
  + exfalso. apply Hnin. rewrite HA. apply list_elem_of_here.
  + exfalso. apply Hnin. rewrite HD. apply list_elem_of_further, list_elem_of_here.
  + exfalso. apply Hnin. rewrite HP. do 2 apply list_elem_of_further. apply list_elem_of_here.
  + exfalso. apply Hnin. rewrite HK. do 3 apply list_elem_of_further. apply list_elem_of_here.
  + exfalso.
    repeat (apply elem_of_cons in Hin; destruct Hin as [Hin|Hin]; [contradiction|]).
    exact (not_elem_of_nil _ Hin).
- intros race level seed p ptr Hdraw Hstats Hweight.
  unfold LevelUp. cbv zeta.
  set (percents := LevelUp_percents GetSkillStats ATTACK DEFENSE POWER KNOWLEDGE race level).
  assert (Hq : percents
    = [(ATTACK, Z.of_N (pt_attack (LevelUp_table ptr level)));
       (DEFENSE, Z.of_N (pt_defense (LevelUp_table ptr level)));
       (POWER, Z.of_N (pt_power (LevelUp_table ptr level)));
       (KNOWLEDGE, Z.of_N (pt_knowledge (LevelUp_table ptr level)))]).
  { unfold percents, LevelUp_percents, LevelUp_table. rewrite Hstats. reflexivity. }
  assert (Hresult : Queue_GetWithSeed seedToRoll percents seed
                    ∈ [ATTACK; DEFENSE; POWER; KNOWLEDGE]).
  { destruct (Queue_GetWithSeed_positive percents seed Hdraw) as (w & Hin & _).
    - rewrite Hq. repeat (apply Forall_cons_2; [cbn [snd]; lia|]). apply Forall_nil_2.
    - rewrite Hq. unfold Queue_total. cbn [fold_right snd]. lia.
    - apply (list_elem_of_fmap_2 fst) in Hin. rewrite Hq in Hin at 2. exact Hin. }
  assert (Hsize : Queue_Size percents <> 0%nat) by (rewrite Hq; discriminate).
  destruct (decide (Queue_Size percents <> 0%nat)) as [_|Hn]; [|contradiction].
  set (result := Queue_GetWithSeed seedToRoll percents seed) in *.
  destruct (result =? ATTACK); [exact Hresult|].
  destruct (result =? DEFENSE); [exact Hresult|].
  destruct (result =? POWER); [exact Hresult|].
  destruct (result =? KNOWLEDGE); exact Hresult.
Qed.

End RaceFacts.

Lemma LevelUp_raises_one_witness :
  Primary_total (LevelUp knight_stats modulo_draw 1 2 3 4 0 0 5 12345 Primary_default).2 = 1.
Proof.
destruct (LevelUp_raises_one knight_stats modulo_draw 1 2 3 4 0) as [Htotal Hpick].
destruct (Htotal 0 5 12345 Primary_default) as (_ & _ & _ & _ & Hsum).
rewrite Hsum.
destruct (decide _) as [_|Hnot]; [reflexivity|].
exfalso. apply Hnot.
apply (Hpick 0 5 12345 Primary_default
         {| captain_primary := mk_primary_t 1 1 1 1;
            initial_primary := mk_primary_t 2 2 1 1;
            initial_spell := 0;
            initial_secondary := knight_initial;
            over_level := 10;
            mature_primary_under := mk_primary_t 35 45 10 10;
            mature_primary_over := mk_primary_t 25 25 25 25 |}).
- exact PlannerFacts.modulo_draw_below_total.
- reflexivity.
- reflexivity.
Defined.

(** X11.  On a stream that gives values back in the order in which they
    were written, [operator<<] appends the four fields of a [Primary] as
    attack, defense, knowledge, power, and [operator>>] reads a [Primary]
    written that way back as it was, leaving the values that follow for
    the next read: the two operators go through the fields in the same
    order.  So on a stream with nothing pending, a [Primary] written is
    the [Primary] read, and nothing is left pending. *)
Theorem Primary_read_write {S : Type} `{StreamInOrder S} (msg : S) (p : Primary)
    (rest : list Z) :
  pending (Primary_write msg p)
  = pending msg ++ [attack p; defense p; knowledge p; power p] /\
  (pending msg = [attack p; defense p; knowledge p; power p] ++ rest ->
   (Primary_read msg).1 = p /\ pending (Primary_read msg).2 = rest) /\
  (pending msg = [] ->
   (Primary_read (Primary_write msg p)).1 = p /\
   pending (Primary_read (Primary_write msg p)).2 = []).
Proof.
assert (Hwrite : forall (m : S) (q : Primary),
          pending (Primary_write m q)
          = pending m ++ [attack q; defense q; knowledge q; power q]).
{ intros m q. unfold Primary_write. rewrite !pending_write, <- !app_assoc. reflexivity. }
assert (Hread : forall (m : S) (q : Primary) (l : list Z),
          pending m = [attack q; defense q; knowledge q; power q] ++ l ->
          (Primary_read m).1 = q /\ pending (Primary_read m).2 = l).
{ intros m q l Hm. unfold Primary_read.
  destruct (pending_read m _ _ Hm) as [Ha Hm1].
  destruct (stream_read m) as [a m1]. cbn [fst snd] in *.
  destruct (pending_read m1 _ _ Hm1) as [Hd Hm2].
  destruct (stream_read m1) as [d m2]. cbn [fst snd] in *.
  destruct (pending_read m2 _ _ Hm2) as [Hk Hm3].
  destruct (stream_read m2) as [k m3]. cbn [fst snd] in *.
  destruct (pending_read m3 _ _ Hm3) as [Hp Hm4].
  destruct (stream_read m3) as [pw m4]. cbn [fst snd] in *.
  subst. destruct q. split; reflexivity. }
split; [apply Hwrite|]. split; [apply Hread|].
intros Hempty. apply Hread. rewrite Hwrite, Hempty. reflexivity.
Qed.

Lemma Primary_read_write_witness :
  (Primary_read (Primary_write ([] : list Z) (mkPrimary 3 1 4 2))).1 = mkPrimary 3 1 4 2 /\
  (Primary_read [3; 1; 2; 4; 9]).1 = mkPrimary 3 1 4 2.
Proof.
destruct (Primary_read_write ([] : list Z) (mkPrimary 3 1 4 2) [])
  as (_ & _ & Hround).
destruct (Primary_read_write ([3; 1; 2; 4; 9] : list Z) (mkPrimary 3 1 4 2) [9])
  as (_ & Hread & _).
split.
- apply Hround. reflexivity.
- apply Hread. reflexivity.
Defined.

(** ** The skill of the witch's hut *)

Lemma hut_entries (sec : secondary_t) :
  Forall (fun kw => UNKNOWN < kw.1 <= MAXSECONDARYSKILL /\ table_weight sec kw.1 = Z.of_N kw.2)
         (witchs_hut_skills sec).
Proof.
unfold witchs_hut_skills.
repeat (constructor; [split; [split; [reflexivity|discriminate]|reflexivity]|]).
constructor.
Qed.

Lemma hut_complete (sec : secondary_t) (skill : Z) :
  table_weight sec skill <> 0 ->
  exists w : N, (skill, w) ∈ witchs_hut_skills sec /\ table_weight sec skill = Z.of_N w.
Proof.
unfold table_weight, SecondaryGetWeightSkillFromRace. cbn [mature_secondary]. cbv zeta.
repeat (match goal with
        | |- context [skill =? ?k] => destruct (Z.eqb_spec skill k) as [->|_]
        end;
        [intros _; eexists; split; [|reflexivity]; unfold witchs_hut_skills;
         repeat first [apply list_elem_of_here | apply list_elem_of_further]|]).
intros H. contradiction H. reflexivity.
Qed.

Lemma hut_vector_elem (sec : secondary_t) (skill : Z) :
  skill ∈ witchs_hut_vector (Some sec)
  <-> UNKNOWN < skill <= MAXSECONDARYSKILL /\ 0 < table_weight sec skill.
Proof.
unfold witchs_hut_vector. rewrite list_elem_of_fmap. split.
- intros ([k w] & -> & Hin). apply list_elem_of_filter in Hin. destruct Hin as [Hw Hin].
  pose proof (hut_entries sec) as Hall. rewrite list.Forall_forall in Hall.
  destruct (Hall _ Hin) as [Hrange Hweight]. cbn [fst snd] in *.
  split; [exact Hrange|]. rewrite Hweight. lia.
- intros [_ Hweight].
  destruct (hut_complete sec skill ltac:(lia)) as (w & Hin & Heq).
  exists (skill, w). split; [reflexivity|].
  apply list_elem_of_filter. split; [|exact Hin]. cbn [snd]. lia.
Qed.

(** X25.  When [Rand::Get] returns an element of its vector,
    [RandForWitchsHut] returns a skill from 1 to 28 whose field of the
    witch's hut table is not zero, the field being the one
    [SecondaryGetWeightSkillFromRace] reads for that skill; it returns
    [UNKNOWN] exactly when every field is zero, and also when there is
    no table. *)
Theorem RandForWitchsHut_offered (Rand_Get : list Z -> Z) (sec : secondary_t) :
  picks_element Rand_Get ->
  (RandForWitchsHut (Some sec) Rand_Get = UNKNOWN
   <-> forall skill : Z, table_weight sec skill = 0) /\
  (RandForWitchsHut (Some sec) Rand_Get <> UNKNOWN ->
   UNKNOWN < RandForWitchsHut (Some sec) Rand_Get <= MAXSECONDARYSKILL /\
   0 < table_weight sec (RandForWitchsHut (Some sec) Rand_Get)) /\
  RandForWitchsHut None Rand_Get = UNKNOWN.
Proof.
intros Hget.
assert (Hcases :
  (witchs_hut_vector (Some sec) = [] /\ RandForWitchsHut (Some sec) Rand_Get = UNKNOWN) \/
  RandForWitchsHut (Some sec) Rand_Get ∈ witchs_hut_vector (Some sec)).
{ unfold RandForWitchsHut.
  destruct (witchs_hut_vector (Some sec)) as [|k v] eqn:Hv; [left; split; reflexivity|].
  right. apply Hget. discriminate. }
split; [|split; [|reflexivity]].
- split.
  + intros Hunknown skill.
    destruct Hcases as [[Hv _]|Hin].
    * destruct (Z.eq_dec (table_weight sec skill) 0) as [H0|H0]; [exact H0|].
      destruct (hut_complete sec skill H0) as (w & Hw & Heq).
      assert (Hmem : skill ∈ witchs_hut_vector (Some sec)).
      { apply hut_vector_elem.
        pose proof (hut_entries sec) as Hall. rewrite list.Forall_forall in Hall.
        destruct (Hall _ Hw) as [Hrange _]. cbn [fst] in Hrange.
        split; [exact Hrange|]. rewrite Heq in *. lia. }
      rewrite Hv in Hmem. exfalso. exact (not_elem_of_nil _ Hmem).
    * apply hut_vector_elem in Hin. rewrite Hunknown in Hin. lia.
  + intros Hzero.
    destruct Hcases as [[_ Hunknown]|Hin]; [exact Hunknown|].
    apply hut_vector_elem in Hin. rewrite Hzero in Hin. lia.
- intros Hknown.
  destruct Hcases as [[_ Hunknown]|Hin]; [contradiction|].
  apply hut_vector_elem in Hin. exact Hin.
Qed.

Lemma RandForWitchsHut_offered_witness :
  picks_element last_choice /\
  RandForWitchsHut (Some knight_initial) last_choice <> UNKNOWN /\
  0 < table_weight knight_initial (RandForWitchsHut (Some knight_initial) last_choice).
Proof.
assert (Hget : picks_element last_choice).
{ intros v Hv. unfold last_choice.
  induction v as [|a [|b v] IH]; [contradiction|left|].
  right. apply IH. discriminate. }
destruct (RandForWitchsHut_offered last_choice knight_initial Hget) as (_ & Hknown & _).
assert (Hne : RandForWitchsHut (Some knight_initial) last_choice <> UNKNOWN)
  by (vm_compute; discriminate).
split; [exact Hget|]. split; [exact Hne|].
apply Hknown. exact Hne.
Defined.

End SkillMoreFacts.

(** * The names of the skills *)

Module SkillNamesFacts.
Import Skill SkillNames.

Local Open Scope string_scope.

(** X16.  For each of the 28 skills and each level from Basic to Expert,
    the name [GetName] reads from its table is the word of the level, a
    space and the name [Secondary::String] gives the skill, the word of
    the level being what [Level::String] returns after its translation
    context [skill|]: the tables agree, and the index into the table of
    84 names stays within it. *)
Theorem GetName_level_and_skill (skill level : Z) :
  (UNKNOWN < skill <= MAXSECONDARYSKILL)%Z -> (Level.NONE < level <= Level.EXPERT)%Z ->
  "skill|" ++ GetName (Secondary_make skill level)
  = Level_String level ++ " " ++ Secondary_String skill.
Proof.
unfold UNKNOWN, MAXSECONDARYSKILL, Level.NONE, Level.EXPERT.
intros Hs Hl.
assert (Hlevel : level = 1%Z \/ level = 2%Z \/ level = 3%Z) by lia.
assert (Hskill : exists n : nat, (n < 28)%nat /\ skill = Z.of_nat (S n)).
{ exists (Z.to_nat (skill - 1)). split; lia. }
destruct Hskill as (n & Hn & ->).
do 28 (destruct n as [|n];
       [destruct Hlevel as [-> | [-> | ->]]; vm_compute; reflexivity|]).
lia.
Qed.

Lemma GetName_level_and_skill_witness :
  "skill|" ++ GetName (Secondary_make EAGLEEYE Level.ADVANCED) = "skill|Advanced Eagle Eye".
Proof.
apply (GetName_level_and_skill EAGLEEYE Level.ADVANCED).
- vm_compute. split; [reflexivity|discriminate].
- vm_compute. split; [reflexivity|discriminate].
Defined.

End SkillNamesFacts.

(** * Further properties of the level-up planner *)

Module PlannerMoreFacts.
Import Skill SkillSamples SkillMore SkillMoreFacts.

#[local] Arguments SecondaryPriorityFromRace : simpl never.
#[local] Arguments SecondaryGetWeightSkillFromRace : simpl never.
#[local] Arguments exclude_skills : simpl never.
#[local] Arguments GetLevel : simpl never.
#[local] Arguments secskills : simpl never.

Section WithRaceData.

Variable GetSkillStats : Z -> option stats_t.
Variable seedToRoll : Z -> Z -> Z.

Local Abbreviation weight := (SecondaryGetWeightSkillFromRace GetSkillStats).
Local Abbreviation priority := (SecondaryPriorityFromRace GetSkillStats seedToRoll).
Local Abbreviation plan := (FindSkillsForLevelUp GetSkillStats seedToRoll).

Lemma priority_parts (race : Z) (exclude : list Z) (seed : Z) :
  priority race exclude seed
  = let parts := (fun skill => (skill, weight race skill))
                   <$> filter (fun skill => skill ∉ exclude) secskills in
    if decide (Queue_Size parts <> 0%nat)
    then Queue_GetWithSeed seedToRoll parts seed else UNKNOWN.
Proof.
unfold SecondaryPriorityFromRace. cbv zeta.
rewrite (PlannerFacts.parts_entries GetSkillStats). reflexivity.
Qed.

Lemma Queue_total_zero (q : Queue) : Forall (fun vp => vp.2 = 0) q -> Queue_total q = 0.
Proof. induction 1 as [|[v p] q Hp _ IH]; simpl in *; lia. Qed.

(** X12.  [SecondaryPriorityFromRace] returns [UNKNOWN] or one of the 28
    listed skills that is not in the exclusion list; it returns [UNKNOWN]
    when every listed skill is excluded and when the race has no table. *)
Theorem priority_respects_exclusion (race : Z) (exclude : list Z) (seed : Z) :
  (priority race exclude seed = UNKNOWN \/
   (priority race exclude seed ∈ secskills /\ priority race exclude seed ∉ exclude)) /\
  (Forall (fun k => k ∈ exclude) secskills -> priority race exclude seed = UNKNOWN) /\
  (GetSkillStats race = None -> priority race exclude seed = UNKNOWN).
Proof.
split; [apply (PlannerFacts.priority_cases GetSkillStats seedToRoll)|]. split.
- intros Hall. rewrite priority_parts. cbv zeta.
  assert (Hnil : filter (fun skill => skill ∉ exclude) secskills = []).
  { destruct (filter (fun skill => skill ∉ exclude) secskills) as [|k ks] eqn:Hf; [reflexivity|].
    assert (Hk : k ∈ filter (fun skill => skill ∉ exclude) secskills)
      by (rewrite Hf; apply list_elem_of_here).
    apply list_elem_of_filter in Hk. destruct Hk as [Hn Hk].
    rewrite list.Forall_forall in Hall. exfalso. exact (Hn (Hall k Hk)). }
  rewrite Hnil. reflexivity.
- intros Hnone. rewrite priority_parts. cbv zeta.
  destruct (decide _) as [_|_]; [|reflexivity].
  unfold Queue_GetWithSeed. cbv zeta.
  rewrite Queue_total_zero; [reflexivity|].
  apply list.Forall_forall. intros [v p] Hvp.
  apply list_elem_of_fmap in Hvp. destruct Hvp as (k & Heq & _). injection Heq as -> ->.
  cbn [snd]. unfold SecondaryGetWeightSkillFromRace. rewrite Hnone. reflexivity.
Qed.

(** X13.  With a draw below the total weight, a skill returned by
    [SecondaryPriorityFromRace] has a weight that is not zero in the race
    table, and a skill is returned whenever some listed skill outside of
    the exclusion list has such a weight. *)
Theorem priority_has_weight (race : Z) (exclude : list Z) (seed : Z) :
  draws_below_total seedToRoll ->
  (priority race exclude seed <> UNKNOWN -> 0 < weight race (priority race exclude seed)) /\
  ((exists k, k ∈ secskills /\ (k ∉ exclude) /\ 0 < weight race k) ->
   priority race exclude seed <> UNKNOWN).
Proof.
intros Hdraw.
set (parts := (fun skill => (skill, weight race skill))
                <$> filter (fun skill => skill ∉ exclude) secskills).
assert (Hnn : Forall (fun vp : Z * Z => 0 <= vp.2) parts).
{ apply list.Forall_forall. intros [v p] Hvp.
  apply list_elem_of_fmap in Hvp. destruct Hvp as (k & Heq & _). injection Heq as -> ->.
  apply (PlannerFacts.weight_nonneg GetSkillStats). }
assert (Hpick : 0 < Queue_total parts ->
  Queue_GetWithSeed seedToRoll parts seed ∈ secskills /\
  0 < weight race (Queue_GetWithSeed seedToRoll parts seed)).
{ intros Htotal.
  destruct (Queue_GetWithSeed_positive seedToRoll parts seed Hdraw Hnn Htotal) as (w & Hin & Hw).
  apply list_elem_of_fmap in Hin. destruct Hin as (k & Heq & Hk).
  injection Heq as Hr ->. rewrite Hr.
  apply list_elem_of_filter in Hk. destruct Hk as [_ Hk]. split; [exact Hk|exact Hw]. }
rewrite priority_parts. cbv zeta. fold parts.
split.
- intros Hne.
  destruct (decide (Queue_Size parts <> 0%nat)) as [_|_]; [|contradiction].
  destruct (Z.le_gt_cases (Queue_total parts) 0) as [Hle|Hgt].
  + exfalso. apply Hne. unfold Queue_GetWithSeed. cbv zeta.
    destruct (Z.leb_spec (Queue_total parts) 0); [reflexivity|lia].
  + apply Hpick. lia.
- intros (k & Hk & Hex & Hw).
  assert (Hin : (k, weight race k) ∈ parts).
  { apply (list_elem_of_fmap_2 (fun skill => (skill, weight race skill))).
    apply list_elem_of_filter. split; assumption. }
  assert (Htotal : 0 < Queue_total parts)
    by exact (PlannerFacts.Queue_total_pos parts k (weight race k) Hin Hw Hnn).
  destruct (decide (Queue_Size parts <> 0%nat)) as [_|Hsize].
  + destruct (Hpick Htotal) as [Hsec _].
    apply PlannerFacts.secskills_range in Hsec. unfold UNKNOWN in *. lia.
  + exfalso. apply Hsize. unfold Queue_Size. intros Hlen.
    apply length_zero_iff_nil in Hlen. rewrite Hlen in Hin. exact (not_elem_of_nil _ Hin).
Qed.

Lemma GetLevel_in_range (st : SecSkills) (K : Z) :
  levels_in_range st -> Level.NONE <= GetLevel st K <= Level.EXPERT.
Proof.
intros Hall. unfold GetLevel.
destruct (list_find (fun v => isSkill v K) st) as [[i v]|] eqn:Hfind;
  [|unfold Level.NONE, Level.EXPERT; lia].
apply list_find_Some in Hfind. destruct Hfind as (Hi & _ & _).
unfold levels_in_range in Hall. rewrite list.Forall_forall in Hall.
apply Hall. apply list_elem_of_lookup. exists i. exact Hi.
Qed.

Lemma GetLevel_not_expert (st : SecSkills) (K : Z) :
  K ∉ exclude_skills st -> GetLevel st K <> Level.EXPERT.
Proof.
intros Hex Hlevel. apply Hex.
apply (PlannerFacts.elem_of_exclude_skills st K). left.
unfold GetLevel in Hlevel.
destruct (list_find (fun v => isSkill v K) st) as [[i v]|] eqn:Hfind; [|discriminate Hlevel].
apply find_kind_Some in Hfind. destruct Hfind as (Hi & Hk & _).
exists v. split; [|split; assumption].
apply list_elem_of_lookup. exists i. exact Hi.
Qed.

Lemma Level_proposal (s : Secondary) (l : Z) :
  Level.NONE < Level (NextLevel (SetLevel s l)) <= Level.EXPERT /\
  (Level.NONE <= l < Level.EXPERT -> Level (NextLevel (SetLevel s l)) = l + 1).
Proof.
unfold NextLevel, SetLevel, Level, Level.NONE, Level.BASIC, Level.ADVANCED, Level.EXPERT.
cbn [first second].
destruct (Z.leb_spec 0 l); destruct (Z.leb_spec l 3); cbn [andb];
  repeat match goal with |- context [?a =? ?b] => destruct (Z.eqb_spec a b) end;
  cbn [second]; lia.
Qed.

(** The two proposals, when the first skill is picked. *)
Lemma plan_picked (race seed1 seed2 : Z) (st : SecSkills) (sec1 sec2 : Secondary) :
  Skill (plan race seed1 seed2 st sec1 sec2).1 <> UNKNOWN ->
  exists K1 K2 s1 s2,
    K1 <> UNKNOWN /\ K1 ∈ secskills /\ (K1 ∉ exclude_skills st) /\
    (K2 = UNKNOWN \/ (K2 ∈ secskills /\ K2 ∉ exclude_skills st)) /\
    Skill s1 = K1 /\ Skill s2 = K2 /\
    plan race seed1 seed2 st sec1 sec2
    = (NextLevel (SetLevel s1 (GetLevel st K1)), NextLevel (SetLevel s2 (GetLevel st K2))).
Proof.
rewrite (PlannerFacts.FindSkillsForLevelUp_eq GetSkillStats seedToRoll). cbv zeta.
rewrite !(PlannerFacts.Skill_SetSkill_priority GetSkillStats seedToRoll).
destruct (decide (UNKNOWN <> priority race (exclude_skills st) seed1)) as [Hne|Hnone];
  cbn [fst snd].
- intros _.
  exists (priority race (exclude_skills st) seed1),
         (priority race (exclude_skills st ++ [priority race (exclude_skills st) seed1]) seed2),
         (SetSkill sec1 (priority race (exclude_skills st) seed1)),
         (SetSkill sec2 (priority race
            (exclude_skills st ++ [priority race (exclude_skills st) seed1]) seed2)).
  split; [congruence|].
  destruct (PlannerFacts.priority_cases GetSkillStats seedToRoll race (exclude_skills st) seed1)
    as [H|[Hin Hex]]; [congruence|].
  split; [exact Hin|]. split; [exact Hex|]. split.
  + match goal with
    | |- ?k = UNKNOWN \/ _ =>
        destruct (PlannerFacts.priority_cases GetSkillStats seedToRoll race
                    (exclude_skills st ++ [priority race (exclude_skills st) seed1]) seed2)
          as [H|[Hin2 Hex2]]
    end; [left; exact H|right].
    split; [exact Hin2|]. intros Hc. apply Hex2. apply elem_of_app. left. exact Hc.
  + rewrite !(PlannerFacts.Skill_SetSkill_priority GetSkillStats seedToRoll).
    split; [reflexivity|]. split; reflexivity.
- rewrite (PlannerFacts.Skill_SetSkill_priority GetSkillStats seedToRoll).
  intros Hk. exfalso. apply Hnone. congruence.
Qed.

(** X14.  A proposal that names a skill carries a level from Basic to
    Expert; on a skill set whose levels lie between None and Expert it is
    the level the hero has in that skill plus one (the proposals never name
    a skill already at Expert).  This holds for the first proposal, and for
    the second whenever the first names a skill. *)
Theorem proposal_is_next_level
    (race seed1 seed2 : Z) (st : SecSkills) (sec1 sec2 : Secondary) :
  Skill (plan race seed1 seed2 st sec1 sec2).1 <> UNKNOWN ->
  (Level.NONE < Level (plan race seed1 seed2 st sec1 sec2).1 <= Level.EXPERT /\
   (levels_in_range st ->
    Level (plan race seed1 seed2 st sec1 sec2).1
    = GetLevel st (Skill (plan race seed1 seed2 st sec1 sec2).1) + 1)) /\
  (Skill (plan race seed1 seed2 st sec1 sec2).2 <> UNKNOWN ->
   Level.NONE < Level (plan race seed1 seed2 st sec1 sec2).2 <= Level.EXPERT /\
   (levels_in_range st ->
    Level (plan race seed1 seed2 st sec1 sec2).2
    = GetLevel st (Skill (plan race seed1 seed2 st sec1 sec2).2) + 1)).
Proof.
intros Hpicked.
destruct (plan_picked race seed1 seed2 st sec1 sec2 Hpicked)
  as (K1 & K2 & s1 & s2 & HK1 & Hin1 & Hex1 & HK2 & Hs1 & Hs2 & ->).
cbn [fst snd].
rewrite !PlannerFacts.Skill_NextLevel, !SkillFacts.Skill_SetLevel, Hs1, Hs2.
split.
- split; [apply Level_proposal|]. intros Hrange.
  apply Level_proposal.
  pose proof (GetLevel_in_range st K1 Hrange). pose proof (GetLevel_not_expert st K1 Hex1). lia.
- intros HK2'. destruct HK2 as [HK2|[Hin2 Hex2]]; [contradiction|].
  split; [apply Level_proposal|]. intros Hrange.
  apply Level_proposal.
  pose proof (GetLevel_in_range st K2 Hrange). pose proof (GetLevel_not_expert st K2 Hex2). lia.
Qed.

Lemma proposal_learnable (st : SecSkills) (K : Z) (s : Secondary) :
  K <> UNKNOWN -> K ∈ secskills -> K ∉ exclude_skills st -> Skill s = K ->
  GetLevel (AddSkill st (NextLevel (SetLevel s (GetLevel st K)))) K
  = Level (NextLevel (SetLevel s (GetLevel st K))).
Proof.
intros HK Hin Hex Hs.
set (p := NextLevel (SetLevel s (GetLevel st K))).
assert (Hp : Skill p = K).
{ unfold p. rewrite PlannerFacts.Skill_NextLevel, SkillFacts.Skill_SetLevel. exact Hs. }
assert (Hl : Level.NONE < Level p <= Level.EXPERT) by apply Level_proposal.
assert (Hv : isValid p = true).
{ apply isValid_true. split; [congruence|]. unfold Level.NONE in *. lia. }
destruct (AddSkill_cases st p) as [_ Hcases].
destruct (Hcases Hv Hl) as [[Hlevel _]|(Hfind & [Hlen Hall] & _)].
- rewrite <- Hp. exact Hlevel.
- exfalso. apply Hex. apply (PlannerFacts.elem_of_exclude_skills st K). right.
  split; [|split; [exact Hin|]].
  + rewrite (Count_all_valid st Hall). exact Hlen.
  + unfold FindSkill in Hfind. rewrite Hp in Hfind.
    apply GetLevel_not_found.
    destruct (list_find (fun v => isSkill v K) st); [discriminate Hfind|reflexivity].
Qed.

(** X15.  A proposal that names a skill can always be learned: after
    [AddSkill] with the proposal the skill set holds the proposed skill at
    the proposed level.  A full skill set is only proposed skills that it
    holds, and any other has an empty slot or room for an entry.  This
    holds for the first proposal, and for the second whenever the first
    names a skill. *)
Theorem proposal_can_be_learned
    (race seed1 seed2 : Z) (st : SecSkills) (sec1 sec2 : Secondary) :
  Skill (plan race seed1 seed2 st sec1 sec2).1 <> UNKNOWN ->
  GetLevel (AddSkill st (plan race seed1 seed2 st sec1 sec2).1)
           (Skill (plan race seed1 seed2 st sec1 sec2).1)
  = Level (plan race seed1 seed2 st sec1 sec2).1 /\
  (Skill (plan race seed1 seed2 st sec1 sec2).2 <> UNKNOWN ->
   GetLevel (AddSkill st (plan race seed1 seed2 st sec1 sec2).2)
            (Skill (plan race seed1 seed2 st sec1 sec2).2)
   = Level (plan race seed1 seed2 st sec1 sec2).2).
Proof.
intros Hpicked.
destruct (plan_picked race seed1 seed2 st sec1 sec2 Hpicked)
  as (K1 & K2 & s1 & s2 & HK1 & Hin1 & Hex1 & HK2 & Hs1 & Hs2 & ->).
cbn [fst snd].
rewrite !PlannerFacts.Skill_NextLevel, !SkillFacts.Skill_SetLevel, Hs1, Hs2.
split.
- apply proposal_learnable; assumption.
- intros HK2'. destruct HK2 as [HK2|[Hin2 Hex2]]; [contradiction|].
  apply proposal_learnable; assumption.
Qed.

End WithRaceData.

Lemma proposal_is_next_level_witness :
  Level (FindSkillsForLevelUp luck_stats modulo_draw 0 12345 777
           seven_and_empty Secondary_default Secondary_default).1 = Level.BASIC.
Proof.
destruct (proposal_is_next_level luck_stats modulo_draw 0 12345 777
            seven_and_empty Secondary_default Secondary_default) as [[_ Hnext] _].
- vm_compute. discriminate.
- rewrite Hnext; [reflexivity|].
  unfold levels_in_range. apply (bool_decide_unpack _). vm_compute. exact I.
Defined.

Lemma proposal_can_be_learned_witness :
  GetLevel (AddSkill seven_and_empty
              (FindSkillsForLevelUp luck_stats modulo_draw 0 12345 777
                 seven_and_empty Secondary_default Secondary_default).1) LUCK
  = Level.BASIC.
Proof.
destruct (proposal_can_be_learned luck_stats modulo_draw 0 12345 777
            seven_and_empty Secondary_default Secondary_default) as [Hlearn _].
- vm_compute. discriminate.
- exact Hlearn.
Defined.

Lemma priority_respects_exclusion_witness :
  SecondaryPriorityFromRace even_stats modulo_draw 0 secskills 12345 = UNKNOWN.
Proof.
destruct (priority_respects_exclusion even_stats modulo_draw 0 secskills 12345)
  as (_ & Hall & _).
apply Hall. apply list.Forall_forall. intros k Hk. exact Hk.
Defined.

Lemma priority_has_weight_witness :
  SecondaryPriorityFromRace luck_stats modulo_draw 0 [] 12345 <> UNKNOWN.
Proof.
apply (priority_has_weight luck_stats modulo_draw 0 [] 12345).
- exact PlannerFacts.modulo_draw_below_total.
- exists LUCK. split; [|split].
  + apply (bool_decide_unpack _). vm_compute. exact I.
  + apply not_elem_of_nil.
  + reflexivity.
Defined.

End PlannerMoreFacts.

(** * Properties of the further functions of spell.cpp *)

Module SpellMoreFacts.
Import Spell SpellMore SpellSamples SpellMoreSamples.

#[local] Arguments allSpells : simpl never.

(** ** Levels and the spell book *)

Lemma allSpells_complete (id : SpellId) : id ∈ allSpells.
Proof.
apply list_elem_of_lookup. exists (Z.to_nat (index id)).
destruct id; reflexivity.
Qed.

Lemma allSpells_NoDup : NoDup allSpells.
Proof. apply (bool_decide_unpack (NoDup allSpells)). vm_compute. exact I. Qed.

Lemma Level_range (id : SpellId) : 0 <= Level id <= 5.
Proof. destruct id; vm_compute; split; discriminate. Qed.

(** The ids the spell book skips are those without a level. *)
Lemma skipped_no_level (id : SpellId) :
  (id = NONE \/ (index RANDOM <= index id /\ index id <= index PETRIFY)) <-> Level id = 0.
Proof.
split.
- intros [->|[Hlo Hhi]]; [reflexivity|].
  destruct id; try reflexivity; vm_compute in Hlo; contradiction Hlo; reflexivity.
- intros H0.
  destruct id; try (vm_compute in H0; discriminate H0);
    first [left; reflexivity | right; vm_compute; split; discriminate].
Qed.

Lemma spell_book_elem (spellLevel : Z) (id : SpellId) :
  id ∈ getAllSpellIdsSuitableForSpellBook spellLevel
  <-> 1 <= Level id /\ (0 < spellLevel -> Level id = spellLevel).
Proof.
unfold getAllSpellIdsSuitableForSpellBook.
rewrite list_elem_of_filter.
pose proof (skipped_no_level id) as Hskip.
pose proof (Level_range id) as Hrange.
pose proof (allSpells_complete id) as Hin.
split.
- intros [[Hreal Hlevel] _]. split; [|lia].
  destruct (Z.eq_dec (Level id) 0) as [H0|H0]; [|lia].
  contradiction Hreal. apply Hskip. exact H0.
- intros [H1 Hlevel]. split; [|exact Hin]. split; [|lia].
  intros Hs. apply Hskip in Hs. lia.
Qed.

(** X17.  The spell book list has no id twice; it holds exactly the ids
    with a level of 1 or more, that is all but [NONE] and the ids from
    [RANDOM] to [PETRIFY], restricted to the level asked for when that
    is positive; and since no level exceeds 5 it is empty above 5. *)
Theorem spell_book_ids (spellLevel : Z) :
  NoDup (getAllSpellIdsSuitableForSpellBook spellLevel) /\
  (forall id : SpellId,
     id ∈ getAllSpellIdsSuitableForSpellBook spellLevel
     <-> 1 <= Level id <= 5 /\ (0 < spellLevel -> Level id = spellLevel)) /\
  (forall id : SpellId,
     Level id = 0 <-> id = NONE \/ (index RANDOM <= index id /\ index id <= index PETRIFY)) /\
  (5 < spellLevel -> getAllSpellIdsSuitableForSpellBook spellLevel = []).
Proof.
split; [|split; [|split]].
- apply list.NoDup_filter. exact allSpells_NoDup.
- intros id. rewrite spell_book_elem. pose proof (Level_range id). lia.
- intros id. symmetry. apply skipped_no_level.
- intros Hhigh. apply elem_of_nil_inv. intros id Hin.
  apply spell_book_elem in Hin. pose proof (Level_range id). lia.
Qed.

Lemma spell_book_ids_witness :
  getAllSpellIdsSuitableForSpellBook 6 = [] /\
  Level FIREBALL = 3 /\
  FIREBALL ∈ getAllSpellIdsSuitableForSpellBook 3.
Proof.
destruct (spell_book_ids 6) as (_ & _ & _ & Hhigh).
destruct (spell_book_ids 3) as (_ & Helem & _ & _).
split; [apply Hhigh; lia|]. split; [reflexivity|].
apply Helem. split; [vm_compute; split; discriminate|]. intros _. reflexivity.
Defined.

(** ** Random spells *)

Lemma Rand_candidates_elem (level : Z) (spell : SpellId) :
  spell ∈ Rand_candidates level false
  <-> index spell < index PETRIFY /\ level = Level spell /\ isCombat spell = true.
Proof.
unfold Rand_candidates. rewrite list_elem_of_filter.
pose proof (allSpells_complete spell). tauto.
Qed.

Lemma Rand_candidates_some (level : Z) :
  0 <= level <= 5 -> Rand_candidates level false <> [].
Proof.
intros Hlevel.
assert (Hcases : level = 0 \/ level = 1 \/ level = 2 \/ level = 3 \/ level = 4 \/ level = 5)
  by lia.
destruct Hcases as [-> | [-> | [-> | [-> | [-> | ->]]]]]; vm_compute; discriminate.
Qed.

Lemma Rand_candidates_none (level : Z) :
  level < 0 \/ 5 < level -> Rand_candidates level false = [].
Proof.
intros Hlevel. apply elem_of_nil_inv. intros spell Hin.
apply Rand_candidates_elem in Hin. pose proof (Level_range spell). lia.
Qed.

Lemma Rand_chosen (Rand_Get : list SpellId -> SpellId) (level : Z) :
  chooses_element Rand_Get -> 0 <= level <= 5 ->
  RandCombat Rand_Get level ∈ Rand_candidates level false.
Proof.
intros Hget Hlevel. unfold RandCombat, Rand. cbv zeta.
pose proof (Rand_candidates_some level Hlevel) as Hsome.
pose proof (Hget _ Hsome) as Hin.
destruct (Rand_candidates level false) as [|spell vec]; [contradiction|exact Hin].
Qed.

(** X18.  When [Rand::Get] returns an element of its vector,
    [RandCombat] of a level from 1 to 5 is a combat spell of that level
    which the spell book of that level lists, never [NONE]; of level 0
    it is one of the ids [RANDOM] to [RANDOM5], which have no level and
    are not excluded from the combat spells; and of any other level it
    is [NONE]. *)
Theorem RandCombat_of_level (Rand_Get : list SpellId -> SpellId) (level : Z) :
  chooses_element Rand_Get ->
  (1 <= level <= 5 ->
   Level (RandCombat Rand_Get level) = level /\
   isCombat (RandCombat Rand_Get level) = true /\
   RandCombat Rand_Get level ∈ getAllSpellIdsSuitableForSpellBook level) /\
  (level = 0 ->
   index RANDOM <= index (RandCombat Rand_Get level) < index PETRIFY) /\
  (level < 0 \/ 5 < level -> RandCombat Rand_Get level = NONE).
Proof.
intros Hget. split; [|split].
- intros Hlevel.
  pose proof (Rand_chosen Rand_Get level Hget ltac:(lia)) as Hin.
  apply Rand_candidates_elem in Hin. destruct Hin as (_ & HL & Hcombat).
  split; [congruence|]. split; [exact Hcombat|].
  apply spell_book_elem. split; [lia|]. intros _. congruence.
- intros ->.
  pose proof (Rand_chosen Rand_Get 0 Hget ltac:(lia)) as Hin.
  apply Rand_candidates_elem in Hin. destruct Hin as (Hlt & HL & Hcombat).
  split; [|exact Hlt].
  symmetry in HL. apply skipped_no_level in HL.
  destruct HL as [Hnone|[Hlo _]]; [|exact Hlo].
  rewrite Hnone in Hcombat. vm_compute in Hcombat. discriminate Hcombat.
- intros Hlevel. unfold RandCombat, Rand. cbv zeta.
  rewrite (Rand_candidates_none level Hlevel). reflexivity.
Qed.

Lemma RandCombat_of_level_witness :
  chooses_element first_choice /\
  Level (RandCombat first_choice 3) = 3 /\
  RandCombat first_choice 7 = NONE.
Proof.
assert (Hget : chooses_element first_choice).
{ intros [|spell vec] Hvec; [contradiction|]. left. }
destruct (RandCombat_of_level first_choice 3 Hget) as (Hin & _ & _).
destruct (RandCombat_of_level first_choice 7 Hget) as (_ & _ & Hout).
split; [exact Hget|]. split.
- apply Hin. lia.
- apply Hout. lia.
Defined.

(** ** Weights by race *)

Lemma undead_damage (id : SpellId) :
  isUndeadOnly id = true -> 0 < Damage id -> id = HOLYWORD \/ id = HOLYSHOUT.
Proof.
intros Hundead Hdamage.
destruct id; try discriminate Hundead; try discriminate Hdamage; auto.
Qed.

Lemma alive_damage (id : SpellId) :
  isAliveOnly id = true -> 0 < Damage id -> id = DEATHRIPPLE \/ id = DEATHWAVE.
Proof.
intros Halive Hdamage.
destruct id; try discriminate Halive; try discriminate Hdamage; auto.
Qed.

Lemma weightForRace_values (Race_NECR : Z) (id : SpellId) (race : Z) :
  weightForRace Race_NECR id race = 0 \/ weightForRace Race_NECR id race = 10.
Proof.
destruct id; cbn [weightForRace]; destruct (race =? Race_NECR); cbn [negb]; auto.
Qed.

(** X19.  [weightForRace] is 0 or 10.  A damage spell that affects the
    undead only has weight 0 for the necromancer race and for no other; a
    damage spell that affects the living only has weight 0 for every race
    but the necromancer's; summon and guardian spells have weight 0 for
    every race; and the weight of a spell that is no such damage spell is
    the same for every race. *)
Theorem weightForRace_by_race (Race_NECR : Z) (id : SpellId) (race : Z) :
  (weightForRace Race_NECR id race = 0 \/ weightForRace Race_NECR id race = 10) /\
  (isUndeadOnly id = true -> 0 < Damage id ->
   (weightForRace Race_NECR id race = 0 <-> race = Race_NECR)) /\
  (isAliveOnly id = true -> 0 < Damage id ->
   (weightForRace Race_NECR id race = 0 <-> race <> Race_NECR)) /\
  (isSummon id || isGuardianType id = true -> weightForRace Race_NECR id race = 0) /\
  (Damage id = 0 \/ (isUndeadOnly id = false /\ isAliveOnly id = false) ->
   forall race' : Z, weightForRace Race_NECR id race' = weightForRace Race_NECR id race).
Proof.
split; [apply weightForRace_values|]. split; [|split; [|split]].
- intros Hundead Hdamage.
  destruct (undead_damage id Hundead Hdamage) as [->| ->]; cbn [weightForRace];
    destruct (Z.eqb_spec race Race_NECR); split; intros; try assumption; try reflexivity;
    try discriminate; contradiction.
- intros Halive Hdamage.
  destruct (alive_damage id Halive Hdamage) as [->| ->]; cbn [weightForRace];
    destruct (Z.eqb_spec race Race_NECR); cbn [negb]; split; intros; try assumption;
    try reflexivity; try discriminate; contradiction.
- intros Hkind. destruct id; try discriminate Hkind; reflexivity.
- intros Hplain race'.
  destruct id; try reflexivity;
    destruct Hplain as [Hdamage|[Hundead Halive]];
    first [discriminate Hdamage | discriminate Hundead | discriminate Halive].
Qed.

Lemma weightForRace_by_race_witness :
  isUndeadOnly HOLYWORD = true /\ 0 < Damage HOLYWORD /\
  (weightForRace 5 HOLYWORD 5 = 0 <-> 5 = 5) /\
  weightForRace 5 SUMMONEELEMENT 2 = 0 /\
  weightForRace 5 BLESS 2 = weightForRace 5 BLESS 5.
Proof.
destruct (weightForRace_by_race 5 HOLYWORD 5) as (_ & Hholy & _).
destruct (weightForRace_by_race 5 SUMMONEELEMENT 2) as (_ & _ & _ & Hsummon & _).
destruct (weightForRace_by_race 5 BLESS 5) as (_ & _ & _ & _ & Hplain).
split; [reflexivity|]. split; [reflexivity|]. split; [|split].
- apply Hholy; reflexivity.
- apply Hsummon. reflexivity.
- apply Hplain. left. reflexivity.
Defined.

(** ** Classification of the spells *)

(** X20.  The three target sides exclude each other: a spell applies to
    friends, to enemies or to any troops, or to none of them.  A
    single-target spell and a mass spell have exactly one side; the only
    other spell with a side is Chain Lightning.  A mind-influence spell
    is a single-target spell for enemies, and a spell that dispels
    effects is never one for enemies. *)
Theorem target_side_unique (id : SpellId) :
  (target_sides id <= 1)%nat /\
  (isSingleTarget id || isMassActions id = true -> target_sides id = 1%nat) /\
  (target_sides id = 1%nat ->
   isSingleTarget id || isMassActions id = true \/ id = CHAINLIGHTNING) /\
  (isMindInfluence id = true -> isSingleTarget id = true /\ isApplyToEnemies id = true) /\
  (isEffectDispel id = true -> isApplyToEnemies id = false).
Proof.
destruct id; vm_compute; repeat split; intros; try discriminate; try lia; auto.
Qed.

Lemma target_side_unique_witness :
  isSingleTarget BLIND || isMassActions BLIND = true /\
  target_sides BLIND = 1%nat /\
  isMindInfluence BLIND = true /\
  isApplyToEnemies BLIND = true /\
  isApplyToEnemies CURE = false.
Proof.
destruct (target_side_unique BLIND) as (_ & Hone & _ & Hmind & _).
destruct (target_side_unique CURE) as (_ & _ & _ & _ & Hdispel).
split; [reflexivity|]. split; [apply Hone; reflexivity|]. split; [reflexivity|].
split; [apply Hmind; reflexivity|apply Hdispel; reflexivity].
Defined.

(** X21.  A single-target spell is never applied without a focus object,
    and a mass spell and a summon spell always are.  Every spell that is
    single-target, applied without a focus object, given a target side,
    restricted to the undead or to the living, or that deals damage is a
    combat spell.  No spell is restricted both to the undead and to the
    living, and no damage spell applies to friends. *)
Theorem focus_and_combat (id : SpellId) :
  (isSingleTarget id = true -> isApplyWithoutFocusObject id = false) /\
  (isMassActions id || isSummon id = true ->
   isApplyWithoutFocusObject id = true /\ isSingleTarget id = false) /\
  (isSingleTarget id = true \/ isApplyWithoutFocusObject id = true \/
   (0 < target_sides id)%nat \/ isUndeadOnly id = true \/ isAliveOnly id = true \/
   0 < Damage id ->
   isCombat id = true) /\
  (isUndeadOnly id = true -> isAliveOnly id = false) /\
  (0 < Damage id -> isApplyToFriends id = false).
Proof.
split; [|split; [|split; [|split]]].
- destruct id; vm_compute; intros; try discriminate; reflexivity.
- destruct id; vm_compute; intros; try discriminate; split; reflexivity.
- destruct id; try (intros _; reflexivity);
    intros [H|[H|[H|[H|[H|H]]]]]; vm_compute in H; try discriminate H; lia.
- destruct id; vm_compute; intros; try discriminate; reflexivity.
- destruct id; vm_compute; intros; try discriminate; reflexivity.
Qed.

Lemma focus_and_combat_witness :
  isSingleTarget HASTE = true /\
  isApplyWithoutFocusObject HASTE = false /\
  isApplyWithoutFocusObject MASSHASTE = true /\
  isCombat HASTE = true /\
  isAliveOnly HOLYWORD = false /\
  isApplyToFriends FIREBALL = false.
Proof.
destruct (focus_and_combat HASTE) as (Hsingle & _ & Hcombat & _ & _).
destruct (focus_and_combat MASSHASTE) as (_ & Hmass & _ & _ & _).
destruct (focus_and_combat HOLYWORD) as (_ & _ & _ & Hundead & _).
destruct (focus_and_combat FIREBALL) as (_ & _ & _ & _ & Hdamage).
split; [reflexivity|]. split; [apply Hsingle; reflexivity|].
split; [apply Hmass; reflexivity|].
split; [apply Hcombat; left; reflexivity|].
split; [apply Hundead; reflexivity|apply Hdamage; reflexivity].
Defined.

Lemma base_cost_range (id : SpellId) : 0 <= spellPoints id None <= 255.
Proof. destruct id; vm_compute; split; discriminate. Qed.

(** ** The cost for a caster *)

Lemma discount_schedule (id : SpellId) :
  exists a b c d : Z,
    GetSpellDiscounts id = [a; b; c; d] /\
    0 <= a /\ a <= b /\ b <= c /\ c <= d /\ d <= stats_spellPoints (spells id).
Proof.
destruct id; do 4 eexists; (split; [reflexivity|]); vm_compute; intuition discriminate.
Qed.

Lemma reduction_range (hero : HeroBase) (id : SpellId) :
  0 <= GetSpellCostReduction hero id <= stats_spellPoints (spells id).
Proof.
unfold GetSpellCostReduction.
destruct (discount_schedule id) as (a & b & c & d & -> & Hbounds).
destruct (Z.to_nat (schoolLevel hero (GetSchoolOfMagic id))) as [|[|[|[|[|n]]]]];
  simpl; lia.
Qed.

Lemma reduction_mono (hero : HeroBase) (level' : SchoolOfMagic -> Z) (id : SpellId) :
  (forall school : SchoolOfMagic,
     0 <= schoolLevel hero school <= level' school /\ level' school <= 3) ->
  GetSpellCostReduction hero id <= GetSpellCostReduction (with_school_level hero level') id.
Proof.
intros Hlevels. unfold GetSpellCostReduction, with_school_level. cbn [schoolLevel].
specialize (Hlevels (GetSchoolOfMagic id)).
destruct (discount_schedule id) as (a & b & c & d & -> & Hbounds).
remember (schoolLevel hero (GetSchoolOfMagic id)) as l1 eqn:E1.
remember (level' (GetSchoolOfMagic id)) as l2 eqn:E2.
clear E1 E2.
assert (H1 : l1 = 0 \/ l1 = 1 \/ l1 = 2 \/ l1 = 3) by lia.
assert (H2 : l2 = 0 \/ l2 = 1 \/ l2 = 2 \/ l2 = 3) by lia.
destruct H1 as [-> | [-> | [-> | ->]]]; destruct H2 as [-> | [-> | [-> | ->]]];
  simpl; lia.
Qed.

Lemma category_base (id : SpellId) :
  costReductionType id <> ArtifactBonusType.NONE -> 1 <= stats_spellPoints (spells id).
Proof.
intros Htype. destruct id; try (contradiction Htype; reflexivity); vm_compute; discriminate.
Qed.

Lemma reductions_range (percents : list Z) (c1 c2 : Z) :
  Forall (fun value => 0 <= value <= 100) percents -> 0 <= c1 -> c1 <= c2 ->
  0 <= fold_left (fun spellCost value => Z.quot (spellCost * (100 - value)) 100) percents c1
  /\ fold_left (fun spellCost value => Z.quot (spellCost * (100 - value)) 100) percents c1
     <= fold_left (fun spellCost value => Z.quot (spellCost * (100 - value)) 100) percents c2
  /\ fold_left (fun spellCost value => Z.quot (spellCost * (100 - value)) 100) percents c2
     <= c2.
Proof.
intros Hall. revert c1 c2.
induction Hall as [|value percents Hv _ IH]; intros c1 c2 H0 Hle; simpl; [lia|].
assert (Hq1 : 0 <= Z.quot (c1 * (100 - value)) 100) by (apply Z.quot_pos; nia).
assert (Hq12 : Z.quot (c1 * (100 - value)) 100 <= Z.quot (c2 * (100 - value)) 100)
  by (apply Z.quot_le_mono; nia).
assert (Hq2 : Z.quot (c2 * (100 - value)) 100 <= c2)
  by (apply Z.quot_le_upper_bound; nia).
destruct (IH _ _ Hq1 Hq12) as (IH0 & IH12 & IH2). lia.
Qed.

Lemma floor_mono (base c1 c2 : Z) :
  0 <= c1 -> c1 <= c2 -> c2 <= base -> 1 <= base -> base <= 255 ->
  (if c1 <? 1 then 1 else wrap32 c1) <= (if c2 <? 1 then 1 else wrap32 c2)
  /\ (if c2 <? 1 then 1 else wrap32 c2) <= base.
Proof.
intros H0 H12 H2 H1 H255. unfold wrap32.
destruct (Z.ltb_spec c1 1); destruct (Z.ltb_spec c2 1);
  rewrite ?Z.mod_small by lia; lia.
Qed.

(** X26.  For a caster whose artifact percentages are from 0 to 100, a
    spell never costs more than without a caster, the subtraction of the
    school discount never wraps around, and a higher mastery of the
    schools of magic, up to Expert, never makes the spell cost more. *)
Theorem spellPoints_with_hero (id : SpellId) (hero : HeroBase)
    (level' : SchoolOfMagic -> Z) :
  Forall (fun value => 0 <= value <= 100)
         (getTotalArtifactMultipliedPercent hero (costReductionType id)) ->
  (forall school : SchoolOfMagic,
     0 <= schoolLevel hero school <= level' school /\ level' school <= 3) ->
  spellPoints id (Some (with_school_level hero level')) <= spellPoints id (Some hero) /\
  spellPoints id (Some hero) <= spellPoints id None /\
  0 <= stats_spellPoints (spells id) - GetSpellCostReduction hero id.
Proof.
intros Hall Hlevels.
pose proof (reduction_range hero id) as Hr.
pose proof (reduction_range (with_school_level hero level') id) as Hr'.
pose proof (reduction_mono hero level' id Hlevels) as Hmono.
pose proof (base_cost_range id) as Hbase.
pose proof (category_base id) as Hcat.
unfold spellPoints in *. cbv zeta.
cbn [getTotalArtifactMultipliedPercent with_school_level].
set (base := stats_spellPoints (spells id)) in *.
set (r' := GetSpellCostReduction (with_school_level hero level') id) in *.
set (r := GetSpellCostReduction hero id) in *.
set (percents := getTotalArtifactMultipliedPercent hero (costReductionType id)) in *.
destruct (reductions_range percents (base - r') (base - r) Hall ltac:(lia) ltac:(lia))
  as (Hf0 & Hf12 & Hf2).
destruct (reductions_range percents (base - r) (base - r) Hall ltac:(lia) ltac:(lia))
  as (Hg0 & _ & Hg2).
split; [|split; [|lia]].
- destruct (costReductionType id) eqn:Htype;
    [unfold wrap32; rewrite !Z.mod_small by lia; lia
    |apply (floor_mono base); first [lia | apply Hcat; congruence]..].
- destruct (costReductionType id) eqn:Htype;
    [unfold wrap32; rewrite !Z.mod_small by lia; lia
    |refine (proj2 (floor_mono base _ _ Hg0 (Z.le_refl _) _ _ _));
     first [lia | apply Hcat; congruence]..].
Qed.

Lemma spellPoints_with_hero_witness :
  spellPoints FIREBALL (Some (with_school_level bless_collector (fun _ => 2)))
  <= spellPoints FIREBALL (Some bless_collector) /\
  spellPoints FIREBALL (Some bless_collector) <= spellPoints FIREBALL None /\
  0 <= stats_spellPoints (spells FIREBALL) - GetSpellCostReduction bless_collector FIREBALL.
Proof.
apply spellPoints_with_hero.
- vm_compute. constructor.
- intros school. simpl. lia.
Defined.

(** ** Casts and their modifier *)

Lemma casts_cases (id : SpellId) (points : Z) :
  (spellPoints id None = 0 /\ casts id points = 0) \/
  (0 < spellPoints id None /\ casts id points = Z.min 10 (points / spellPoints id None)).
Proof.
unfold casts. cbv zeta. pose proof (base_cost_range id) as Hcost.
destruct (Z.eqb_spec (spellPoints id None) 0) as [H0|H0]; [left|right]; split;
  try reflexivity; lia.
Qed.

Lemma casts_range (id : SpellId) (points : Z) : 0 <= points -> 0 <= casts id points <= 10.
Proof.
intros Hpoints.
destruct (casts_cases id points) as [[_ ->]|[Hcost ->]]; [lia|].
pose proof (Z.div_pos points (spellPoints id None) Hpoints Hcost). lia.
Qed.

Lemma casts_mono (id : SpellId) (points1 points2 : Z) :
  points1 <= points2 -> casts id points1 <= casts id points2.
Proof.
intros Hle.
destruct (casts_cases id points1) as [[H0 ->]|[Hcost ->]];
  destruct (casts_cases id points2) as [[H0' ->]|[Hcost' ->]]; try lia.
pose proof (Z.div_le_mono points1 points2 (spellPoints id None) Hcost Hle). lia.
Qed.

(** X22.  The number of casts [getStrategicValue] counts for an amount of
    spell points is between 0 and 10, can be paid for with these spell
    points, does not decrease with more spell points, and is 0 exactly
    when the spell points are less than the cost of the spell or the
    spell costs nothing. *)
Theorem casts_affordable (id : SpellId) (points1 points2 : Z) :
  0 <= points1 -> points1 <= points2 ->
  0 <= casts id points1 <= 10 /\
  casts id points1 * spellPoints id None <= points1 /\
  casts id points1 <= casts id points2 /\
  (casts id points1 = 0 <-> points1 < spellPoints id None \/ spellPoints id None = 0).
Proof.
intros Hpoints Hle.
split; [apply casts_range; exact Hpoints|].
split; [|split; [apply casts_mono; exact Hle|]].
- destruct (casts_cases id points1) as [[_ ->]|[Hcost ->]]; [lia|].
  pose proof (Z.mul_div_le points1 (spellPoints id None) Hcost).
  pose proof (Z.div_pos points1 (spellPoints id None) Hpoints ltac:(lia)). nia.
- destruct (casts_cases id points1) as [[H0 ->]|[Hcost ->]]; [split; [right; exact H0|reflexivity]|].
  pose proof (Z.div_pos points1 (spellPoints id None) Hpoints ltac:(lia)) as Hq.
  split.
  + intros Hmin. left.
    assert (Hzero : points1 / spellPoints id None = 0) by lia.
    apply Z.div_small_iff in Hzero; lia.
  + intros [Hlt|H0]; [|lia].
    rewrite Z.div_small by lia. reflexivity.
Qed.

Lemma casts_affordable_witness :
  0 <= casts FIREBALL 30 <= 10 /\
  casts FIREBALL 30 * spellPoints FIREBALL None <= 30 /\
  casts FIREBALL 30 <= casts FIREBALL 200 /\
  (casts FIREBALL 30 = 0 <-> 30 < spellPoints FIREBALL None \/ spellPoints FIREBALL None = 0).
Proof. apply (casts_affordable FIREBALL 30 200); lia. Defined.

Import F64 F64Facts.

Lemma amountModifier_table (c : Z) :
  0 <= c <= 10 ->
  c = 0 \/ c = 1 \/ c = 2 \/ c = 3 \/ c = 4 \/ c = 5 \/ c = 6 \/ c = 7 \/ c = 8 \/ c = 9
  \/ c = 10.
Proof. lia. Qed.

Lemma amountModifier_increasing (c1 c2 : Z) :
  0 <= c1 -> c1 < c2 -> c2 <= 10 ->
  F64.ltb (amountModifier c1) (amountModifier c2) = true.
Proof.
intros H0 Hlt H10.
destruct (amountModifier_table c1 ltac:(lia))
  as [-> | [-> | [-> | [-> | [-> | [-> | [-> | [-> | [-> | [-> | ->]]]]]]]]]];
  destruct (amountModifier_table c2 ltac:(lia))
    as [-> | [-> | [-> | [-> | [-> | [-> | [-> | [-> | [-> | [-> | ->]]]]]]]]]];
  try lia; reflexivity.
Qed.

Lemma amountModifier_at_most_5 (c : Z) :
  0 <= c <= 10 ->
  F64.leb (F64.of_Z 0) (amountModifier c) = true /\
  F64.leb (amountModifier c) (F64.of_Z 5) = true.
Proof.
intros Hc.
destruct (amountModifier_table c Hc)
  as [-> | [-> | [-> | [-> | [-> | [-> | [-> | [-> | [-> | [-> | ->]]]]]]]]]];
  split; reflexivity.
Qed.

Lemma leb_refl (x : F64.t) : F64.leb x x = true.
Proof. unfold F64.leb. cbv zeta. apply Z.leb_refl. Qed.

Lemma ltb_leb (x y : F64.t) : F64.ltb x y = true -> F64.leb x y = true.
Proof.
unfold F64.ltb, F64.leb. cbv zeta. intros H.
apply Z.ltb_lt in H. apply Z.leb_le. lia.
Qed.

(** X23.  In binary64 arithmetic the modifier of the number of casts is
    strictly increasing from 0 casts to 10 casts, from 0 at no cast to
    exactly 5 at 10 casts; so for every spell the modifier
    [getStrategicValue] applies is between 0 and 5 and does not decrease
    with more spell points. *)
Theorem amountModifier_of_casts :
  (forall c1 c2 : Z,
     0 <= c1 -> c1 < c2 -> c2 <= 10 ->
     F64.ltb (amountModifier c1) (amountModifier c2) = true) /\
  F64.Fnum (amountModifier 0) = 0 /\
  F64.eqb (amountModifier 10) (F64.of_Z 5) = true /\
  (forall (id : SpellId) (points1 points2 : Z),
     0 <= points1 -> points1 <= points2 ->
     F64.leb (F64.of_Z 0) (amountModifier (casts id points1)) = true /\
     F64.leb (amountModifier (casts id points1)) (amountModifier (casts id points2)) = true /\
     F64.leb (amountModifier (casts id points2)) (F64.of_Z 5) = true).
Proof.
split; [exact amountModifier_increasing|].
split; [reflexivity|]. split; [reflexivity|].
intros id points1 points2 Hpoints Hle.
pose proof (casts_range id points1 Hpoints) as H1.
pose proof (casts_range id points2 ltac:(lia)) as H2.
pose proof (casts_mono id points1 points2 Hle) as Hmono.
split; [apply amountModifier_at_most_5; exact H1|].
split; [|apply amountModifier_at_most_5; exact H2].
destruct (Z.eq_dec (casts id points1) (casts id points2)) as [->|Hne].
- apply leb_refl.
- apply ltb_leb. apply amountModifier_increasing; lia.
Qed.

Lemma amountModifier_of_casts_witness :
  F64.ltb (amountModifier 4) (amountModifier 9) = true /\
  F64.leb (amountModifier (casts FIREBALL 30)) (amountModifier (casts FIREBALL 200)) = true.
Proof.
destruct amountModifier_of_casts as (Hincr & _ & _ & Hcasts).
split.
- apply Hincr; lia.
- apply (Hcasts FIREBALL 30 200); lia.
Defined.

(** ** The value of a spell that cannot be cast *)

#[local] Existing Instance F64X.ops.

Lemma Fnum_mul_zero_l (x y : F64.t) : F64.Fnum x = 0 -> F64.Fnum (F64.mul x y) = 0.
Proof.
intros Hx. unfold F64.mul. rewrite Hx, Z.mul_0_l.
rewrite round_small by (vm_compute; reflexivity). reflexivity.
Qed.

Lemma Fnum_mul_zero_r (x y : F64.t) : F64.Fnum y = 0 -> F64.Fnum (F64.mul x y) = 0.
Proof.
intros Hy. unfold F64.mul. rewrite Hy, Z.mul_0_r.
rewrite round_small by (vm_compute; reflexivity). reflexivity.
Qed.

Lemma is_zero_mul_r (x : F64.t) (y : F64.t) :
  F64.Fnum y = 0 -> F64X.is_zero (F64X.mul (F64X.Finite x) (F64X.Finite y)) = true.
Proof.
intros Hy. cbn [F64X.mul F64X.is_zero]. rewrite (Fnum_mul_zero_r x y Hy). reflexivity.
Qed.

Lemma is_zero_mul_l (x : F64.t) (y : F64.t) :
  F64.Fnum x = 0 -> F64X.is_zero (F64X.mul (F64X.Finite x) (F64X.Finite y)) = true.
Proof.
intros Hx. cbn [F64X.mul F64X.is_zero]. rewrite (Fnum_mul_zero_l x y Hx). reflexivity.
Qed.

(** The value of the branches that scale the army strength, at no cast:
    zero for a finite army strength, NaN for an infinite one and for
    NaN. *)
Lemma army_value_at_no_cast (armyStrength : F64X.t) (literal : F64.t) (e : Z) :
  F64.Fnum literal <> 0 ->
  (F64X.is_finite armyStrength = true ->
   F64X.is_zero (F64X.mul (F64X.mul armyStrength (F64X.Finite literal))
                          (F64X.Finite (F64.mk 0 e))) = true) /\
  (F64X.is_finite armyStrength = false ->
   F64X.mul (F64X.mul armyStrength (F64X.Finite literal)) (F64X.Finite (F64.mk 0 e))
   = F64X.NaN).
Proof.
intros Hliteral. destruct armyStrength as [x|s|]; cbn [F64X.is_finite]; split;
  try discriminate; intros _.
- apply is_zero_mul_r. reflexivity.
- cbn [F64X.mul]. destruct (Z.eqb_spec (F64.Fnum literal) 0); [contradiction|reflexivity].
- reflexivity.
Qed.

(** X24.  In binary64 arithmetic, when the spell points are less than
    the cost of the spell, the strategic value of a spell other than a
    summon spell and View All, whose values do not take the number of
    casts into account, is zero for every finite army strength, whatever
    the spell power and the school modifier; for an adventure spell and
    for a damage spell, which do not use the army strength, it is zero
    for every army strength; and for the other spells it is NaN when the
    army strength is an infinity or NaN.  No product on these paths can
    overflow, one factor being below 1 or zero, and one that underflows
    is multiplied by zero. *)
Theorem unaffordable_value_zero (monsterStrength : SpellId -> F64X.t) (id : SpellId)
    (armyStrength : F64X.t) (currentSpellPoints spellPower schoolSpellModifier : Z) :
  0 <= currentSpellPoints < spellPoints id None ->
  isSummon id = false -> id <> VIEWALL ->
  (F64X.is_finite armyStrength = true \/ isAdventure id = true \/ isDamage id = true ->
   F64X.is_zero (getStrategicValue monsterStrength id armyStrength currentSpellPoints
                                   spellPower schoolSpellModifier) = true) /\
  (F64X.is_finite armyStrength = false -> isAdventure id = false -> isDamage id = false ->
   getStrategicValue monsterStrength id armyStrength currentSpellPoints
                     spellPower schoolSpellModifier = F64X.NaN).
Proof.
intros Hpoints Hsummon Hview.
assert (Hcasts : casts id currentSpellPoints = 0).
{ destruct (casts_cases id currentSpellPoints) as [[_ H]|[Hcost H]]; [exact H|].
  rewrite H, Z.div_small by lia. reflexivity. }
unfold getStrategicValue. cbv zeta. rewrite Hcasts.
change (amountModifier (D := F64X.t) 0) with (F64X.Finite (F64.mk 0 (-57))).
change (@dmul F64X.t F64X.ops) with F64X.mul.
change (@of_int F64X.t F64X.ops) with (fun z => F64X.Finite (F64.of_Z z)).
change (@lit_0_1 F64X.t F64X.ops) with (F64X.Finite F64.literal_0_1).
change (@lit_0_04 F64X.t F64X.ops) with (F64X.Finite F64.literal_0_04).
cbv beta.
destruct (army_value_at_no_cast armyStrength F64.literal_0_1 (-57) ltac:(discriminate))
  as [Hzero1 Hnan1].
destruct (army_value_at_no_cast armyStrength F64.literal_0_04 (-57) ltac:(discriminate))
  as [Hzero4 Hnan4].
destruct (isAdventure id) eqn:Hadventure.
- split; [|discriminate]. intros _.
  destruct id; try reflexivity; contradiction Hview; reflexivity.
- destruct (isDamage id) eqn:Hdamage.
  + split; [|discriminate]. intros _. apply is_zero_mul_l. reflexivity.
  + rewrite Hsummon.
    destruct (isResurrect id || isMassActions id || bool_decide (id = BLIND)
              || bool_decide (id = PARALYZE)).
    * split; [|intros Hinf _ _; exact (Hnan1 Hinf)].
      intros [Hfin|[H|H]]; [exact (Hzero1 Hfin)|discriminate H|discriminate H].
    * split; [|intros Hinf _ _; exact (Hnan4 Hinf)].
      intros [Hfin|[H|H]]; [exact (Hzero4 Hfin)|discriminate H|discriminate H].
Qed.

Lemma unaffordable_value_zero_witness :
  0 <= 4 < spellPoints BLESS None /\
  F64X.is_zero (getStrategicValue flat_strength_x BLESS (F64X.Finite (F64.of_Z 5000)) 4 7 10)
  = true /\
  getStrategicValue flat_strength_x BLESS (F64X.Infinite false) 4 7 10 = F64X.NaN.
Proof.
assert (Hpoints : 0 <= 4 < spellPoints BLESS None)
  by (vm_compute; split; [discriminate|reflexivity]).
destruct (unaffordable_value_zero flat_strength_x BLESS (F64X.Finite (F64.of_Z 5000)) 4 7 10
            Hpoints eq_refl ltac:(discriminate)) as [Hzero _].
destruct (unaffordable_value_zero flat_strength_x BLESS (F64X.Infinite false) 4 7 10
            Hpoints eq_refl ltac:(discriminate)) as [_ Hnan].
split; [exact Hpoints|]. split.
- apply Hzero. left. reflexivity.
- apply Hnan; reflexivity.
Defined.

End SpellMoreFacts.
